(** * The Webiny deploy command ([Deploy] class), embedded in Rocq

    The [Deploy] class of the CLI drives a deploy run: it validates the CI
    environment, sets up the SDK client, resolves the site, builds every
    package, creates deploy records, uploads the required files, activates the
    deploys and polls until they are live.

    Everything the class talks to (the cloud SDK, the file system, the
    prompts, [execa], the archiver, [listPackages]) is outside of it.  The
    embedding keeps those collaborators as an oracle [Ext]: every call is
    appended to a chronological [trace] and answered by a function of the
    trace so far, so an answer may depend on everything that happened
    before.  [process.exit] and thrown errors are outcomes of the monad [M]. *)

From Stdlib Require Import ZArith Lia Ascii String.
From stdpp Require Import base gmap strings list pretty.

(** ** JavaScript values used by the class *)

(** A thrown value: [err.code] (absent on a [TypeError]) and [err.message]. *)
Record JsError := { err_code : option string; err_message : string }.

(** The result of an awaited external call: fulfilled or rejected. *)
Inductive Res (A : Type) : Type :=
| Ok (a : A)
| Err (e : JsError).
Arguments Ok {A} a.
Arguments Err {A} e.

(** The error JavaScript raises when a property is read from [undefined] or
    [null]. *)
Definition typeError (prop base : string) : JsError :=
  {| err_code := None;
     err_message := "Cannot read property '" +:+ prop +:+ "' of " +:+ base |}.

(** Truthiness of a value that is [undefined]/[null] or a string. *)
Definition truthy (v : option string) : bool :=
  match v with
  | Some s => negb (String.eqb s "")
  | None => false
  end.

(** Strings are sequences of bytes, the UTF-8 encoding of the text, as a
    string literal of this file is.

    [s.trim()] is empty: every character of [s] is white space.  [trim]
    strips the white space and the line terminators of ECMAScript: the
    control characters U+0009 to U+000D, the space, U+00A0, U+FEFF and the
    space separators U+1680, U+2000 to U+200A, U+202F, U+205F and U+3000, and
    the line terminators U+2028 and U+2029. *)
Definition is_space (c : ascii) : bool :=
  let n := nat_of_ascii c in
  (n =? 32) || (n =? 9) || (n =? 10) || (n =? 11) || (n =? 12) || (n =? 13).

(** The two-byte white space: U+00A0. *)
Definition is_space2 (c1 c2 : ascii) : bool :=
  (nat_of_ascii c1 =? 194) && (nat_of_ascii c2 =? 160).

(** The three-byte white space. *)
Definition is_space3 (c1 c2 c3 : ascii) : bool :=
  let n1 := nat_of_ascii c1 in
  let n2 := nat_of_ascii c2 in
  let n3 := nat_of_ascii c3 in
  ((n1 =? 225) && (n2 =? 154) && (n3 =? 128)) ||         (* U+1680 *)
  ((n1 =? 226) && (n2 =? 128) &&
   (((128 <=? n3) && (n3 <=? 138)) ||                     (* U+2000-U+200A *)
    (n3 =? 168) || (n3 =? 169) || (n3 =? 175))) ||        (* U+2028/9, U+202F *)
  ((n1 =? 226) && (n2 =? 129) && (n3 =? 159)) ||         (* U+205F *)
  ((n1 =? 227) && (n2 =? 128) && (n3 =? 128)) ||         (* U+3000 *)
  ((n1 =? 239) && (n2 =? 187) && (n3 =? 191)).           (* U+FEFF *)

Fixpoint trim_is_empty (s : string) : bool :=
  match s with
  | EmptyString => true
  | String c1 rest1 =>
      if is_space c1 then trim_is_empty rest1
      else
        match rest1 with
        | EmptyString => false
        | String c2 rest2 =>
            if is_space2 c1 c2 then trim_is_empty rest2
            else
              match rest2 with
              | EmptyString => false
              | String c3 rest3 =>
                  if is_space3 c1 c2 c3 then trim_is_empty rest3 else false
              end
        end
  end.

(** [s.length]: the number of UTF-16 code units of the text.  A character
    of one, two or three bytes is one code unit, a character of four bytes is
    a surrogate pair; continuation bytes count with their leading byte. *)
Definition code_units (c : ascii) : nat :=
  let n := nat_of_ascii c in
  if n <? 128 then 1
  else if n <? 192 then 0
  else if n <? 240 then 1
  else 2.

Fixpoint js_length (s : string) : nat :=
  match s with
  | EmptyString => 0
  | String c rest => code_units c + js_length rest
  end.

(** [path.join(a, b)]; the arguments met here need no normalisation. *)
Definition path_join (a b : string) : string := a +:+ "/" +:+ b.

(** ** Records of the data model *)

Record Package := {
  pkg_name : string;
  pkg_root : string;
  pkg_path : string;
  pkg_type : string;
  pkg_ssr : bool;
  (** [pkg.env], an object: its properties in creation order *)
  pkg_env : list (string * string);
  (** [get(pkg.package, "scripts.build:ssr")] *)
  pkg_script_build_ssr : option string
}.

Record FileRecord := {
  fr_key : string;
  fr_hash : string;
  fr_abs : string;
  fr_type : string
}.

Record DeployFile := {
  df_key : string;
  df_type : string;
  df_required : bool
}.

Record DeployRecord := {
  d_id : string;
  d_files : list DeployFile;
  d_url : option string
}.

(** The argument objects [{ key, type }] handed to [presignFiles]. *)
Record KeyType := { kt_key : string; kt_type : string }.

(** A presigned file as the service returns it; [content] is attached later. *)
Record Presigned := { ps_key : string; ps_presigned : string }.

(** The answer of [isDeployActive]. *)
Record ActiveResp := { active : bool; url : option string }.

Record Site := {
  site_id : string;
  site_name : string;
  site_customHostname : option string;
  site_freeHostname : string
}.

(** A config file on disk: missing, or present with text that parses to a
    JSON object or does not parse ([readJsonSync] with [throws: false] gives
    [null] then).  The two files can always be read and written: the file
    system does not fail on them. *)
Inductive File :=
| FileMissing
| FileText (parsed : option (gmap string string)).

(** Signals of the archiver while it zips a folder, and how it ends. *)
Inductive ArchSignal :=
| ArchWarning (e : JsError)
| ArchProgress (processed total : Z).

Inductive ArchEnd :=
| ArchClose
| ArchError (e : JsError).

(** ** Observable events *)

Inductive Level := LLog | LInfo | LError | LSuccess.

Inductive Event :=
| EvLog (lvl : Level) (msg : string)
| EvConsoleLog
| EvBottomBar (msg : string)
| EvNewSDK (token : string)
| EvWhoami
| EvSites
| EvGetFilesDigest (dir : string)
| EvGetFileHash (file : string)
| EvCreateDeploy (siteId : option string) (type path : string)
    (files : list FileRecord) (ssr : option bool)
| EvPresignFiles (siteId : option string) (deployId : string)
    (req : list KeyType)
| EvUpload (target content : string)
| EvActivateDeploy (deployId : string)
| EvIsDeployActive (deployId : string)
| EvSleep (millis : Z)
| EvReadFile (abs : string)
| EvExeca (cmd : string) (args : list string) (cwd : string)
    (env : list (string * string))
| EvArchive (folder output : string)
| EvListPackages
| EvPromptToken
| EvPromptSite (choices : list (string * string)).

Definition History := list Event.

(** ** The collaborators *)

Record Ext := {
  env_WEBINY_ACCESS_TOKEN : option string;
  env_WEBINY_SITE_ID : option string;
  tempdir : string;
  sdk_whoami : History -> Res (option string);
  sdk_sites : History -> Res (list Site);
  sdk_getFilesDigest : History -> string -> Res (list FileRecord);
  sdk_getFileHash : History -> string -> Res string;
  sdk_createDeploy : History -> option string -> string -> string ->
                     list FileRecord -> option bool -> Res DeployRecord;
  sdk_presignFiles : History -> option string -> string -> list KeyType ->
                     Res (list Presigned);
  sdk_uploadPresignedFile : History -> string -> string -> Res unit;
  sdk_activateDeploy : History -> string -> Res unit;
  sdk_isDeployActive : History -> string -> Res ActiveResp;
  fs_readFile : History -> string -> Res string;
  execa : History -> string -> list string -> string ->
          list (string * string) -> Res unit;
  archiver : History -> string -> string -> list ArchSignal * ArchEnd;
  listPackages : History -> Res (list Package);
  (** what the user types, attempt after attempt, at the token prompt, and
      the error the prompt rejects with when the user gives up *)
  prompt_token_inputs : History -> list string;
  prompt_abort : JsError;
  (** the position the user picks in the list of sites *)
  prompt_site_choice : History -> nat
}.

(** ** State of the run and the monad of effects *)

Record World := {
  trace : History;
  webinyConfig : File;      (* ~/.webiny/config *)
  projectConfig : File;     (* {projectRoot}/.webiny *)
  this_siteId : option string;
  this_sdk : option string  (* the token of the instantiated client *)
}.

Inductive Outcome (A : Type) : Type :=
| Ret (a : A)
| Throw (e : JsError)
| Exit (code : Z).
Arguments Ret {A} a.
Arguments Throw {A} e.
Arguments Exit {A} code.

Definition M (A : Type) : Type := World -> Outcome A * World.

Definition ret {A} (a : A) : M A := fun w => (Ret a, w).

Definition bind {A B} (m : M A) (k : A -> M B) : M B :=
  fun w =>
    match m w with
    | (Ret a, w') => k a w'
    | (Throw e, w') => (Throw e, w')
    | (Exit c, w') => (Exit c, w')
    end.

Notation "x <- m ;; k" := (bind m (fun x => k))
  (at level 20, m at level 99, k at level 200, format "x  <-  m  ;;  '/' k").
Notation "m ;; k" := (bind m (fun _ => k))
  (at level 100, k at level 200, right associativity, format "m  ;;  '/' k").

Definition throw {A} (e : JsError) : M A := fun w => (Throw e, w).

(** [process.exit(code)] *)
Definition process_exit {A} (code : Z) : M A := fun w => (Exit code, w).

(** [try { m } catch (err) { h err }]: only a thrown error is caught. *)
Definition try_catch {A} (m : M A) (h : JsError -> M A) : M A :=
  fun w =>
    match m w with
    | (Throw e, w') => h e w'
    | r => r
    end.

Definition emit (ev : Event) : M unit :=
  fun w =>
    (Ret tt,
     {| trace := trace w ++ [ev];
        webinyConfig := webinyConfig w;
        projectConfig := projectConfig w;
        this_siteId := this_siteId w;
        this_sdk := this_sdk w |}).

Definition log (lvl : Level) (msg : string) : M unit := emit (EvLog lvl msg).

(** An awaited external call: the event is recorded, and the oracle answers
    from the history before the call. *)
Definition call {A} (ev : Event) (answer : History -> Res A) : M A :=
  fun w =>
    match answer (trace w) with
    | Ok a => (Ret a, snd (emit ev w))
    | Err e => (Throw e, snd (emit ev w))
    end.

(** A call of a method of [this.sdk]; reading the method from a [null] client
    throws before anything is sent. *)
Definition sdk_call {A} (method : string) (ev : Event)
    (answer : History -> Res A) : M A :=
  fun w =>
    match this_sdk w with
    | None => (Throw (typeError method "null"), w)
    | Some _ => call ev answer w
    end.

(** Reading a method of [this.sdk]. *)
Definition sdk_member (method : string) : M unit :=
  fun w =>
    match this_sdk w with
    | None => (Throw (typeError method "null"), w)
    | Some _ => (Ret tt, w)
    end.

Fixpoint forEach {A} (f : A -> M unit) (l : list A) : M unit :=
  match l with
  | [] => ret tt
  | a :: rest => f a ;; forEach f rest
  end.

(** The events a computation adds to the trace when run from [w]. *)
Definition emitted {A} (m : M A) (w : World) : list Event :=
  drop (length (trace w)) (trace (snd (m w))).

(** A synchronous question to a collaborator that cannot fail. *)
Definition ask {A} (ev : Event) (answer : History -> A) : M A :=
  fun w => (Ret (answer (trace w)), snd (emit ev w)).

Definition has_code (e : JsError) (c : string) : bool :=
  match err_code e with
  | Some x => String.eqb x c
  | None => false
  end.

(** The string under a truthiness guard. *)
Definition str (v : option string) : string := default "" v.

Definition nl : string := String (ascii_of_nat 10) EmptyString.
Definition dq : string := String (ascii_of_nat 34) EmptyString.

(** ** A JavaScript object used as a map from names to deploys

    Properties are kept in creation order.  [Object.keys] lists the keys that
    are array indices first, in ascending numeric order, and then the other
    keys in creation order. *)

Definition JsObj (V : Type) : Type := list (string * V).

Fixpoint obj_get {V} (o : JsObj V) (k : string) : option V :=
  match o with
  | [] => None
  | (k', v) :: rest => if String.eqb k' k then Some v else obj_get rest k
  end.

Fixpoint obj_set {V} (o : JsObj V) (k : string) (v : V) : JsObj V :=
  match o with
  | [] => [(k, v)]
  | (k', v') :: rest =>
      if String.eqb k' k then (k', v) :: rest else (k', v') :: obj_set rest k v
  end.

Fixpoint digits_val (s : string) (acc : N) : option N :=
  match s with
  | EmptyString => Some acc
  | String c rest =>
      let n := N_of_ascii c in
      if ((48 <=? n) && (n <=? 57))%N
      then digits_val rest (acc * 10 + (n - 48))%N
      else None
  end.

(** The canonical numeric strings below 2^32 - 1. *)
Definition array_index (s : string) : option N :=
  match s with
  | EmptyString => None
  | String c rest =>
      if (N_of_ascii c =? 48)%N && negb (String.eqb rest "") then None
      else match digits_val s 0 with
           | Some n => if (n <? 4294967295)%N then Some n else None
           | None => None
           end
  end.

Fixpoint insert_index (k : N * string) (l : list (N * string))
    : list (N * string) :=
  match l with
  | [] => [k]
  | x :: rest =>
      if (fst k <=? fst x)%N then k :: l else x :: insert_index k rest
  end.

Fixpoint index_keys (ks : list string) : list (N * string) :=
  match ks with
  | [] => []
  | k :: rest =>
      match array_index k with
      | Some n => insert_index (n, k) (index_keys rest)
      | None => index_keys rest
      end
  end.

Fixpoint string_keys (ks : list string) : list string :=
  match ks with
  | [] => []
  | k :: rest =>
      match array_index k with
      | Some _ => string_keys rest
      | None => k :: string_keys rest
      end
  end.

Definition obj_keys {V} (o : JsObj V) : list string :=
  map snd (index_keys (map fst o)) ++ string_keys (map fst o).

(** [Object.values]: the values in the order of [Object.keys]. *)
Definition obj_values {V} (o : JsObj V) : list V :=
  omap (obj_get o) (obj_keys o).

(** [{ ...o }]: a new object with the properties of [o], created in the
    order of [Object.keys]. *)
Definition obj_spread {V} (o : JsObj V) : JsObj V :=
  omap (fun k => match obj_get o k with
                 | Some v => Some (k, v)
                 | None => None
                 end) (obj_keys o).

(** ** The config files *)

Definition pathExistsSync (f : File) : bool :=
  match f with
  | FileMissing => false
  | FileText _ => true
  end.

(** [fs.readJsonSync(path, { throws: false })] *)
Definition readJsonSync (f : File) : option (gmap string string) :=
  match f with
  | FileMissing => None
  | FileText parsed => parsed
  end.

(** [fs.ensureFileSync(path)]: an absent file is created empty. *)
Definition ensureFileSync (f : File) : File :=
  match f with
  | FileMissing => FileText None
  | FileText _ => f
  end.

(** The body shared by [storeAccessToken] and [storeSiteId], on the file. *)
Definition store_key (key value : string) (f : File) : File :=
  let f1 := ensureFileSync f in
  let config := match readJsonSync f1 with
                | Some c => c
                | None => ∅
                end in
  FileText (Some (<[key := value]> config)).

(** ** [Promise.all] over callbacks that each start one external operation

    All callbacks run their synchronous part in order, so every operation is
    started before any of them completes.  A callback that throws before its
    first [await] rejects at once; an operation that fails rejects later.
    [Promise.all] rejects with the earliest rejection: a synchronous one
    comes before every operation's, and among several failing operations the
    embedding reports the first in list order. *)

Inductive Settled (A : Type) : Type :=
| Fulfilled (a : A)
| RejectedSync (e : JsError)
| RejectedAsync (e : JsError).
Arguments Fulfilled {A} a.
Arguments RejectedSync {A} e.
Arguments RejectedAsync {A} e.

Fixpoint first_sync {A} (l : list (Settled A)) : option JsError :=
  match l with
  | [] => None
  | RejectedSync e :: _ => Some e
  | _ :: rest => first_sync rest
  end.

Fixpoint first_async {A} (l : list (Settled A)) : option JsError :=
  match l with
  | [] => None
  | RejectedAsync e :: _ => Some e
  | _ :: rest => first_async rest
  end.

Fixpoint fulfilled {A} (l : list (Settled A)) : list A :=
  match l with
  | [] => []
  | Fulfilled a :: rest => a :: fulfilled rest
  | _ :: rest => fulfilled rest
  end.

Definition promise_all {A} (l : list (Settled A)) : M (list A) :=
  match first_sync l with
  | Some e => throw e
  | None =>
      match first_async l with
      | Some e => throw e
      | None => ret (fulfilled l)
      end
  end.

(** Start an external operation: the event is recorded, and the oracle tells
    how the operation will settle. *)
Definition start {A} (ev : Event) (answer : History -> Res A) : M (Settled A) :=
  fun w =>
    match answer (trace w) with
    | Ok a => (Ret (Fulfilled a), snd (emit ev w))
    | Err e => (Ret (RejectedAsync e), snd (emit ev w))
    end.

Fixpoint mapM {A B} (f : A -> M B) (l : list A) : M (list B) :=
  match l with
  | [] => ret []
  | a :: rest =>
      b <- f a ;;
      bs <- mapM f rest ;;
      ret (b :: bs)
  end.

(** ** The [Deploy] class *)

Section Deploy.

Variable E : Ext.

Definition validateCiRequirements : M unit :=
  (if negb (truthy (env_WEBINY_ACCESS_TOKEN E))
   then log LError "WEBINY_ACCESS_TOKEN is not set!" ;; process_exit 1
   else ret tt) ;;
  (if negb (truthy (env_WEBINY_SITE_ID E))
   then log LError "WEBINY_SITE_ID is not set!" ;; process_exit 1
   else ret tt).

Definition sleep (millis : Z) : M unit := emit (EvSleep millis).

(** The [for] loop of [waitTillActive], by the number of rounds left. *)
Fixpoint waitTillActive_rounds (left : nat) (deploy : DeployRecord)
    : M (option string) :=
  match left with
  | O => ret None
  | S left' =>
      sleep 5000 ;;
      r <- sdk_call "isDeployActive" (EvIsDeployActive (d_id deploy))
             (fun h => sdk_isDeployActive E h (d_id deploy)) ;;
      if active r then ret (url r)
      else waitTillActive_rounds left' deploy
  end.

Definition waitTillActive (deploy : DeployRecord) : M (option string) :=
  waitTillActive_rounds 10 deploy.

Definition checkNetworkError (err : JsError) : M unit :=
  if has_code err "ECONNREFUSED"
  then log LError (err_message err) ;; process_exit 1
  else ret tt.

Definition howToCreateAToken : M unit :=
  log LInfo "To create a token, log into your Webiny account and create a token in the account settings.".

Definition getAccessToken : M (option string) :=
  fun w =>
    if truthy (env_WEBINY_ACCESS_TOKEN E)
    then (Ret (env_WEBINY_ACCESS_TOKEN E), w)
    else if negb (pathExistsSync (webinyConfig w)) then (Ret None, w)
    else match readJsonSync (webinyConfig w) with
         | None => (Ret None, w)
         | Some config => (Ret (config !! "accessToken"), w)
         end.

Definition getSiteId : M (option string) :=
  fun w =>
    if truthy (env_WEBINY_SITE_ID E)
    then (Ret (env_WEBINY_SITE_ID E), w)
    else if negb (pathExistsSync (projectConfig w)) then (Ret None, w)
    else match readJsonSync (projectConfig w) with
         | None => (Ret None, w)
         | Some config => (Ret (config !! "siteId"), w)
         end.

Definition storeAccessToken (accessToken : string) : M unit :=
  fun w =>
    (Ret tt,
     {| trace := trace w;
        webinyConfig := store_key "accessToken" accessToken (webinyConfig w);
        projectConfig := projectConfig w;
        this_siteId := this_siteId w;
        this_sdk := this_sdk w |}).

Definition storeSiteId (siteId : string) : M unit :=
  fun w =>
    (Ret tt,
     {| trace := trace w;
        webinyConfig := webinyConfig w;
        projectConfig := store_key "siteId" siteId (projectConfig w);
        this_siteId := this_siteId w;
        this_sdk := this_sdk w |}).

Definition instantiateSDK (accessToken : string) : M unit :=
  fun w =>
    (Ret tt,
     {| trace := trace w ++ [EvNewSDK accessToken];
        webinyConfig := webinyConfig w;
        projectConfig := projectConfig w;
        this_siteId := this_siteId w;
        this_sdk := Some accessToken |}).

(** [this.siteId = siteId] *)
Definition set_siteId (siteId : option string) : M unit :=
  fun w =>
    (Ret tt,
     {| trace := trace w;
        webinyConfig := webinyConfig w;
        projectConfig := projectConfig w;
        this_siteId := siteId;
        this_sdk := this_sdk w |}).

Definition get_siteId : M (option string) := fun w => (Ret (this_siteId w), w).

(** The [validate] callback of the token prompt: [true] when the input is
    accepted, [false] when a message sends the user back to the prompt. *)
Definition askForToken_validate (accessToken : string) : M bool :=
  if trim_is_empty accessToken then ret false
  else
    instantiateSDK accessToken ;;
    emit (EvBottomBar "Verifying token...") ;;
    user <- sdk_call "whoami" EvWhoami (sdk_whoami E) ;;
    match user with
    | None => ret false
    | Some _ => ret true
    end.

(** The prompt validates what the user types until an input is accepted; it
    rejects when the user gives up. *)
Fixpoint askForToken_inputs (inputs : list string) : M string :=
  match inputs with
  | [] => throw (prompt_abort E)
  | accessToken :: rest =>
      valid <- askForToken_validate accessToken ;;
      if valid then ret accessToken else askForToken_inputs rest
  end.

Definition askForToken : M string :=
  inputs <- ask EvPromptToken (prompt_token_inputs E) ;;
  askForToken_inputs inputs.

Definition askForSite : M string :=
  sites <- sdk_call "sites" EvSites (sdk_sites E) ;;
  let choices :=
    map (fun site =>
           (site_name site +:+ " (" +:+
              (if truthy (site_customHostname site)
               then str (site_customHostname site)
               else site_freeHostname site) +:+ ")",
            site_id site)) sites in
  i <- ask (EvPromptSite choices) (prompt_site_choice E) ;;
  match choices !! i with
  | Some (_, value) => ret value
  | None => throw (prompt_abort E)
  end.

Definition ensureToken : M unit :=
  accessToken <- askForToken ;;
  storeAccessToken accessToken.

Definition setupSDK : M unit :=
  try_catch
    (accessToken <- getAccessToken ;;
     if negb (truthy accessToken) then
       log LLog "You are not logged in! Please enter your Personal Access Token." ;;
       howToCreateAToken ;;
       ensureToken
     else
       instantiateSDK (str accessToken) ;;
       user <- sdk_call "whoami" EvWhoami (sdk_whoami E) ;;
       match user with
       | None =>
           log LError "The existing token is invalid!" ;;
           howToCreateAToken ;;
           ensureToken
       | Some _ => ret tt
       end)
    (fun err => checkNetworkError err).

(** [{ ...pkg.env, REACT_APP_ENV: v }] copies the properties of [pkg.env]
    and then sets [REACT_APP_ENV], replacing a value [pkg.env] had for it. *)
Definition ensureBuild (pkg : option Package) : M unit :=
  log LInfo "Running build..." ;;
  match pkg with
  | None => throw (typeError "root" "undefined")
  | Some pkg =>
      call (EvExeca "yarn" ["build"] (pkg_root pkg)
              (obj_set (obj_spread (pkg_env pkg)) "REACT_APP_ENV" "browser"))
           (fun h => execa E h "yarn" ["build"] (pkg_root pkg)
                       (obj_set (obj_spread (pkg_env pkg)) "REACT_APP_ENV" "browser")) ;;
      if pkg_ssr pkg then
        (if negb (truthy (pkg_script_build_ssr pkg)) then
           log LError (pkg_name pkg +:+ " doesn't have a script " +:+ dq +:+
                       "build:ssr" +:+ dq +:+
                       "! This script is mandatory for SSR enabled apps.") ;;
           process_exit 1
         else ret tt) ;;
        call (EvExeca "yarn" ["build:ssr"] (pkg_root pkg)
                (obj_set (obj_spread (pkg_env pkg)) "REACT_APP_ENV" "ssr"))
             (fun h => execa E h "yarn" ["build:ssr"] (pkg_root pkg)
                         (obj_set (obj_spread (pkg_env pkg)) "REACT_APP_ENV" "ssr"))
      else ret tt
  end.

(** The archiver's handlers in [createZip]: the promise settles at the first
    [resolve] or [reject]; what the archiver signals afterwards is not
    followed. *)
Fixpoint createZip_signals (signals : list ArchSignal) (fin : ArchEnd)
    : M unit :=
  match signals with
  | [] =>
      match fin with
      | ArchClose => log LSuccess "Function archive created!"
      | ArchError err => log LError (err_message err) ;; throw err
      end
  | ArchWarning err :: rest =>
      if has_code err "ENOENT"
      then log LInfo (err_message err) ;; createZip_signals rest fin
      else log LError (err_message err) ;; throw err
  | ArchProgress processed total :: rest =>
      log LLog ("Processing files " +:+ pretty processed +:+ "/" +:+
                pretty total +:+ "...") ;;
      createZip_signals rest fin
  end.

Definition createZip (folderToZip outputPath : string) : M unit :=
  run <- ask (EvArchive folderToZip outputPath)
           (fun h => archiver E h folderToZip outputPath) ;;
  createZip_signals (fst run) (snd run).

(** The first callback of [uploadFiles]: look the local file up by key and
    start reading it. *)
Definition uploadFiles_read (files : list FileRecord) (file : Presigned)
    : M (Settled (Presigned * string)) :=
  match List.find (fun f => String.eqb (fr_key f) (ps_key file)) files with
  | None => ret (RejectedSync (typeError "abs" "undefined"))
  | Some f =>
      start (EvReadFile (fr_abs f))
            (fun h => match fs_readFile E h (fr_abs f) with
                      | Ok content => Ok (file, content)
                      | Err e => Err e
                      end)
  end.

(** The second callback: start the upload; its key is logged on success. *)
Definition uploadFiles_upload (file : Presigned * string)
    : M (Settled string) :=
  fun w =>
    match this_sdk w with
    | None => (Ret (RejectedSync (typeError "uploadPresignedFile" "null")), w)
    | Some _ =>
        start (EvUpload (ps_presigned (fst file)) (snd file))
              (fun h =>
                 match sdk_uploadPresignedFile E h (ps_presigned (fst file))
                         (snd file) with
                 | Ok _ => Ok (ps_key (fst file))
                 | Err e => Err e
                 end) w
    end.

(** The success lines of the uploads that complete before [Promise.all]
    settles. *)
Fixpoint uploadFiles_logs (uploads : list (Settled string)) : M unit :=
  match uploads with
  | Fulfilled key :: rest => log LSuccess key ;; uploadFiles_logs rest
  | _ => ret tt
  end.

Definition required_files (deploy : DeployRecord) : list KeyType :=
  map (fun f => {| kt_key := df_key f; kt_type := df_type f |})
      (List.filter (fun f => df_required f) (d_files deploy)).

Definition uploadFiles (deploy : DeployRecord) (files : list FileRecord)
    : M unit :=
  try_catch
    (siteId <- get_siteId ;;
     presignedFiles <-
       sdk_call "presignFiles"
         (EvPresignFiles siteId (d_id deploy) (required_files deploy))
         (fun h => sdk_presignFiles E h siteId (d_id deploy)
                     (required_files deploy)) ;;
     reads <- mapM (uploadFiles_read files) presignedFiles ;;
     filesToUpload <- promise_all reads ;;
     uploads <- mapM uploadFiles_upload filesToUpload ;;
     uploadFiles_logs uploads ;;
     promise_all uploads ;;
     ret tt)
    (fun err => checkNetworkError err ;; throw err).

(** The [catch] block of [deployApp] and of [deployFunction]: the same text
    in both. *)
Definition deploy_catch (err : JsError) : M (option DeployRecord) :=
  checkNetworkError err ;;
  log LInfo (err_message err) ;;
  (if negb (has_code err "NO_CHANGES_DETECTED")
   then process_exit 1 else ret tt) ;;
  ret None.

Definition deployApp (pkg : Package) : M (option DeployRecord) :=
  let buildPath := path_join (pkg_root pkg) "build" in
  log LLog "Preparing deploy files..." ;;
  files <- sdk_call "getFilesDigest" (EvGetFilesDigest buildPath)
             (fun h => sdk_getFilesDigest E h buildPath) ;;
  log LLog "Creating a new deploy..." ;;
  try_catch
    (siteId <- get_siteId ;;
     deploy <-
       sdk_call "createDeploy"
         (EvCreateDeploy siteId (pkg_type pkg) (pkg_path pkg) files
            (Some (pkg_ssr pkg)))
         (fun h => sdk_createDeploy E h siteId (pkg_type pkg) (pkg_path pkg)
                     files (Some (pkg_ssr pkg))) ;;
     log LLog "Uploading files (only new and modified files will be uploaded)..." ;;
     uploadFiles deploy files ;;
     ret (Some deploy))
    deploy_catch.

Definition deployFunction (pkg : Package) : M (option DeployRecord) :=
  let buildPath := path_join (pkg_root pkg) "build" in
  log LLog "Preparing deploy files..." ;;
  let zipFile := path_join (tempdir E) "function.zip" in
  createZip buildPath zipFile ;;
  log LLog "Creating a new deploy..." ;;
  try_catch
    (zipHash <- sdk_call "getFileHash" (EvGetFileHash zipFile)
                  (fun h => sdk_getFileHash E h zipFile) ;;
     let files :=
       [ {| fr_key := "function.zip"; fr_hash := zipHash; fr_abs := zipFile;
            fr_type := "application/zip" |} ] in
     siteId <- get_siteId ;;
     deploy <-
       sdk_call "createDeploy"
         (EvCreateDeploy siteId (pkg_type pkg) (pkg_path pkg) files None)
         (fun h => sdk_createDeploy E h siteId (pkg_type pkg) (pkg_path pkg)
                     files None) ;;
     log LLog "Uploading function..." ;;
     uploadFiles deploy files ;;
     ret (Some deploy))
    deploy_catch.

(** [pkg] is [undefined] when [packages.find] found nothing. *)
Definition deployPackage (pkg : option Package) : M (option DeployRecord) :=
  try_catch (ensureBuild pkg)
    (fun err => log LError (err_message err) ;; process_exit 1) ;;
  match pkg with
  | None => throw (typeError "type" "undefined")
  | Some pkg =>
      if String.eqb (pkg_type pkg) "app" then deployApp pkg
      else deployFunction pkg
  end.

(** The options of the command next to [name]. *)
Record Opts := { ci : bool }.

Definition activation_failed : string :=
  "Deploy activation failed. Please retry your deploy one more time, then contact Webiny support.".

(** The first loop of the batch branch: a deploy per package. The colours of
    [chalk] are left out of the messages. *)
Fixpoint deploy_createAll (packages : list Package)
    (deploys : JsObj DeployRecord) : M (JsObj DeployRecord) :=
  match packages with
  | [] => ret deploys
  | pkg :: rest =>
      emit EvConsoleLog ;;
      log LLog ("Deploying " +:+ pkg_name pkg +:+ " (" +:+ pkg_root pkg +:+ ")") ;;
      deploy <- deployPackage (Some pkg) ;;
      match deploy with
      | None => deploy_createAll rest deploys
      | Some deploy =>
          deploy_createAll rest (obj_set deploys (pkg_name pkg) deploy)
      end
  end.

(** The second loop: activate the collected deploys one after the other. *)
Fixpoint deploy_activateAll (folders : list string)
    (deploys : JsObj DeployRecord) : M (JsObj DeployRecord) :=
  match folders with
  | [] => ret deploys
  | folder :: rest =>
      log LLog ("Activating " +:+ folder +:+ "...") ;;
      sdk_member "activateDeploy" ;;
      match obj_get deploys folder with
      | None => throw (typeError "id" "undefined")
      | Some deploy =>
          call (EvActivateDeploy (d_id deploy))
               (fun h => sdk_activateDeploy E h (d_id deploy)) ;;
          url <- waitTillActive deploy ;;
          (if negb (truthy url)
           then log LError activation_failed ;; process_exit 1
           else ret tt) ;;
          deploy_activateAll rest
            (obj_set deploys folder
               {| d_id := d_id deploy; d_files := d_files deploy;
                  d_url := url |})
      end
  end.

(** The site of the run: the stored or environment-supplied id, or else the
    one picked at the prompt, which is then stored in the project file. *)
Definition deploy_resolveSite : M unit :=
  siteId <- getSiteId ;;
  set_siteId siteId ;;
  if negb (truthy siteId) then
    siteId <- askForSite ;;
    set_siteId (Some siteId) ;;
    storeSiteId siteId
  else ret tt.

(** The branch of [deploy] for a given package name. *)
Definition deploy_single (name : string) (packages : list Package) : M unit :=
  let pkg := List.find (fun p => String.eqb (pkg_name p) name) packages in
  deploy <- deployPackage pkg ;;
  match deploy with
  | None => ret tt
  | Some deploy =>
      log LLog ("Activating new deploy..." +:+ nl) ;;
      sdk_call "activateDeploy" (EvActivateDeploy (d_id deploy))
        (fun h => sdk_activateDeploy E h (d_id deploy)) ;;
      url <- waitTillActive deploy ;;
      (if negb (truthy url)
       then log LError activation_failed ;; process_exit 1
       else ret tt) ;;
      log LSuccess ("Deploy completed!" +:+ nl) ;;
      log LInfo ("Open " +:+ str url +:+ " to see your newly deployed app!")
  end.

(** The branch of [deploy] for all packages. *)
Definition deploy_batch (packages : list Package) : M unit :=
  deploys <- deploy_createAll packages [] ;;
  (if bool_decide (length (obj_keys deploys) = 0)
   then process_exit 0 else ret tt) ;;
  log LSuccess "Deploys created successfully!" ;;
  deploys <- deploy_activateAll (obj_keys deploys) deploys ;;
  log LSuccess ("Deploy process completed!" +:+ nl) ;;
  log LInfo "Your apps/functions were deployed to these URLs:" ;;
  forEach (fun deploy => log LLog (str (d_url deploy))) (obj_values deploys) ;;
  process_exit 0.

(** The packages are found and deployed, one or all. *)
Definition deploy_packages (name : option string) : M unit :=
  packages <- call EvListPackages (listPackages E) ;;
  if truthy name then deploy_single (str name) packages
  else deploy_batch packages.

Definition deploy (name : option string) (opts : Opts) : M unit :=
  (if ci opts then validateCiRequirements else ret tt) ;;
  setupSDK ;;
  deploy_resolveSite ;;
  deploy_packages name.

End Deploy.

(** ** Vocabulary of the statements *)

(** The world after some more events. *)
Definition add_events (w : World) (evs : list Event) : World :=
  {| trace := trace w ++ evs;
     webinyConfig := webinyConfig w;
     projectConfig := projectConfig w;
     this_siteId := this_siteId w;
     this_sdk := this_sdk w |}.

(** One round of [waitTillActive]: the pause, then the poll. *)
Definition poll_round (deployId : string) : list Event :=
  [EvSleep 5000; EvIsDeployActive deployId].

Fixpoint rounds (k : nat) (deployId : string) : list Event :=
  match k with
  | O => []
  | S k' => poll_round deployId ++ rounds k' deployId
  end.

Definition is_poll (ev : Event) : bool :=
  match ev with
  | EvIsDeployActive _ => true
  | _ => false
  end.

(** The time spent in [sleep], in milliseconds. *)
Fixpoint slept (evs : list Event) : Z :=
  match evs with
  | [] => 0%Z
  | EvSleep millis :: rest => (millis + slept rest)%Z
  | _ :: rest => slept rest
  end.

Definition is_upload (ev : Event) : bool :=
  match ev with
  | EvUpload _ _ => true
  | _ => false
  end.

Definition is_createDeploy (ev : Event) : bool :=
  match ev with
  | EvCreateDeploy _ _ _ _ _ => true
  | _ => false
  end.

Definition is_presign (ev : Event) : bool :=
  match ev with
  | EvPresignFiles _ _ _ => true
  | _ => false
  end.

(** The events each part of the class can record. *)
Definition setup_event (ev : Event) : bool :=
  match ev with
  | EvLog _ _ | EvNewSDK _ | EvWhoami | EvPromptToken | EvBottomBar _ => true
  | _ => false
  end.

Definition site_event (ev : Event) : bool :=
  match ev with
  | EvSites | EvPromptSite _ => true
  | _ => false
  end.

Definition upload_event (ev : Event) : bool :=
  match ev with
  | EvLog _ _ | EvPresignFiles _ _ _ | EvReadFile _ | EvUpload _ _ => true
  | _ => false
  end.

Definition archive_event (ev : Event) : bool :=
  match ev with
  | EvLog _ _ | EvArchive _ _ => true
  | _ => false
  end.

Definition build_event (ev : Event) : bool :=
  match ev with
  | EvLog _ _ | EvExeca _ _ _ _ => true
  | _ => false
  end.

Definition package_event (ev : Event) : bool :=
  match ev with
  | EvGetFilesDigest _ | EvGetFileHash _ | EvCreateDeploy _ _ _ _ _ => true
  | _ => upload_event ev || archive_event ev || build_event ev
  end.

Definition activation_event (ev : Event) : bool :=
  match ev with
  | EvLog _ _ | EvActivateDeploy _ | EvSleep _ | EvIsDeployActive _ => true
  | _ => false
  end.

Definition is_log (ev : Event) : bool :=
  match ev with
  | EvLog _ _ => true
  | _ => false
  end.

(** [files.find(f => f.key === file.key)] *)
Definition local_file (files : list FileRecord) (file : Presigned)
    : option FileRecord :=
  List.find (fun f => String.eqb (fr_key f) (ps_key file)) files.

(** The reads [uploadFiles] starts: one per presigned file that has a local
    file, in order. *)
Definition read_events (files : list FileRecord) (presigned : list Presigned)
    : list Event :=
  omap (fun file => (fun f => EvReadFile (fr_abs f)) <$> local_file files file)
       presigned.

(** The upload of a presigned file with its content attached. *)
Definition upload_of (file : Presigned * string) : Event :=
  EvUpload (ps_presigned (fst file)) (snd file).

(** [path.join(pkg.root, "build")] *)
Definition buildPath (pkg : Package) : string := path_join (pkg_root pkg) "build".

(** [path.join(tempdir, "function.zip")] *)
Definition zipFile (E : Ext) : string := path_join (tempdir E) "function.zip".

(** The file record [deployFunction] makes of the archive. *)
Definition zipRecord (E : Ext) (zipHash : string) : FileRecord :=
  {| fr_key := "function.zip"; fr_hash := zipHash; fr_abs := zipFile E;
     fr_type := "application/zip" |}.

(** The site id a remote call carries, when it carries one, is [siteId]. *)
Definition carries (siteId : option string) (ev : Event) : Prop :=
  match ev with
  | EvCreateDeploy s _ _ _ _ => s = siteId
  | EvPresignFiles s _ _ => s = siteId
  | _ => True
  end.

(** *** Relations between the state before and after a run *)

Definition steps {A} (R : World -> World -> Prop) (m : M A) : Prop :=
  forall w, R w (snd (m w)).

Class StepRel (R : World -> World -> Prop) : Prop := {
  step_refl : forall w, R w w;
  step_trans : forall w1 w2 w3, R w1 w2 -> R w2 w3 -> R w1 w3
}.

(** [R] allows recording the event [ev]. *)
Definition allows (R : World -> World -> Prop) (ev : Event) : Prop :=
  forall w, R w (add_events w [ev]).

(** The run only adds events that satisfy [P]. *)
Definition only (P : Event -> Prop) (w w' : World) : Prop :=
  exists d, trace w' = trace w ++ d /\ Forall P d.

(** The run changes nothing but the trace, where it adds events that
    satisfy [P]. *)
Definition adds (P : Event -> Prop) (w w' : World) : Prop :=
  exists d, w' = add_events w d /\ Forall P d.

(** The run leaves a component of the state alone. *)
Definition keeps {X} (f : World -> X) (w w' : World) : Prop := f w' = f w.

(** From a state whose [this.siteId] is [siteId], the run keeps it and
    every remote call that carries a site id carries that one. *)
Definition with_site (siteId : option string) (w w' : World) : Prop :=
  this_siteId w = siteId ->
  this_siteId w' = siteId /\
  exists d, trace w' = trace w ++ d /\ Forall (carries siteId) d.

(** Events that neither create a deploy nor upload. *)
Definition quiet (ev : Event) : Prop :=
  is_createDeploy ev = false /\ is_upload ev = false.

(** [file], with content [c] attached, was read from its local file. *)
Definition read_from (E : Ext) (files : list FileRecord) (file : Presigned)
    (v : Presigned * string) : Prop :=
  fst v = file /\
  exists f h, local_file files file = Some f /\
              fs_readFile E h (fr_abs f) = Ok (snd v).

(** How the read of a presigned file settles. *)
Definition read_settled (E : Ext) (files : list FileRecord) (file : Presigned)
    (r : Settled (Presigned * string)) : Prop :=
  match r with
  | Fulfilled v => read_from E files file v
  | RejectedSync e =>
      local_file files file = None /\ e = typeError "abs" "undefined"
  | RejectedAsync e => local_file files file <> None
  end.

(** The global config file is as before, or has had the token typed at the
    prompt stored in it. *)
Definition token_stored (E : Ext) (w w' : World) : Prop :=
  webinyConfig w' = webinyConfig w \/
  exists typed h,
    In typed (prompt_token_inputs E h) /\
    webinyConfig w' = store_key "accessToken" typed (webinyConfig w).

(** The project config file is as before, or has had the id of a site picked
    at the prompt stored in it. *)
Definition site_stored (E : Ext) (w w' : World) : Prop :=
  projectConfig w' = projectConfig w \/
  exists site sites h,
    sdk_sites E h = Ok sites /\ In site sites /\
    projectConfig w' = store_key "siteId" (site_id site) (projectConfig w).

(** ** Sample runs

    Concrete collaborators and worlds on which the statements below are
    exercised. *)

Module Sample.

Definition webApp : Package :=
  {| pkg_name := "web-app"; pkg_root := "/p/web-app"; pkg_path := "/";
     pkg_type := "app"; pkg_ssr := false; pkg_env := [];
     pkg_script_build_ssr := None |}.

Definition apiFn : Package :=
  {| pkg_name := "api-fn"; pkg_root := "/p/api-fn"; pkg_path := "/api";
     pkg_type := "function"; pkg_ssr := false; pkg_env := [];
     pkg_script_build_ssr := None |}.

Definition unchangedApp : Package :=
  {| pkg_name := "unchanged-app"; pkg_root := "/p/unchanged-app";
     pkg_path := "/unchanged"; pkg_type := "app"; pkg_ssr := false;
     pkg_env := []; pkg_script_build_ssr := None |}.

Definition webFiles : list FileRecord :=
  [ {| fr_key := "index.html"; fr_hash := "a1";
       fr_abs := "/p/web-app/build/index.html"; fr_type := "text/html" |};
    {| fr_key := "main.js"; fr_hash := "b2";
       fr_abs := "/p/web-app/build/main.js"; fr_type := "text/javascript" |} ].

Definition aborted : JsError :=
  {| err_code := None; err_message := "prompt closed" |}.

Definition noChanges : JsError :=
  {| err_code := Some "NO_CHANGES_DETECTED";
     err_message := "No changes detected" |}.

Definition timedOut : JsError :=
  {| err_code := Some "ETIMEDOUT"; err_message := "request timed out" |}.

(** A service that marks every submitted file as required, except that it
    reports no changes for the path [/unchanged]. *)
Definition createDeploy (h : History) (siteId : option string)
    (type path : string) (files : list FileRecord) (ssr : option bool)
    : Res DeployRecord :=
  if String.eqb path "/unchanged" then Err noChanges
  else Ok {| d_id := "d-" +:+ type;
             d_files := map (fun f => {| df_key := fr_key f;
                                         df_type := fr_type f;
                                         df_required := true |}) files;
             d_url := None |}.

(** A service that presigns every requested key, once. *)
Definition presignFiles (h : History) (siteId : option string)
    (deployId : string) (req : list KeyType) : Res (list Presigned) :=
  Ok (map (fun k => {| ps_key := k; ps_presigned := "https://s3/" +:+ k |})
          (remove_dups (map kt_key req))).

Definition polls (h : History) : nat := length (List.filter is_poll h).

(** A deploy that becomes active at the third poll. *)
Definition activeAtThird (h : History) (deployId : string) : Res ActiveResp :=
  if 2 <=? polls h
  then Ok {| active := true; url := Some ("https://" +:+ deployId) |}
  else Ok {| active := false; url := None |}.

Definition neverActive (h : History) (deployId : string) : Res ActiveResp :=
  Ok {| active := false; url := None |}.

(** The collaborators, by what the samples vary. *)
Definition ext (token siteId : option string)
    (whoami : History -> Res (option string))
    (presign : History -> option string -> string -> list KeyType ->
               Res (list Presigned))
    (isDeployActive : History -> string -> Res ActiveResp)
    (typed : list string) : Ext :=
  {| env_WEBINY_ACCESS_TOKEN := token;
     env_WEBINY_SITE_ID := siteId;
     tempdir := "/tmp";
     sdk_whoami := whoami;
     sdk_sites := fun _ =>
       Ok [ {| site_id := "site-2"; site_name := "Blog";
               site_customHostname := None;
               site_freeHostname := "blog.webiny.io" |} ];
     sdk_getFilesDigest := fun _ _ => Ok webFiles;
     sdk_getFileHash := fun _ _ => Ok "c3";
     sdk_createDeploy := createDeploy;
     sdk_presignFiles := presign;
     sdk_uploadPresignedFile := fun _ _ _ => Ok tt;
     sdk_activateDeploy := fun _ _ => Ok tt;
     sdk_isDeployActive := isDeployActive;
     fs_readFile := fun _ path => Ok ("bytes of " +:+ path);
     execa := fun _ _ _ _ _ => Ok tt;
     archiver := fun _ _ _ => ([ArchProgress 1 2; ArchProgress 2 2], ArchClose);
     listPackages := fun _ => Ok [unchangedApp; webApp; apiFn];
     prompt_token_inputs := fun _ => typed;
     prompt_abort := aborted;
     prompt_site_choice := fun _ => 0 |}.

Definition whoamiOk (h : History) : Res (option string) := Ok (Some "user-1").

(** Both environment variables set, every call succeeds. *)
Definition happy : Ext :=
  ext (Some "env-token") (Some "env-site") whoamiOk presignFiles
      activeAtThird [].

Definition stuck : Ext :=
  ext (Some "env-token") (Some "env-site") whoamiOk presignFiles
      neverActive [].

(** A fresh process with nothing on disk. *)
Definition fresh : World :=
  {| trace := []; webinyConfig := FileMissing; projectConfig := FileMissing;
     this_siteId := None; this_sdk := None |}.

(** The state once the client is set up and the site is known. *)
Definition ready : World :=
  {| trace := [EvNewSDK "env-token"; EvWhoami; EvListPackages];
     webinyConfig := FileMissing; projectConfig := FileMissing;
     this_siteId := Some "env-site"; this_sdk := Some "env-token" |}.

Definition aDeploy : DeployRecord :=
  {| d_id := "d-app";
     d_files := [ {| df_key := "index.html"; df_type := "text/html";
                     df_required := true |};
                  {| df_key := "main.js"; df_type := "text/javascript";
                     df_required := false |} ];
     d_url := None |}.

(** A service that presigns a file nobody submitted. *)
Definition ghostFile : Presigned :=
  {| ps_key := "ghost.js"; ps_presigned := "https://s3/ghost.js" |}.

Definition ghostPresign (h : History) (siteId : option string)
    (deployId : string) (req : list KeyType) : Res (list Presigned) :=
  Ok [ghostFile].

Definition haunted : Ext :=
  ext (Some "env-token") (Some "env-site") whoamiOk ghostPresign
      activeAtThird [].

(** [whoami] fails with an error that is not a refused connection. *)
Definition flaky : Ext :=
  ext (Some "env-token") (Some "env-site") (fun _ => Err timedOut)
      presignFiles activeAtThird [].

(** A machine that has deployed before: both config files hold a value. *)
Definition configured : World :=
  {| trace := [];
     webinyConfig := FileText (Some {[ "accessToken" := "stored-token" ]});
     projectConfig := FileText (Some {[ "siteId" := "stored-site" ]});
     this_siteId := None; this_sdk := None |}.

End Sample.

(** ** The [File] entity of the files API ([fileFactory])

    The callbacks [fileFactory] registers on the entity: the [onSet] hook and
    the validator of the [tags] attribute, and the [beforeCreate] listener.
    The entity framework that calls them, the [File.findOne] query and
    [String.prototype.toLowerCase] are outside of the repository's file and
    are parameters here. *)

Module FileEntity.

(** A JavaScript value, as far as the callbacks of [tags] tell values
    apart. *)
#[local] Unset Elimination Schemes.
Inductive Value :=
| VUndefined
| VNull
| VString (s : string)
| VArray (items : list Value)
| VOther.  (* a number, a boolean, an object: no [toLowerCase] method *)
#[local] Set Elimination Schemes.

(** [Error(message)] *)
Definition error (message : string) : JsError :=
  {| err_code := None; err_message := message |}.

Definition notAFunction : JsError :=
  {| err_code := None;
     err_message := "item.toLowerCase is not a function" |}.

Section Callbacks.

Variable toLowerCase : string -> string.

(** [item => item.toLowerCase()] *)
Definition lower_item (item : Value) : Res Value :=
  match item with
  | VString s => Ok (VString (toLowerCase s))
  | VUndefined => Err (typeError "toLowerCase" "undefined")
  | VNull => Err (typeError "toLowerCase" "null")
  | VArray _ | VOther => Err notAFunction
  end.

(** [value.map(item => item.toLowerCase())]: the first item that throws
    ends the map. *)
Fixpoint lower_items (items : list Value) : Res (list Value) :=
  match items with
  | [] => Ok []
  | item :: rest =>
      match lower_item item with
      | Err e => Err e
      | Ok v =>
          match lower_items rest with
          | Err e => Err e
          | Ok vs => Ok (v :: vs)
          end
      end
  end.

(** The [onSet] hook of [tags]. *)
Definition tags_onSet (value : Value) : Res Value :=
  match value with
  | VArray items =>
      match lower_items items with
      | Ok vs => Ok (VArray vs)
      | Err e => Err e
      end
  | _ => Ok value
  end.

End Callbacks.

(** The [for] loop of the validator of [tags]; [tag.length] counts UTF-16
    code units. *)
Fixpoint check_tags (tags : list Value) : Res unit :=
  match tags with
  | [] => Ok tt
  | VString tag :: rest =>
      if 50 <? js_length tag
      then Err (error ("Tag " +:+ tag +:+ " is more than 50 characters long."))
      else check_tags rest
  | _ :: _ => Err (error "Tag must be typeof string.")
  end.

(** The validator of [tags]. *)
Definition tags_validator (tags : Value) : Res unit :=
  match tags with
  | VArray items =>
      if 15 <? length items
      then Err (error "You cannot set more than 15 tags.")
      else check_tags items
  | _ => Ok tt
  end.

(** The fields of the entity that [beforeCreate] reads and writes;
    [createdBy] holds [user.id], which is [undefined] without a user. *)
Record File := { src : string; createdBy : option string }.

(** [s.startsWith(prefix)] *)
Definition startsWith (s prefix : string) : bool := String.prefix prefix s.

Definition relativePathError : JsError :=
  error ("File " +:+ dq +:+ "src" +:+ dq +:+
         " must be a relative path, starting with forward slash (" +:+
         dq +:+ "/" +:+ dq +:+ ").").

Definition uniqueError : JsError :=
  error ("File " +:+ dq +:+ "src" +:+ dq +:+ " must be unique. ").

(** The [beforeCreate] listener; [findOne] tells whether the query for the
    [src] found a file, or rejects. *)
Definition beforeCreate (findOne : string -> Res bool)
    (user_id : option string) (file : File) : Res File :=
  if negb (startsWith (src file) "/") || startsWith (src file) "http"
  then Err relativePathError
  else
    match findOne (src file) with
    | Err e => Err e
    | Ok true => Err uniqueError
    | Ok false => Ok {| src := src file; createdBy := user_id |}
    end.

End FileEntity.

(** ** Further vocabulary *)

(** The line the token prompt shows while [whoami] runs. *)
Definition verifying : Event := EvBottomBar "Verifying token...".

Definition is_execa (ev : Event) : bool :=
  match ev with
  | EvExeca _ _ _ _ => true
  | _ => false
  end.

(** [{ ...pkg.env, REACT_APP_ENV: value }] *)
Definition build_env (pkg : Package) (value : string) : JsObj string :=
  obj_set (obj_spread (pkg_env pkg)) "REACT_APP_ENV" value.

(** The two builds [ensureBuild] can run for a package. *)
Definition browserBuild (pkg : Package) : Event :=
  EvExeca "yarn" ["build"] (pkg_root pkg) (build_env pkg "browser").

Definition ssrBuild (pkg : Package) : Event :=
  EvExeca "yarn" ["build:ssr"] (pkg_root pkg) (build_env pkg "ssr").

Definition running_build : Event := EvLog LInfo "Running build...".

(** The complaint of [ensureBuild] about a missing script. *)
Definition missing_ssr_script (pkg : Package) : Event :=
  EvLog LError (pkg_name pkg +:+ " doesn't have a script " +:+ dq +:+
                "build:ssr" +:+ dq +:+
                "! This script is mandatory for SSR enabled apps.").

(** A warning of the archiver that [createZip] survives: a missing file. *)
Definition harmless (s : ArchSignal) : bool :=
  match s with
  | ArchWarning e => has_code e "ENOENT"
  | ArchProgress _ _ => true
  end.

(** The line [createZip] logs for a signal it survives. *)
Definition signal_line (s : ArchSignal) : Event :=
  match s with
  | ArchWarning e => EvLog LInfo (err_message e)
  | ArchProgress processed total =>
      EvLog LLog ("Processing files " +:+ pretty processed +:+ "/" +:+
                  pretty total +:+ "...")
  end.

Definition archive_created : Event :=
  EvLog LSuccess "Function archive created!".

(** The line of the batch branch before a deploy is activated. *)
Definition activating (folder : string) : Event :=
  EvLog LLog ("Activating " +:+ folder +:+ "...").

(** The two questions the class can ask the user. *)
Definition is_prompt (ev : Event) : bool :=
  match ev with
  | EvPromptToken | EvPromptSite _ => true
  | _ => false
  end.

(** What the run records when [whoami] does not know the stored or
    environment-supplied token [tok], up to the prompt. *)
Definition invalid_token_events (tok : string) : list Event :=
  [EvNewSDK tok; EvWhoami; EvLog LError "The existing token is invalid!";
   EvLog LInfo "To create a token, log into your Webiny account and create a token in the account settings.";
   EvPromptToken].

(** A tag the validator lets through. *)
Definition good_tag (item : FileEntity.Value) : Prop :=
  exists tag, item = FileEntity.VString tag /\ js_length tag <= 50.

(** The error the validator raises for an item it does not let through. *)
Definition tag_error (item : FileEntity.Value) : JsError :=
  match item with
  | FileEntity.VString tag =>
      FileEntity.error
        ("Tag " +:+ tag +:+ " is more than 50 characters long.")
  | _ => FileEntity.error "Tag must be typeof string."
  end.

(** The calls that make a deploy live and wait for it. *)
Definition is_activation (ev : Event) : bool :=
  match ev with
  | EvActivateDeploy _ | EvIsDeployActive _ | EvSleep _ => true
  | _ => false
  end.

(** The work on a package: builds, archives, digests, deploy records,
    presign requests, reads and uploads. *)
Definition is_package_work (ev : Event) : bool :=
  match ev with
  | EvLog _ _ => false
  | _ => package_event ev
  end.

(** The [createDeploy] call of a run from [w] is answered with [r]: the run
    records a [createDeploy] call, and [r] is what the service answers to the
    first such call, made with these arguments in the history before it. *)
Definition createDeploy_answered {A} (E : Ext) (m : M A) (w : World)
    (r : Res DeployRecord) : Prop :=
  exists pre post siteId type path files ssr,
    emitted m w = pre ++ EvCreateDeploy siteId type path files ssr :: post /\
    Forall (fun ev => is_createDeploy ev = false) pre /\
    sdk_createDeploy E (trace w ++ pre) siteId type path files ssr = r.

(** ** Further sample runs *)

Module Cases.

(** A no-break space, U+00A0. *)
Definition nbsp : string :=
  String (ascii_of_nat 194) (String (ascii_of_nat 160) EmptyString).

(** The letter e with an acute accent, U+00E9. *)
Definition eacute : string :=
  String (ascii_of_nat 195) (String (ascii_of_nat 169) EmptyString).

Fixpoint times (n : nat) (s : string) : string :=
  match n with
  | O => EmptyString
  | S n' => s +:+ times n' s
  end.

(** A tag of 26 accented letters: 26 code units, 52 bytes. *)
Definition accented : string := times 26 eacute.

(** Nothing in the environment; the user first types blanks at the token
    prompt, then a token. *)
Definition loggedOut : Ext :=
  Sample.ext None None Sample.whoamiOk Sample.presignFiles
             Sample.activeAtThird ["  "; nbsp +:+ " "; "typed-token"].

(** A global config file with a setting next to the token. *)
Definition withSettings : World :=
  {| trace := [];
     webinyConfig :=
       FileText (Some {[ "accessToken" := "old-token"; "theme" := "dark" ]});
     projectConfig := FileMissing;
     this_siteId := None; this_sdk := None |}.

(** A client is set up, no site is known yet. *)
Definition loggedIn : World :=
  {| trace := [EvNewSDK "typed-token"; EvWhoami];
     webinyConfig := FileMissing; projectConfig := FileMissing;
     this_siteId := None; this_sdk := Some "typed-token" |}.

(** A later process on the same project, after the site was stored. *)
Definition nextRun : World :=
  {| trace := []; webinyConfig := FileMissing;
     projectConfig := store_key "siteId" "site-2" FileMissing;
     this_siteId := None; this_sdk := Some "typed-token" |}.

(** The service cannot be reached. *)
Definition refused : JsError :=
  {| err_code := Some "ECONNREFUSED"; err_message := "connect ECONNREFUSED" |}.

Definition offline : Ext :=
  Sample.ext (Some "env-token") (Some "env-site") (fun _ => Err refused)
             Sample.presignFiles Sample.activeAtThird [].

(** An SSR app whose [package.json] has no [build:ssr] script, and whose
    environment sets [REACT_APP_ENV] itself. *)
Definition ssrApp : Package :=
  {| pkg_name := "ssr-app"; pkg_root := "/p/ssr-app"; pkg_path := "/ssr";
     pkg_type := "app"; pkg_ssr := true;
     pkg_env := [("REACT_APP_ENV", "test"); ("NODE_ENV", "production")];
     pkg_script_build_ssr := None |}.

Definition buildFailed : JsError :=
  {| err_code := None; err_message := "Command failed: yarn build" |}.

(** Every build fails. *)
Definition broken : Ext :=
  {| env_WEBINY_ACCESS_TOKEN := Some "env-token";
     env_WEBINY_SITE_ID := Some "env-site";
     tempdir := "/tmp";
     sdk_whoami := Sample.whoamiOk;
     sdk_sites := fun _ => Ok [];
     sdk_getFilesDigest := fun _ _ => Ok Sample.webFiles;
     sdk_getFileHash := fun _ _ => Ok "c3";
     sdk_createDeploy := Sample.createDeploy;
     sdk_presignFiles := Sample.presignFiles;
     sdk_uploadPresignedFile := fun _ _ _ => Ok tt;
     sdk_activateDeploy := fun _ _ => Ok tt;
     sdk_isDeployActive := Sample.activeAtThird;
     fs_readFile := fun _ path => Ok ("bytes of " +:+ path);
     execa := fun _ _ _ _ _ => Err buildFailed;
     archiver := fun _ _ _ => ([], ArchClose);
     listPackages := fun _ => Ok [Sample.webApp];
     prompt_token_inputs := fun _ => [];
     prompt_abort := Sample.aborted;
     prompt_site_choice := fun _ => 0 |}.

Definition vanished : JsError :=
  {| err_code := Some "ENOENT"; err_message := "no such file: a.tmp" |}.

Definition denied : JsError :=
  {| err_code := Some "EACCES"; err_message := "permission denied: b.js" |}.

(** An archiver that warns about a vanished file and goes on. *)
Definition zipsWithWarning : Ext :=
  {| env_WEBINY_ACCESS_TOKEN := Some "env-token";
     env_WEBINY_SITE_ID := Some "env-site";
     tempdir := "/tmp";
     sdk_whoami := Sample.whoamiOk;
     sdk_sites := fun _ => Ok [];
     sdk_getFilesDigest := fun _ _ => Ok Sample.webFiles;
     sdk_getFileHash := fun _ _ => Ok "c3";
     sdk_createDeploy := Sample.createDeploy;
     sdk_presignFiles := Sample.presignFiles;
     sdk_uploadPresignedFile := fun _ _ _ => Ok tt;
     sdk_activateDeploy := fun _ _ => Ok tt;
     sdk_isDeployActive := Sample.activeAtThird;
     fs_readFile := fun _ path => Ok ("bytes of " +:+ path);
     execa := fun _ _ _ _ _ => Ok tt;
     archiver := fun _ _ _ =>
       ([ArchProgress 1 2; ArchWarning vanished; ArchProgress 2 2], ArchClose);
     listPackages := fun _ => Ok [Sample.apiFn];
     prompt_token_inputs := fun _ => [];
     prompt_abort := Sample.aborted;
     prompt_site_choice := fun _ => 0 |}.

(** An archiver that cannot read a file, and goes on signalling. *)
Definition zipsDenied : Ext :=
  {| env_WEBINY_ACCESS_TOKEN := Some "env-token";
     env_WEBINY_SITE_ID := Some "env-site";
     tempdir := "/tmp";
     sdk_whoami := Sample.whoamiOk;
     sdk_sites := fun _ => Ok [];
     sdk_getFilesDigest := fun _ _ => Ok Sample.webFiles;
     sdk_getFileHash := fun _ _ => Ok "c3";
     sdk_createDeploy := Sample.createDeploy;
     sdk_presignFiles := Sample.presignFiles;
     sdk_uploadPresignedFile := fun _ _ _ => Ok tt;
     sdk_activateDeploy := fun _ _ => Ok tt;
     sdk_isDeployActive := Sample.activeAtThird;
     fs_readFile := fun _ path => Ok ("bytes of " +:+ path);
     execa := fun _ _ _ _ _ => Ok tt;
     archiver := fun _ _ _ =>
       ([ArchProgress 1 2; ArchWarning denied; ArchProgress 2 2], ArchClose);
     listPackages := fun _ => Ok [Sample.apiFn];
     prompt_token_inputs := fun _ => [];
     prompt_abort := Sample.aborted;
     prompt_site_choice := fun _ => 0 |}.

(** The collaborators [E] in front of a service that rejects every new
    deploy with [err]. *)
Definition rejecting (E : Ext) (err : JsError) : Ext :=
  {| env_WEBINY_ACCESS_TOKEN := env_WEBINY_ACCESS_TOKEN E;
     env_WEBINY_SITE_ID := env_WEBINY_SITE_ID E;
     tempdir := tempdir E;
     sdk_whoami := sdk_whoami E;
     sdk_sites := sdk_sites E;
     sdk_getFilesDigest := sdk_getFilesDigest E;
     sdk_getFileHash := sdk_getFileHash E;
     sdk_createDeploy := fun _ _ _ _ _ _ => Err err;
     sdk_presignFiles := sdk_presignFiles E;
     sdk_uploadPresignedFile := sdk_uploadPresignedFile E;
     sdk_activateDeploy := sdk_activateDeploy E;
     sdk_isDeployActive := sdk_isDeployActive E;
     fs_readFile := fs_readFile E;
     execa := execa E;
     archiver := archiver E;
     listPackages := listPackages E;
     prompt_token_inputs := prompt_token_inputs E;
     prompt_abort := prompt_abort E;
     prompt_site_choice := prompt_site_choice E |}.

Definition unreadable : JsError :=
  {| err_code := Some "EACCES"; err_message := "permission denied" |}.

(** The collaborators [E] on a disk where [main.js] cannot be read. *)
Definition lockedFile (E : Ext) : Ext :=
  {| env_WEBINY_ACCESS_TOKEN := env_WEBINY_ACCESS_TOKEN E;
     env_WEBINY_SITE_ID := env_WEBINY_SITE_ID E;
     tempdir := tempdir E;
     sdk_whoami := sdk_whoami E;
     sdk_sites := sdk_sites E;
     sdk_getFilesDigest := sdk_getFilesDigest E;
     sdk_getFileHash := sdk_getFileHash E;
     sdk_createDeploy := sdk_createDeploy E;
     sdk_presignFiles := sdk_presignFiles E;
     sdk_uploadPresignedFile := sdk_uploadPresignedFile E;
     sdk_activateDeploy := sdk_activateDeploy E;
     sdk_isDeployActive := sdk_isDeployActive E;
     fs_readFile := fun h abs =>
       if String.eqb abs "/p/web-app/build/main.js" then Err unreadable
       else fs_readFile E h abs;
     execa := execa E;
     archiver := archiver E;
     listPackages := listPackages E;
     prompt_token_inputs := prompt_token_inputs E;
     prompt_abort := prompt_abort E;
     prompt_site_choice := prompt_site_choice E |}.

(** A deploy of the web app for which both files are required. *)
Definition fullDeploy : DeployRecord :=
  {| d_id := "d-app";
     d_files := [ {| df_key := "index.html"; df_type := "text/html";
                     df_required := true |};
                  {| df_key := "main.js"; df_type := "text/javascript";
                     df_required := true |} ];
     d_url := None |}.

(** A service that reports the deploy active at once, without a URL. *)
Definition activeNoUrl (h : History) (deployId : string) : Res ActiveResp :=
  Ok {| active := true; url := Some "" |}.

Definition urlless : Ext :=
  Sample.ext (Some "env-token") (Some "env-site") Sample.whoamiOk
             Sample.presignFiles activeNoUrl [].

(** Two deploys waiting for their activation. *)
Definition twoDeploys : JsObj DeployRecord :=
  [ ("web-app", {| d_id := "d-app"; d_files := []; d_url := None |});
    ("api-fn", {| d_id := "d-function"; d_files := []; d_url := None |}) ].

(** A service whose second poll fails. *)
Definition failsAtSecondPoll (h : History) (deployId : string)
    : Res ActiveResp :=
  if 1 <=? Sample.polls h then Err Sample.timedOut
  else Ok {| active := false; url := None |}.

Definition shaky : Ext :=
  Sample.ext (Some "env-token") (Some "env-site") Sample.whoamiOk
             Sample.presignFiles failsAtSecondPoll [].

(** The token of the environment is unknown to the service; the user types
    another one, which the service knows. *)
Definition expired : Ext :=
  Sample.ext (Some "env-token") (Some "env-site")
    (fun h => if 2 <=? length (List.filter
                                 (fun ev => match ev with
                                            | EvNewSDK _ => true
                                            | _ => false
                                            end) h)
              then Ok (Some "user-1") else Ok None)
    Sample.presignFiles Sample.activeAtThird ["typed-token"].

(** Lower case of the ASCII letters. *)
Definition lowerAscii (c : ascii) : ascii :=
  let n := nat_of_ascii c in
  if (65 <=? n) && (n <=? 90) then ascii_of_nat (n + 32) else c.

Fixpoint asciiLower (s : string) : string :=
  match s with
  | EmptyString => EmptyString
  | String c rest => String (lowerAscii c) (asciiLower rest)
  end.

(** A service that compares the submitted digest with the one of the live
    deploy, whose files have the hashes [a1] and [b2]: it reports no changes
    for that digest and creates a deploy for any other. *)
Definition comparingCreateDeploy (h : History) (siteId : option string)
    (type path : string) (files : list FileRecord) (ssr : option bool)
    : Res DeployRecord :=
  if bool_decide (map fr_hash files = ["a1"; "b2"]) then Err Sample.noChanges
  else Ok {| d_id := "d-" +:+ type;
             d_files := map (fun f => {| df_key := fr_key f;
                                         df_type := fr_type f;
                                         df_required := true |}) files;
             d_url := None |}.

Definition comparing : Ext :=
  {| env_WEBINY_ACCESS_TOKEN := Some "env-token";
     env_WEBINY_SITE_ID := Some "env-site";
     tempdir := "/tmp";
     sdk_whoami := Sample.whoamiOk;
     sdk_sites := fun _ => Ok [];
     sdk_getFilesDigest := fun _ _ => Ok Sample.webFiles;
     sdk_getFileHash := fun _ _ => Ok "c3";
     sdk_createDeploy := comparingCreateDeploy;
     sdk_presignFiles := Sample.presignFiles;
     sdk_uploadPresignedFile := fun _ _ _ => Ok tt;
     sdk_activateDeploy := fun _ _ => Ok tt;
     sdk_isDeployActive := Sample.activeAtThird;
     fs_readFile := fun _ path => Ok ("bytes of " +:+ path);
     execa := fun _ _ _ _ _ => Ok tt;
     archiver := fun _ _ _ => ([], ArchClose);
     listPackages := fun _ => Ok [Sample.webApp; Sample.apiFn];
     prompt_token_inputs := fun _ => [];
     prompt_abort := Sample.aborted;
     prompt_site_choice := fun _ => 0 |}.



(** A service that presigns every file of the build, asked for or not. *)
Definition eagerPresign (h : History) (siteId : option string)
    (deployId : string) (req : list KeyType) : Res (list Presigned) :=
  Ok [ {| ps_key := "index.html"; ps_presigned := "https://s3/index.html" |};
       {| ps_key := "main.js"; ps_presigned := "https://s3/main.js" |} ].

Definition eager : Ext :=
  Sample.ext (Some "env-token") (Some "env-site") Sample.whoamiOk
             eagerPresign Sample.activeAtThird [].

End Cases.

(** * Properties *)

(** ** Generalities on worlds and traces *)

Lemma add_events_nil w : add_events w [] = w.
Proof. destruct w; unfold add_events; simpl. by rewrite app_nil_r. Qed.

Lemma add_events_app w a b :
  add_events (add_events w a) b = add_events w (a ++ b).
Proof. unfold add_events; simpl. by rewrite app_assoc. Qed.

Lemma emit_add ev w : emit ev w = (Ret tt, add_events w [ev]).
Proof. reflexivity. Qed.

Lemma bind_ret_eq {A B} (m : M A) (k : A -> M B) w a w1 :
  m w = (Ret a, w1) -> bind m k w = k a w1.
Proof. intros H. unfold bind. by rewrite H. Qed.

Lemma bind_throw_eq {A B} (m : M A) (k : A -> M B) w e w1 :
  m w = (Throw e, w1) -> bind m k w = (Throw e, w1).
Proof. intros H. unfold bind. by rewrite H. Qed.

Lemma bind_exit_eq {A B} (m : M A) (k : A -> M B) w c w1 :
  m w = (Exit c, w1) -> bind m k w = (Exit c, w1).
Proof. intros H. unfold bind. by rewrite H. Qed.

Lemma try_catch_ret_eq {A} (m : M A) h w a w1 :
  m w = (Ret a, w1) -> try_catch m h w = (Ret a, w1).
Proof. intros H. unfold try_catch. by rewrite H. Qed.

Lemma try_catch_throw_eq {A} (m : M A) h w e w1 :
  m w = (Throw e, w1) -> try_catch m h w = h e w1.
Proof. intros H. unfold try_catch. by rewrite H. Qed.

Lemma try_catch_exit_eq {A} (m : M A) h w c w1 :
  m w = (Exit c, w1) -> try_catch m h w = (Exit c, w1).
Proof. intros H. unfold try_catch. by rewrite H. Qed.

Lemma sdk_call_ok {A} method ev (answer : History -> Res A) w tok a :
  this_sdk w = Some tok -> answer (trace w) = Ok a ->
  sdk_call method ev answer w = (Ret a, add_events w [ev]).
Proof. intros Hsdk Hans. unfold sdk_call, call. by rewrite Hsdk, Hans. Qed.

Lemma sdk_call_err {A} method ev (answer : History -> Res A) w tok e :
  this_sdk w = Some tok -> answer (trace w) = Err e ->
  sdk_call method ev answer w = (Throw e, add_events w [ev]).
Proof. intros Hsdk Hans. unfold sdk_call, call. by rewrite Hsdk, Hans. Qed.

Lemma try_catch_bind_ret {A B} (m : M A) (k : A -> M B) h w a w1 :
  m w = (Ret a, w1) -> try_catch (bind m k) h w = try_catch (k a) h w1.
Proof. intros H. unfold try_catch, bind. by rewrite H. Qed.

Lemma try_catch_bind_throw {A B} (m : M A) (k : A -> M B) h w e w1 :
  m w = (Throw e, w1) -> try_catch (bind m k) h w = h e w1.
Proof. intros H. unfold try_catch, bind. by rewrite H. Qed.

Lemma drop_trace_app (h d : list Event) : drop (length h) (h ++ d) = d.
Proof. by rewrite drop_app_length. Qed.

Lemma emitted_add {A} (m : M A) w out d :
  m w = (out, add_events w d) -> emitted m w = d.
Proof. intros H. unfold emitted. rewrite H. simpl. apply drop_trace_app. Qed.

Lemma rounds_polls k id : length (List.filter is_poll (rounds k id)) = k.
Proof. induction k as [|k IH]; simpl; [done|]. by rewrite IH. Qed.

Lemma rounds_slept k id : slept (rounds k id) = (5000 * Z.of_nat k)%Z.
Proof. induction k as [|k IH]; [done|]. simpl rounds. simpl slept. lia. Qed.

(** In a sequence of rounds every poll comes right after a pause. *)
Lemma rounds_poll_after_sleep k id pre id' post :
  rounds k id = pre ++ EvIsDeployActive id' :: post ->
  exists pre', pre = pre' ++ [EvSleep 5000].
Proof.
  revert pre. induction k as [|k IH]; intros pre H; simpl in H.
  - by destruct pre.
  - destruct pre as [|e1 [|e2 pre2]]; simpl in H.
    + discriminate.
    + simplify_eq. by exists [].
    + injection H as <- <- Hrest.
      destruct (IH _ Hrest) as [pre' ->].
      by exists (EvSleep 5000 :: EvIsDeployActive id :: pre').
Qed.

(** ** Relations kept by every step of a run

    [steps R m] says that running [m] takes any world to one related to it by
    [R], whatever the outcome.  For a reflexive and transitive [R] it is
    enough that every primitive step is in [R]. *)

Section Steps.

Context (R : World -> World -> Prop) `{!StepRel R}.

Lemma steps_ret {A} (a : A) : steps R (ret a).
Proof. intros w. apply step_refl. Qed.

Lemma steps_throw {A} e : steps R (@throw A e).
Proof. intros w. apply step_refl. Qed.

Lemma steps_exit {A} c : steps R (@process_exit A c).
Proof. intros w. apply step_refl. Qed.

Lemma steps_bind {A B} (m : M A) (k : A -> M B) :
  steps R m -> (forall a, steps R (k a)) -> steps R (bind m k).
Proof.
  intros Hm Hk w. specialize (Hm w). unfold bind.
  destruct (m w) as [[a|e|c] w1]; cbn [snd] in *; [|done..].
  eapply step_trans; [exact Hm|apply Hk].
Qed.

Lemma bind_rel {A B} (m : M A) (k : A -> M B) w :
  R w (snd (m w)) ->
  (forall a w1, m w = (Ret a, w1) -> R w1 (snd (k a w1))) ->
  R w (snd (bind m k w)).
Proof.
  intros Hm Hk. unfold bind.
  destruct (m w) as [[a|e|c] w1]; cbn [snd] in *; [|done..].
  eapply step_trans; [exact Hm|by apply Hk].
Qed.

Lemma steps_try_catch {A} (m : M A) (h : JsError -> M A) :
  steps R m -> (forall e, steps R (h e)) -> steps R (try_catch m h).
Proof.
  intros Hm Hh w. specialize (Hm w). unfold try_catch.
  destruct (m w) as [[a|e|c] w1]; cbn [snd] in *; [done| |done].
  eapply step_trans; [exact Hm|apply Hh].
Qed.

Lemma steps_emit ev : allows R ev -> steps R (emit ev).
Proof. intros H w. apply H. Qed.

Lemma steps_log lvl msg : allows R (EvLog lvl msg) -> steps R (log lvl msg).
Proof. apply steps_emit. Qed.

Lemma steps_call {A} ev (answer : History -> Res A) :
  allows R ev -> steps R (call ev answer).
Proof. intros H w. unfold call. destruct (answer (trace w)); apply H. Qed.

Lemma steps_sdk_call {A} method ev (answer : History -> Res A) :
  allows R ev -> steps R (sdk_call method ev answer).
Proof.
  intros H w. unfold sdk_call. destruct (this_sdk w).
  - by apply steps_call.
  - apply step_refl.
Qed.

Lemma steps_get_siteId : steps R get_siteId.
Proof. intros w. apply step_refl. Qed.

Lemma steps_sdk_member method : steps R (sdk_member method).
Proof. intros w. unfold sdk_member. destruct (this_sdk w); apply step_refl. Qed.

Lemma steps_ask {A} ev (answer : History -> A) :
  allows R ev -> steps R (ask ev answer).
Proof. intros H w. apply H. Qed.

Lemma steps_start {A} ev (answer : History -> Res A) :
  allows R ev -> steps R (start ev answer).
Proof. intros H w. unfold start. destruct (answer (trace w)); apply H. Qed.

Lemma steps_promise_all {A} (l : list (Settled A)) : steps R (promise_all l).
Proof.
  unfold promise_all. destruct (first_sync l); [apply steps_throw|].
  destruct (first_async l); [apply steps_throw|apply steps_ret].
Qed.

Lemma steps_mapM {A B} (f : A -> M B) (l : list A) :
  (forall a, a ∈ l -> steps R (f a)) -> steps R (mapM f l).
Proof.
  induction l as [|a l IH]; intros Hf; cbn [mapM].
  - apply steps_ret.
  - apply steps_bind; [apply Hf; left|]. intros b.
    apply steps_bind; [|intros; apply steps_ret].
    apply IH. intros a' Ha'. apply Hf. by right.
Qed.

Lemma steps_forEach {A} (f : A -> M unit) (l : list A) :
  (forall a, a ∈ l -> steps R (f a)) -> steps R (forEach f l).
Proof.
  induction l as [|a l IH]; intros Hf; cbn [forEach].
  - apply steps_ret.
  - apply steps_bind; [apply Hf; left|]. intros _.
    apply IH. intros a' Ha'. apply Hf. by right.
Qed.

End Steps.

#[export] Instance only_steprel P : StepRel (only P).
Proof.
  split.
  - intros w. exists []. by rewrite app_nil_r.
  - intros w1 w2 w3 (d1 & H1 & F1) (d2 & H2 & F2).
    exists (d1 ++ d2). rewrite H2, H1, app_assoc. split; [done|].
    by apply Forall_app.
Qed.

Lemma only_allows (P : Event -> Prop) ev : P ev -> allows (only P) ev.
Proof. intros H w. exists [ev]. split; [done|]. by constructor. Qed.

#[export] Instance adds_steprel P : StepRel (adds P).
Proof.
  split.
  - intros w. exists []. by rewrite add_events_nil.
  - intros w1 w2 w3 (d1 & -> & F1) (d2 & -> & F2).
    exists (d1 ++ d2). rewrite add_events_app. split; [done|].
    by apply Forall_app.
Qed.

Lemma adds_allows (P : Event -> Prop) ev : P ev -> allows (adds P) ev.
Proof. intros H w. exists [ev]. split; [done|]. by constructor. Qed.

#[export] Instance keeps_steprel {X} (f : World -> X) : StepRel (keeps f).
Proof.
  split; unfold keeps; [done|]. intros w1 w2 w3 H1 H2. by rewrite H2.
Qed.

(** ** The steps of each method

    Whatever relation [R] allows the events a method can record is kept by
    the method.  Only [setupSDK] and the site resolution of [deploy] touch
    more than the trace. *)

Ltac steps_step :=
  match goal with
  | |- StepRel _ => exact _
  | |- forall _, steps _ _ => intros ?
  | H : forall ev : Event, _ |- allows _ _ => apply H; reflexivity
  | |- steps _ (if ?b then _ else _) => destruct b
  | |- steps _ (match ?x with _ => _ end) => destruct x
  | |- steps _ (bind _ _) => apply steps_bind
  | |- steps _ (try_catch _ _) => apply steps_try_catch
  | |- steps _ (ret _) => apply steps_ret
  | |- steps _ (throw _) => apply steps_throw
  | |- steps _ (process_exit _) => apply steps_exit
  | |- steps _ (emit _) => apply steps_emit
  | |- steps _ (log _ _) => apply steps_log
  | |- steps _ (call _ _) => apply steps_call
  | |- steps _ (sdk_call _ _ _) => apply steps_sdk_call
  | |- steps _ (sdk_member _) => apply steps_sdk_member
  | |- steps _ (ask _ _) => apply steps_ask
  | |- steps _ (start _ _) => apply steps_start
  | |- steps _ (promise_all _) => apply steps_promise_all
  | |- steps _ get_siteId => apply steps_get_siteId
  end.

Ltac steps_walk := repeat steps_step.

Tactic Notation "use" uconstr(l) := apply l; try exact _.

Section MethodSteps.

Context (E : Ext) (R : World -> World -> Prop) `{!StepRel R}.

Lemma steps_getAccessToken : steps R (getAccessToken E).
Proof.
  intros w. unfold getAccessToken.
  repeat (case_match; cbn [snd]); apply step_refl.
Qed.

Lemma steps_getSiteId : steps R (getSiteId E).
Proof.
  intros w. unfold getSiteId.
  repeat (case_match; cbn [snd]); apply step_refl.
Qed.

Lemma steps_validateCiRequirements :
  (forall lvl msg, allows R (EvLog lvl msg)) ->
  steps R (validateCiRequirements E).
Proof. intros Hev. unfold validateCiRequirements. steps_walk; apply Hev. Qed.

Lemma steps_checkNetworkError err :
  (forall lvl msg, allows R (EvLog lvl msg)) ->
  steps R (checkNetworkError err).
Proof. intros Hev. unfold checkNetworkError. steps_walk; apply Hev. Qed.

Lemma steps_waitTillActive_rounds n deploy :
  (forall ev, activation_event ev = true -> allows R ev) ->
  steps R (waitTillActive_rounds E n deploy).
Proof.
  intros Hev. induction n as [|n IH]; cbn [waitTillActive_rounds].
  - use steps_ret.
  - unfold sleep. steps_walk. exact IH.
Qed.

Lemma steps_waitTillActive deploy :
  (forall ev, activation_event ev = true -> allows R ev) ->
  steps R (waitTillActive E deploy).
Proof. use steps_waitTillActive_rounds. Qed.

Lemma steps_createZip_signals signals fin :
  (forall ev, archive_event ev = true -> allows R ev) ->
  steps R (createZip_signals signals fin).
Proof.
  intros Hev. induction signals as [|[err|processed total] rest IH];
    cbn [createZip_signals]; steps_walk; exact IH.
Qed.

Lemma steps_createZip folder output :
  (forall ev, archive_event ev = true -> allows R ev) ->
  steps R (createZip E folder output).
Proof.
  intros Hev. unfold createZip. steps_walk.
  by use steps_createZip_signals.
Qed.

Lemma steps_ensureBuild pkg :
  (forall ev, build_event ev = true -> allows R ev) ->
  steps R (ensureBuild E pkg).
Proof. intros Hev. unfold ensureBuild. steps_walk. Qed.

Lemma steps_uploadFiles_logs uploads :
  (forall ev, upload_event ev = true -> allows R ev) ->
  steps R (uploadFiles_logs uploads).
Proof.
  intros Hev. induction uploads as [|[key|e|e] rest IH];
    cbn [uploadFiles_logs]; steps_walk. exact IH.
Qed.

Lemma steps_uploadFiles deploy files :
  (forall ev, upload_event ev = true -> allows R ev) ->
  steps R (uploadFiles E deploy files).
Proof.
  intros Hev. unfold uploadFiles. steps_walk.
  - use steps_mapM. intros file _. unfold uploadFiles_read. steps_walk.
  - use steps_mapM. intros file _ w. unfold uploadFiles_upload.
    destruct (this_sdk w); [|apply step_refl].
    use steps_start. apply Hev. reflexivity.
  - by use steps_uploadFiles_logs.
  - use steps_checkNetworkError. intros; apply Hev; reflexivity.
Qed.

Lemma package_upload_event ev : upload_event ev = true -> package_event ev = true.
Proof. by destruct ev. Qed.

Lemma package_archive_event ev : archive_event ev = true -> package_event ev = true.
Proof. by destruct ev. Qed.

Lemma package_build_event ev : build_event ev = true -> package_event ev = true.
Proof. by destruct ev. Qed.

Lemma steps_deploy_catch err :
  (forall lvl msg, allows R (EvLog lvl msg)) ->
  steps R (deploy_catch err).
Proof.
  intros Hev. unfold deploy_catch, log. steps_walk;
    solve [by use steps_checkNetworkError | apply Hev].
Qed.

Lemma steps_deployApp pkg :
  (forall ev, package_event ev = true -> allows R ev) ->
  steps R (deployApp E pkg).
Proof.
  intros Hev. unfold deployApp. steps_walk.
  - use steps_uploadFiles. intros ev ?. by apply Hev, package_upload_event.
  - use steps_deploy_catch. intros; apply Hev; reflexivity.
Qed.

Lemma steps_deployFunction pkg :
  (forall ev, package_event ev = true -> allows R ev) ->
  steps R (deployFunction E pkg).
Proof.
  intros Hev. unfold deployFunction. steps_walk.
  - use steps_createZip. intros ev ?. by apply Hev, package_archive_event.
  - use steps_uploadFiles. intros ev ?. by apply Hev, package_upload_event.
  - use steps_deploy_catch. intros; apply Hev; reflexivity.
Qed.

Lemma steps_deployPackage pkg :
  (forall ev, package_event ev = true -> allows R ev) ->
  steps R (deployPackage E pkg).
Proof.
  intros Hev. unfold deployPackage. steps_walk.
  - use steps_ensureBuild. intros ev ?. by apply Hev, package_build_event.
  - by use steps_deployApp.
  - by use steps_deployFunction.
Qed.

Lemma steps_askForToken_inputs inputs :
  (forall ev, setup_event ev = true -> allows R ev) ->
  (forall token, steps R (instantiateSDK token)) ->
  steps R (askForToken_inputs E inputs).
Proof.
  intros Hev Hsdk. induction inputs as [|accessToken rest IH];
    cbn [askForToken_inputs]; unfold askForToken_validate; steps_walk;
    solve [apply Hsdk | exact IH].
Qed.

Lemma steps_ensureToken :
  (forall ev, setup_event ev = true -> allows R ev) ->
  (forall token, steps R (instantiateSDK token)) ->
  (forall token, steps R (storeAccessToken token)) ->
  steps R (ensureToken E).
Proof.
  intros Hev Hsdk Hstore. unfold ensureToken, askForToken. steps_walk.
  - by apply steps_askForToken_inputs.
  - apply Hstore.
Qed.

Lemma steps_setupSDK :
  (forall ev, setup_event ev = true -> allows R ev) ->
  (forall token, steps R (instantiateSDK token)) ->
  (forall token, steps R (storeAccessToken token)) ->
  steps R (setupSDK E).
Proof.
  intros Hev Hsdk Hstore. unfold setupSDK, howToCreateAToken. steps_walk;
    solve [ use steps_getAccessToken | by apply steps_ensureToken
          | apply Hsdk
          | use steps_checkNetworkError; intros; apply Hev; reflexivity ].
Qed.

Lemma steps_askForSite :
  (forall ev, site_event ev = true -> allows R ev) ->
  steps R (askForSite E).
Proof. intros Hev. unfold askForSite. steps_walk. Qed.

Lemma steps_deploy_createAll packages deploys :
  (forall ev, package_event ev = true -> allows R ev) ->
  allows R EvConsoleLog ->
  steps R (deploy_createAll E packages deploys).
Proof.
  intros Hev Hcl. revert deploys.
  induction packages as [|pkg rest IH]; intros deploys;
    cbn [deploy_createAll]; steps_walk;
    solve [ exact Hcl | by apply steps_deployPackage | apply IH ].
Qed.

Lemma steps_deploy_activateAll folders deploys :
  (forall ev, activation_event ev = true -> allows R ev) ->
  steps R (deploy_activateAll E folders deploys).
Proof.
  intros Hev. revert deploys.
  induction folders as [|folder rest IH]; intros deploys;
    cbn [deploy_activateAll]; steps_walk;
    solve [ by apply steps_waitTillActive | apply IH ].
Qed.

Lemma steps_deploy_resolveSite :
  (forall ev, site_event ev = true -> allows R ev) ->
  (forall siteId, steps R (set_siteId siteId)) ->
  (forall siteId, steps R (storeSiteId siteId)) ->
  steps R (deploy_resolveSite E).
Proof.
  intros Hev Hset Hstore. unfold deploy_resolveSite. steps_walk;
    solve [ use steps_getSiteId | apply Hset | apply Hstore
          | by apply steps_askForSite ].
Qed.

Lemma steps_deploy_single name packages :
  (forall ev, package_event ev = true -> allows R ev) ->
  (forall ev, activation_event ev = true -> allows R ev) ->
  steps R (deploy_single E name packages).
Proof.
  intros Hpkg Hact. unfold deploy_single, log. steps_walk;
    solve [ by apply steps_deployPackage | by apply steps_waitTillActive
          | apply Hact; reflexivity ].
Qed.

Lemma steps_deploy_batch packages :
  (forall ev, package_event ev = true -> allows R ev) ->
  (forall ev, activation_event ev = true -> allows R ev) ->
  allows R EvConsoleLog ->
  steps R (deploy_batch E packages).
Proof.
  intros Hpkg Hact Hcl. unfold deploy_batch, log. steps_walk;
    try solve [ by apply steps_deploy_createAll
              | by apply steps_deploy_activateAll
              | apply Hact; reflexivity ].
  use steps_forEach. intros deploy _. apply steps_emit, Hact. reflexivity.
Qed.

Lemma steps_deploy_packages name :
  (forall ev, package_event ev = true -> allows R ev) ->
  (forall ev, activation_event ev = true -> allows R ev) ->
  allows R EvConsoleLog -> allows R EvListPackages ->
  steps R (deploy_packages E name).
Proof.
  intros Hpkg Hact Hcl Hlist. unfold deploy_packages. steps_walk;
    solve [ exact Hlist | by apply steps_deploy_single
          | by apply steps_deploy_batch ].
Qed.

End MethodSteps.

(** ** [waitTillActive] *)

Section WaitTillActive.

Variable E : Ext.
Variable deploy : DeployRecord.

Lemma waitTillActive_round_inactive n w tok u :
  this_sdk w = Some tok ->
  sdk_isDeployActive E (trace w ++ [EvSleep 5000]) (d_id deploy)
    = Ok {| active := false; url := u |} ->
  waitTillActive_rounds E (S n) deploy w
    = waitTillActive_rounds E n deploy (add_events w (poll_round (d_id deploy))).
Proof.
  intros Hsdk Hans. cbn [waitTillActive_rounds].
  unfold bind, sleep, sdk_call, call.
  rewrite emit_add. cbn [this_sdk add_events trace]. rewrite Hsdk, Hans.
  rewrite emit_add, add_events_app. reflexivity.
Qed.

Lemma waitTillActive_round_active n w tok u :
  this_sdk w = Some tok ->
  sdk_isDeployActive E (trace w ++ [EvSleep 5000]) (d_id deploy)
    = Ok {| active := true; url := u |} ->
  waitTillActive_rounds E (S n) deploy w
    = (Ret u, add_events w (poll_round (d_id deploy))).
Proof.
  intros Hsdk Hans. cbn [waitTillActive_rounds].
  unfold bind, sleep, sdk_call, call.
  rewrite emit_add. cbn [this_sdk add_events trace]. rewrite Hsdk, Hans.
  rewrite emit_add, add_events_app. reflexivity.
Qed.

Lemma waitTillActive_rounds_never n w tok :
  this_sdk w = Some tok ->
  (forall h, exists u,
      sdk_isDeployActive E h (d_id deploy) = Ok {| active := false; url := u |}) ->
  waitTillActive_rounds E n deploy w
    = (Ret None, add_events w (rounds n (d_id deploy))).
Proof.
  intros Hsdk Hnever. revert w Hsdk.
  induction n as [|n IH]; intros w Hsdk.
  - simpl. by rewrite add_events_nil.
  - destruct (Hnever (trace w ++ [EvSleep 5000])) as [u Hu].
    rewrite (waitTillActive_round_inactive n w tok u Hsdk Hu).
    rewrite IH by done. by rewrite add_events_app.
Qed.

Lemma waitTillActive_rounds_first k : forall n w tok u,
  k < n ->
  this_sdk w = Some tok ->
  (forall j, j < k -> exists u',
      sdk_isDeployActive E (trace w ++ rounds j (d_id deploy) ++ [EvSleep 5000])
        (d_id deploy) = Ok {| active := false; url := u' |}) ->
  sdk_isDeployActive E (trace w ++ rounds k (d_id deploy) ++ [EvSleep 5000])
    (d_id deploy) = Ok {| active := true; url := u |} ->
  waitTillActive_rounds E n deploy w
    = (Ret u, add_events w (rounds (S k) (d_id deploy))).
Proof.
  induction k as [|k IH]; intros n w tok u Hlt Hsdk Hbefore Hat.
  - destruct n as [|n]; [lia|]. simpl in Hat.
    rewrite (waitTillActive_round_active n w tok u Hsdk Hat).
    reflexivity.
  - destruct n as [|n]; [lia|].
    destruct (Hbefore 0) as [u0 Hu0]; [lia|]. simpl in Hu0.
    rewrite (waitTillActive_round_inactive n w tok u0 Hsdk Hu0).
    rewrite (IH n (add_events w (poll_round (d_id deploy))) tok u).
    + by rewrite add_events_app.
    + lia.
    + done.
    + intros j Hj. destruct (Hbefore (S j)) as [u' Hu']; [lia|].
      exists u'. rewrite <- Hu'. simpl. f_equal.
      by rewrite <- !app_assoc.
    + rewrite <- Hat. simpl. f_equal. by rewrite <- !app_assoc.
Qed.

End WaitTillActive.

(** The shape of what [waitTillActive] adds to the trace, whatever the
    service answers: whole rounds, or a lone pause when there is no client. *)
Lemma waitTillActive_rounds_trace E deploy n : forall w,
  exists d, snd (waitTillActive_rounds E n deploy w) = add_events w d /\
    ((exists k, k <= n /\ (0 < n -> 0 < k) /\ d = rounds k (d_id deploy)) \/
     (this_sdk w = None /\ d = [EvSleep 5000])).
Proof.
  induction n as [|n IH]; intros w.
  - exists []. split; [by rewrite add_events_nil|].
    left. exists 0. repeat split; try lia; done.
  - cbn [waitTillActive_rounds]. unfold bind at 1, sleep. rewrite emit_add.
    unfold bind, sdk_call, call. cbn [this_sdk add_events trace].
    destruct (this_sdk w) as [tok|] eqn:Hsdk.
    + destruct (sdk_isDeployActive E (trace w ++ [EvSleep 5000]) (d_id deploy))
        as [[[] u]|e]; rewrite emit_add; cbn [snd];
        rewrite add_events_app; cbn [app].
      * exists (poll_round (d_id deploy)). split; [done|].
        left. exists 1. repeat split; try lia; done.
      * cbn [active].
        destruct (IH (add_events w (poll_round (d_id deploy))))
          as (d & Hd & [(k & Hk & _ & ->)|[Hnone _]]).
        -- exists (rounds (S k) (d_id deploy)). split.
           ++ unfold poll_round in Hd. rewrite Hd, add_events_app. done.
           ++ left. exists (S k). repeat split; try lia; done.
        -- cbn in Hnone. congruence.
      * exists (poll_round (d_id deploy)). split; [done|].
        left. exists 1. repeat split; try lia; done.
    + exists [EvSleep 5000]. split; [done|]. by right.
Qed.

(** C2. When the service never reports the deploy active, [waitTillActive]
    polls [isDeployActive] exactly 10 times, each poll after a pause of 5000
    milliseconds, and returns [null]; when the polls before attempt [k + 1]
    report inactive and that attempt reports active, polling stops there and
    returns the [url] of that answer. *)
Theorem waitTillActive_ten_polls_or_first_active :
  forall (E : Ext) (deploy : DeployRecord) (w : World) (tok : string),
    this_sdk w = Some tok ->
    ((forall h, exists u,
         sdk_isDeployActive E h (d_id deploy)
           = Ok {| active := false; url := u |}) ->
     waitTillActive E deploy w
       = (Ret None, add_events w (rounds 10 (d_id deploy))) /\
     length (List.filter is_poll (emitted (waitTillActive E deploy) w)) = 10 /\
     slept (emitted (waitTillActive E deploy) w) = 50000%Z) /\
    (forall k u,
        k < 10 ->
        (forall j, j < k -> exists u',
            sdk_isDeployActive E
              (trace w ++ rounds j (d_id deploy) ++ [EvSleep 5000])
              (d_id deploy) = Ok {| active := false; url := u' |}) ->
        sdk_isDeployActive E
          (trace w ++ rounds k (d_id deploy) ++ [EvSleep 5000])
          (d_id deploy) = Ok {| active := true; url := u |} ->
        waitTillActive E deploy w
          = (Ret u, add_events w (rounds (S k) (d_id deploy))) /\
        length (List.filter is_poll (emitted (waitTillActive E deploy) w))
          = S k).
Proof.
  intros E deploy w tok Hsdk. split.
  - intros Hnever.
    pose proof (waitTillActive_rounds_never E deploy 10 w tok Hsdk Hnever)
      as Hrun.
    fold (waitTillActive E deploy) in Hrun.
    rewrite (emitted_add _ _ _ _ Hrun).
    split; [exact Hrun|]. split; [apply rounds_polls|].
    by rewrite rounds_slept.
  - intros k u Hk Hbefore Hat.
    pose proof (waitTillActive_rounds_first E deploy k 10 w tok u
                  Hk Hsdk Hbefore Hat) as Hrun.
    fold (waitTillActive E deploy) in Hrun.
    rewrite (emitted_add _ _ _ _ Hrun).
    split; [exact Hrun|]. apply rounds_polls.
Qed.

Lemma waitTillActive_ten_polls_or_first_active_witness :
  waitTillActive Sample.stuck Sample.aDeploy Sample.ready
    = (Ret None, add_events Sample.ready (rounds 10 "d-app")) /\
  waitTillActive Sample.happy Sample.aDeploy Sample.ready
    = (Ret (Some "https://d-app"), add_events Sample.ready (rounds 3 "d-app")).
Proof.
  split.
  - apply (proj1 (waitTillActive_ten_polls_or_first_active
                    Sample.stuck Sample.aDeploy Sample.ready "env-token"
                    eq_refl)).
    intros h. exists None. reflexivity.
  - apply (proj2 (waitTillActive_ten_polls_or_first_active
                    Sample.happy Sample.aDeploy Sample.ready "env-token"
                    eq_refl) 2 (Some "https://d-app")).
    + lia.
    + intros j Hj. exists None.
      destruct j as [|[|j]]; [reflexivity|reflexivity|lia].
    + reflexivity.
Defined.

(** C9. Every [isDeployActive] poll of [waitTillActive], the first one
    included, comes right after a [sleep] of 5000 milliseconds; so at least
    5000 milliseconds are spent sleeping in every run, and a deploy reported
    active at the first poll has its URL returned after one such pause. *)
Theorem waitTillActive_sleeps_before_every_poll :
  forall (E : Ext) (deploy : DeployRecord) (w : World),
    (forall pre deployId post,
        emitted (waitTillActive E deploy) w
          = pre ++ EvIsDeployActive deployId :: post ->
        exists pre', pre = pre' ++ [EvSleep 5000]) /\
    (5000 <= slept (emitted (waitTillActive E deploy) w))%Z /\
    (forall tok u,
        this_sdk w = Some tok ->
        sdk_isDeployActive E (trace w ++ [EvSleep 5000]) (d_id deploy)
          = Ok {| active := true; url := u |} ->
        fst (waitTillActive E deploy w) = Ret u /\
        emitted (waitTillActive E deploy) w
          = [EvSleep 5000; EvIsDeployActive (d_id deploy)]).
Proof.
  intros E deploy w.
  destruct (waitTillActive_rounds_trace E deploy 10 w)
    as (d & Hd & Hshape).
  assert (Hem : emitted (waitTillActive E deploy) w = d).
  { unfold emitted, waitTillActive. rewrite Hd. apply drop_trace_app. }
  rewrite Hem. split; [|split].
  - intros pre deployId post Heq.
    destruct Hshape as [(k & _ & _ & ->)|[_ ->]].
    + eapply rounds_poll_after_sleep; eauto.
    + destruct pre as [|e [|e' pre]]; discriminate.
  - destruct Hshape as [(k & _ & Hpos & ->)|[_ ->]].
    + rewrite rounds_slept. specialize (Hpos ltac:(lia)). lia.
    + simpl. lia.
  - intros tok u Hsdk Hat.
    pose proof (waitTillActive_round_active E deploy 9 w tok u Hsdk Hat)
      as Hrun.
    fold (waitTillActive E deploy) in Hrun.
    rewrite <- Hem, (emitted_add _ _ _ _ Hrun), Hrun. done.
Qed.

Lemma waitTillActive_sleeps_before_every_poll_witness :
  fst (waitTillActive
         (Sample.ext None None Sample.whoamiOk Sample.presignFiles
            (fun _ id => Ok {| active := true; url := Some "https://live" |})
            [])
         Sample.aDeploy Sample.ready) = Ret (Some "https://live") /\
  emitted (waitTillActive
             (Sample.ext None None Sample.whoamiOk Sample.presignFiles
                (fun _ id => Ok {| active := true; url := Some "https://live" |})
                [])
             Sample.aDeploy) Sample.ready
    = [EvSleep 5000; EvIsDeployActive "d-app"].
Proof.
  apply (proj2 (proj2 (waitTillActive_sleeps_before_every_poll
                         (Sample.ext None None Sample.whoamiOk
                            Sample.presignFiles
                            (fun _ id =>
                               Ok {| active := true;
                                     url := Some "https://live" |})
                            [])
                         Sample.aDeploy Sample.ready))
           "env-token" (Some "https://live")).
  - reflexivity.
  - reflexivity.
Defined.

(** ** The CI guard *)

(** C4. Under [--ci], when the access token or the site id is missing from
    the environment (unset, or empty), [deploy] exits with code 1 after
    logging which one; nothing else is recorded: the SDK client is not
    created and no remote operation is invoked. *)
Theorem deploy_ci_requires_both_variables :
  forall (E : Ext) (name : option string) (opts : Opts) (w : World),
    ci opts = true ->
    truthy (env_WEBINY_ACCESS_TOKEN E) = false \/
    truthy (env_WEBINY_SITE_ID E) = false ->
    exists msg,
      deploy E name opts w = (Exit 1, add_events w [EvLog LError msg]) /\
      emitted (deploy E name opts) w = [EvLog LError msg].
Proof.
  intros E name opts w Hci Hmiss.
  assert (Hrun : exists msg,
             deploy E name opts w = (Exit 1, add_events w [EvLog LError msg])).
  { unfold deploy. rewrite Hci. unfold validateCiRequirements.
    destruct (truthy (env_WEBINY_ACCESS_TOKEN E)) eqn:Htok.
    - destruct Hmiss as [Hmiss|Hmiss]; [discriminate|]. rewrite Hmiss.
      exists "WEBINY_SITE_ID is not set!". reflexivity.
    - exists "WEBINY_ACCESS_TOKEN is not set!". reflexivity. }
  destruct Hrun as [msg Hrun]. exists msg. split; [exact Hrun|].
  exact (emitted_add _ _ _ _ Hrun).
Qed.

Lemma deploy_ci_requires_both_variables_witness :
  exists msg,
    deploy (Sample.ext (Some "env-token") None Sample.whoamiOk
              Sample.presignFiles Sample.activeAtThird [])
      None {| ci := true |} Sample.fresh
      = (Exit 1, add_events Sample.fresh [EvLog LError msg]) /\
    emitted (deploy (Sample.ext (Some "env-token") None Sample.whoamiOk
                       Sample.presignFiles Sample.activeAtThird [])
               None {| ci := true |}) Sample.fresh
      = [EvLog LError msg].
Proof.
  apply (deploy_ci_requires_both_variables
           (Sample.ext (Some "env-token") None Sample.whoamiOk
              Sample.presignFiles Sample.activeAtThird [])
           None {| ci := true |} Sample.fresh).
  - reflexivity.
  - right. reflexivity.
Defined.

(** ** Single-package mode with an unknown name *)

Lemma only_instantiateSDK (P : Event -> Prop) token :
  P (EvNewSDK token) -> steps (only P) (instantiateSDK token).
Proof. intros H w. exists [EvNewSDK token]. split; [done|]. by constructor. Qed.

Lemma only_same_trace (P : Event -> Prop) w w' :
  trace w' = trace w -> only P w w'.
Proof. intros H. exists []. by rewrite app_nil_r. Qed.

Lemma only_not_emitted (P : Event -> Prop) ev w w' :
  only P w w' -> ~ P ev -> ~ In ev (drop (length (trace w)) (trace w')).
Proof.
  intros (d & Hd & F) Hev Hin. rewrite Hd, drop_trace_app in Hin.
  rewrite Forall_forall in F. apply Hev, F. by apply list_elem_of_In.
Qed.

Lemma deployPackage_undefined E w :
  deployPackage E None w
    = (Exit 1,
       add_events w [EvLog LInfo "Running build...";
                     EvLog LError "Cannot read property 'root' of undefined"]).
Proof.
  unfold deployPackage, ensureBuild, try_catch, bind, log.
  rewrite !emit_add. cbn [throw]. rewrite !emit_add. cbn [process_exit].
  by rewrite add_events_app.
Qed.

(** Before the packages are listed, [deploy] records no [EvListPackages]. *)
Lemma deploy_setup_only E (P : Event -> Prop) :
  (forall ev, setup_event ev = true -> P ev) ->
  (forall ev, site_event ev = true -> P ev) ->
  steps (only P) (validateCiRequirements E) /\
  steps (only P) (setupSDK E) /\
  steps (only P) (deploy_resolveSite E).
Proof.
  intros Hsetup Hsite. split; [|split].
  - use steps_validateCiRequirements. intros. by apply only_allows, Hsetup.
  - use steps_setupSDK.
    + intros. by apply only_allows, Hsetup.
    + intros. by apply only_instantiateSDK, Hsetup.
    + intros token w. by apply only_same_trace.
  - use steps_deploy_resolveSite.
    + intros. by apply only_allows, Hsite.
    + intros siteId w. by apply only_same_trace.
    + intros siteId w. by apply only_same_trace.
Qed.

(** C10. In single-package mode with a name that no discovered package
    bears, [packages.find] gives [undefined]; [deployPackage] then fails in
    its build phase and exits with code 1, so a run that gets as far as
    listing the packages exits with code 1. *)
Theorem deploy_unknown_package_exits :
  forall (E : Ext) (name : string) (opts : Opts) (w : World),
    truthy (Some name) = true ->
    (forall h, exists packages,
        listPackages E h = Ok packages /\
        List.find (fun p => String.eqb (pkg_name p) name) packages = None) ->
    (forall w', fst (deployPackage E None w') = Exit 1) /\
    (In EvListPackages (emitted (deploy E (Some name) opts) w) ->
     fst (deploy E (Some name) opts w) = Exit 1).
Proof.
  intros E name opts w Hname Hlist. split.
  { intros w'. by rewrite deployPackage_undefined. }
  set (P := fun ev => ev <> EvListPackages).
  destruct (deploy_setup_only E P) as (Hci & Hsetup & Hsite);
    [by intros [] ?|by intros [] ?|].
  unfold emitted.
  remember (deploy E (Some name) opts w) as r eqn:Hr.
  unfold deploy, deploy_packages in Hr. rewrite Hname in Hr.
  assert (Hstop : forall w', only P w w' ->
            In EvListPackages (drop (length (trace w)) (trace w')) -> False).
  { intros w' Hw' Hin. by apply (only_not_emitted P _ _ _ Hw' ltac:(by intros ?)). }
  (* the CI guard *)
  assert (H1 : steps (only P)
                 (if ci opts then validateCiRequirements E else ret tt)).
  { destruct (ci opts); [exact Hci|use steps_ret]. }
  specialize (H1 w).
  destruct ((if ci opts then validateCiRequirements E else ret tt) w)
    as [[[]|e|c] w1] eqn:Hm1; cbn [snd] in H1;
    [rewrite (bind_ret_eq _ _ _ _ _ Hm1) in Hr
    |rewrite (bind_throw_eq _ _ _ _ _ Hm1) in Hr; subst r; intros Hin;
     by destruct (Hstop _ H1 Hin)
    |rewrite (bind_exit_eq _ _ _ _ _ Hm1) in Hr; subst r; intros Hin;
     by destruct (Hstop _ H1 Hin)].
  (* setupSDK *)
  pose proof (step_trans _ _ _ H1 (Hsetup w1)) as H2.
  destruct (setupSDK E w1) as [[[]|e|c] w2] eqn:Hm2; cbn [snd] in H2;
    [rewrite (bind_ret_eq _ _ _ _ _ Hm2) in Hr
    |rewrite (bind_throw_eq _ _ _ _ _ Hm2) in Hr; subst r; intros Hin;
     by destruct (Hstop _ H2 Hin)
    |rewrite (bind_exit_eq _ _ _ _ _ Hm2) in Hr; subst r; intros Hin;
     by destruct (Hstop _ H2 Hin)].
  (* the site *)
  pose proof (step_trans _ _ _ H2 (Hsite w2)) as H6.
  destruct (deploy_resolveSite E w2) as [[[]|e|c] w5] eqn:Hm5; cbn [snd] in H6;
    [rewrite (bind_ret_eq _ _ _ _ _ Hm5) in Hr
    |rewrite (bind_throw_eq _ _ _ _ _ Hm5) in Hr; subst r; intros Hin;
     by destruct (Hstop _ H6 Hin)
    |rewrite (bind_exit_eq _ _ _ _ _ Hm5) in Hr; subst r; intros Hin;
     by destruct (Hstop _ H6 Hin)].
  (* the packages are listed, none bears the name *)
  intros _. destruct (Hlist (trace w5)) as (packages & Hpk & Hfind).
  assert (Hcall : call EvListPackages (listPackages E) w5
                  = (Ret packages, add_events w5 [EvListPackages])).
  { unfold call. by rewrite Hpk. }
  rewrite (bind_ret_eq _ _ _ _ _ Hcall) in Hr.
  cbv beta iota in Hr. change (str (Some name)) with name in Hr.
  unfold deploy_single in Hr. rewrite Hfind in Hr.
  rewrite (bind_exit_eq _ _ _ _ _ (deployPackage_undefined E _)) in Hr.
  by subst r.
Qed.

Lemma deploy_unknown_package_exits_witness :
  In EvListPackages
    (emitted (deploy Sample.happy (Some "no-such-app") {| ci := true |})
       Sample.fresh) /\
  fst (deploy Sample.happy (Some "no-such-app") {| ci := true |} Sample.fresh)
    = Exit 1.
Proof.
  split.
  - vm_compute. tauto.
  - apply (deploy_unknown_package_exits Sample.happy "no-such-app"
             {| ci := true |} Sample.fresh).
    + reflexivity.
    + intros h. eexists. split; reflexivity.
    + vm_compute. tauto.
Defined.

(** ** [uploadFiles] *)

Section UploadFiles.

Variable E : Ext.
Variable files : list FileRecord.

Lemma read_events_found file f :
  local_file files file = Some f ->
  read_events files [file] = [EvReadFile (fr_abs f)].
Proof. intros H. unfold read_events. cbn. by rewrite H. Qed.

Lemma read_events_missing file :
  local_file files file = None -> read_events files [file] = [].
Proof. intros H. unfold read_events. cbn. by rewrite H. Qed.

Lemma uploadFiles_read_run file w :
  exists r,
    uploadFiles_read E files file w
      = (Ret r, add_events w (read_events files [file])) /\
    read_settled E files file r.
Proof.
  unfold uploadFiles_read. fold (local_file files file).
  destruct (local_file files file) as [f|] eqn:Hf.
  - rewrite (read_events_found _ _ Hf).
    unfold start. rewrite emit_add. cbn [snd app].
    destruct (fs_readFile E (trace w) (fr_abs f)) as [c|e] eqn:Hread.
    + eexists. split; [reflexivity|]. split; [done|]. eauto.
    + eexists. split; [reflexivity|]. cbn. congruence.
  - rewrite (read_events_missing _ Hf).
    eexists. split; [by rewrite add_events_nil|]. done.
Qed.

Lemma read_events_cons file presigned :
  read_events files (file :: presigned)
    = read_events files [file] ++ read_events files presigned.
Proof.
  unfold read_events. cbn.
  destruct (local_file files file); reflexivity.
Qed.

Lemma uploadFiles_reads_run presigned : forall w,
  exists rs,
    mapM (uploadFiles_read E files) presigned w
      = (Ret rs, add_events w (read_events files presigned)) /\
    Forall2 (read_settled E files) presigned rs.
Proof.
  induction presigned as [|file presigned IH]; intros w.
  - exists []. split; [|constructor]. cbn. by rewrite add_events_nil.
  - destruct (uploadFiles_read_run file w) as (r & Hr & Hsettled).
    destruct (IH (add_events w (read_events files [file]))) as (rs & Hrs & Hall).
    exists (r :: rs). split; [|by constructor].
    cbn [mapM]. rewrite (bind_ret_eq _ _ _ _ _ Hr).
    rewrite (bind_ret_eq _ _ _ _ _ Hrs). cbn [ret].
    by rewrite add_events_app, <- read_events_cons.
Qed.

(** A presigned file without a local file makes [Promise.all] reject with
    the [TypeError] of the failed dereference. *)
Lemma reads_missing_first_sync presigned rs :
  Forall2 (read_settled E files) presigned rs ->
  (exists file, In file presigned /\ local_file files file = None) ->
  first_sync rs = Some (typeError "abs" "undefined").
Proof.
  induction 1 as [|file r presigned rs Hr _ IH]; intros (miss & Hin & Hmiss).
  - destruct Hin.
  - destruct r as [v|e|e]; cbn in *.
    + destruct Hin as [->|Hin]; [|eauto].
      destruct Hr as (_ & f & h & Hf & _). congruence.
    + destruct Hr as [_ ->]. done.
    + destruct Hin as [->|Hin]; [done|eauto].
Qed.

Lemma reads_all_fulfilled presigned rs :
  Forall2 (read_settled E files) presigned rs ->
  first_sync rs = None -> first_async rs = None ->
  Forall2 (read_from E files) presigned (fulfilled rs).
Proof.
  induction 1 as [|file r presigned rs Hr _ IH]; intros Hs Ha; cbn.
  - constructor.
  - destruct r as [v|e|e]; cbn in *; try discriminate.
    constructor; [exact Hr|by apply IH].
Qed.

Lemma uploadFiles_uploads_run (vs : list (Presigned * string)) : forall w tok,
  this_sdk w = Some tok ->
  exists us,
    mapM (uploadFiles_upload E) vs w
      = (Ret us, add_events w (map upload_of vs)).
Proof.
  induction vs as [|v vs IH]; intros w tok Hsdk.
  - exists []. cbn. by rewrite add_events_nil.
  - assert (Hv : exists u, uploadFiles_upload E v w
                           = (Ret u, add_events w [upload_of v])).
    { unfold uploadFiles_upload, start. rewrite Hsdk, emit_add. cbn [snd].
      destruct (sdk_uploadPresignedFile E (trace w) (ps_presigned (fst v)) (snd v))
        as [[]|e]; eauto. }
    destruct Hv as [u Hu].
    destruct (IH (add_events w [upload_of v]) tok Hsdk) as [us Hus].
    exists (u :: us). cbn [mapM map].
    rewrite (bind_ret_eq _ _ _ _ _ Hu), (bind_ret_eq _ _ _ _ _ Hus).
    cbn [ret]. by rewrite add_events_app.
Qed.

Lemma uploadFiles_logs_run (us : list (Settled string)) : forall w,
  exists logs,
    uploadFiles_logs us w = (Ret tt, add_events w logs) /\
    Forall (fun ev => is_log ev = true) logs.
Proof.
  induction us as [|[key|e|e] us IH]; intros w; cbn [uploadFiles_logs];
    try (exists []; split; [by rewrite add_events_nil|constructor]).
  destruct (IH (add_events w [EvLog LSuccess key])) as (logs & Hlogs & F).
  exists (EvLog LSuccess key :: logs). split; [|by constructor].
  unfold log. rewrite (bind_ret_eq _ _ _ _ _ (emit_add _ w)), Hlogs.
  by rewrite add_events_app.
Qed.

(** The [catch] of [uploadFiles]: the error is thrown again, unless the
    connection was refused. *)
Lemma uploadFiles_catch_run (err : JsError) w :
  exists logs,
    snd ((checkNetworkError err ;; @throw unit err) w) = add_events w logs /\
    Forall (fun ev => is_log ev = true) logs /\
    (has_code err "ECONNREFUSED" = false ->
     (checkNetworkError err ;; @throw unit err) w = (Throw err, w)) /\
    fst ((checkNetworkError err ;; @throw unit err) w) <> Ret tt.
Proof.
  unfold checkNetworkError.
  destruct (has_code err "ECONNREFUSED").
  - exists [EvLog LError (err_message err)].
    repeat split; [by constructor|done|done].
  - exists []. rewrite add_events_nil. repeat split; [constructor|done].
Qed.

(** The course of [uploadFiles] once the service has answered the presign
    request: the request, the reads, and then either nothing but log lines
    (the run stopped before any upload) or the upload of every presigned
    file with the content read from its local file. *)
Lemma uploadFiles_run deploy w tok presigned :
  this_sdk w = Some tok ->
  sdk_presignFiles E (trace w) (this_siteId w) (d_id deploy)
    (required_files deploy) = Ok presigned ->
  exists tail,
    snd (uploadFiles E deploy files w)
      = add_events w
          (EvPresignFiles (this_siteId w) (d_id deploy) (required_files deploy)
             :: read_events files presigned ++ tail) /\
    ((Forall (fun ev => is_log ev = true) tail /\
      fst (uploadFiles E deploy files w) <> Ret tt) \/
     (exists vs logs,
         Forall2 (read_from E files) presigned vs /\
         tail = map upload_of vs ++ logs /\
         Forall (fun ev => is_log ev = true) logs)) /\
    ((exists file, In file presigned /\ local_file files file = None) ->
     fst (uploadFiles E deploy files w) = Throw (typeError "abs" "undefined") /\
     tail = []).
Proof.
  intros Hsdk Hpre. unfold uploadFiles.
  match goal with
  | |- context [try_catch ?m ?h] => set (body := m); set (handler := h)
  end.
  set (w1 := add_events w [EvPresignFiles (this_siteId w) (d_id deploy)
                             (required_files deploy)]).
  destruct (uploadFiles_reads_run presigned w1) as (rs & Hreads & Hsettled).
  set (w2 := add_events w1 (read_events files presigned)) in *.
  assert (Hw2 : forall d, add_events w2 d
                  = add_events w
                      (EvPresignFiles (this_siteId w) (d_id deploy)
                         (required_files deploy)
                       :: read_events files presigned ++ d)).
  { intros d. unfold w2, w1. by rewrite !add_events_app. }
  assert (Hstart : body w
            = (filesToUpload <- promise_all rs ;;
               uploads <- mapM (uploadFiles_upload E) filesToUpload ;;
               uploadFiles_logs uploads ;; promise_all uploads ;; ret tt) w2).
  { unfold body.
    rewrite (bind_ret_eq get_siteId _ w (this_siteId w) w eq_refl).
    rewrite (bind_ret_eq _ _ _ _ _
               (sdk_call_ok _ _ _ w tok presigned Hsdk Hpre)).
    fold w1. by rewrite (bind_ret_eq _ _ _ _ _ Hreads). }
  assert (Hcatch : forall e w', body w = (Throw e, w') ->
            try_catch body handler w = (checkNetworkError e ;; throw e) w').
  { intros e w' H. by rewrite (try_catch_throw_eq _ _ _ _ _ H). }
  assert (Hfail : forall e, body w = (Throw e, w2) ->
            exists tail,
              snd (try_catch body handler w) = add_events w2 tail /\
              Forall (fun ev => is_log ev = true) tail /\
              fst (try_catch body handler w) <> Ret tt /\
              (has_code e "ECONNREFUSED" = false ->
               try_catch body handler w = (Throw e, w2) /\ tail = [])).
  { intros e H. rewrite (Hcatch _ _ H).
    destruct (has_code e "ECONNREFUSED") eqn:Hcode.
    - exists [EvLog LError (err_message e)]. unfold checkNetworkError.
      rewrite Hcode. repeat split; try done; try by constructor.
    - exists []. unfold checkNetworkError. rewrite Hcode, add_events_nil.
      repeat split; try done; try by constructor. }
  destruct (first_sync rs) as [e|] eqn:Hsync.
  { (* a lookup missed *)
    assert (Hbody : body w = (Throw e, w2)).
    { rewrite Hstart. unfold promise_all. by rewrite Hsync. }
    destruct (Hfail e Hbody) as (tail & Hsnd & Hlogs & Hne & Hplain).
    exists tail. rewrite Hsnd, Hw2. split; [done|]. split; [by left|].
    intros Hmiss.
    rewrite (reads_missing_first_sync _ _ Hsettled Hmiss) in Hsync.
    injection Hsync as <-.
    destruct (Hplain eq_refl) as [-> ->]. done. }
  assert (Hfound : (exists file, In file presigned /\
                                 local_file files file = None) -> False).
  { intros Hmiss.
    rewrite (reads_missing_first_sync _ _ Hsettled Hmiss) in Hsync.
    discriminate. }
  destruct (first_async rs) as [e|] eqn:Hasync.
  { (* a read failed *)
    assert (Hbody : body w = (Throw e, w2)).
    { rewrite Hstart. unfold promise_all. by rewrite Hsync, Hasync. }
    destruct (Hfail e Hbody) as (tail & Hsnd & Hlogs & Hne & _).
    exists tail. rewrite Hsnd, Hw2. split; [done|]. split; [by left|].
    intros Hmiss. by destruct Hfound. }
  (* every file was read: the uploads start *)
  pose proof (reads_all_fulfilled _ _ Hsettled Hsync Hasync) as Hvs.
  set (vs := fulfilled rs) in *.
  assert (Hsdk2 : this_sdk w2 = Some tok) by done.
  destruct (uploadFiles_uploads_run vs w2 tok Hsdk2) as [us Hus].
  destruct (uploadFiles_logs_run us (add_events w2 (map upload_of vs)))
    as (logs & Hlogs & Flogs).
  set (w4 := add_events (add_events w2 (map upload_of vs)) logs) in *.
  assert (Hw4 : forall d, add_events w4 d
                  = add_events w
                      (EvPresignFiles (this_siteId w) (d_id deploy)
                         (required_files deploy)
                       :: read_events files presigned
                          ++ (map upload_of vs ++ logs ++ d))).
  { intros d. unfold w4. by rewrite !add_events_app, Hw2, <- ?app_assoc. }
  assert (Hmid : body w = (promise_all us ;; ret tt) w4).
  { rewrite Hstart. unfold promise_all at 1. rewrite Hsync, Hasync.
    rewrite (bind_ret_eq (ret (fulfilled rs)) _ w2 vs w2 eq_refl).
    rewrite (bind_ret_eq _ _ _ _ _ Hus).
    by rewrite (bind_ret_eq _ _ _ _ _ Hlogs). }
  assert (Hend : (exists e, body w = (Throw e, w4)) \/ body w = (Ret tt, w4)).
  { rewrite Hmid. unfold promise_all, bind.
    destruct (first_sync us); [by eauto|].
    destruct (first_async us); [by eauto|]. by right. }
  destruct Hend as [[e Hbody]|Hbody].
  - rewrite (Hcatch _ _ Hbody).
    destruct (uploadFiles_catch_run e w4) as (elog & Hsnd & Felog & _ & _).
    exists (map upload_of vs ++ logs ++ elog).
    rewrite Hsnd, Hw4. split; [done|]. split; [|by intros Hmiss; destruct Hfound].
    right. exists vs, (logs ++ elog). split; [done|]. split; [done|].
    by apply Forall_app.
  - rewrite (try_catch_ret_eq _ _ _ _ _ Hbody). cbn [snd fst].
    exists (map upload_of vs ++ logs).
    rewrite <- (add_events_nil w4), Hw4, app_nil_r.
    split; [done|]. split; [|by intros Hmiss; destruct Hfound].
    right. by exists vs, logs.
Qed.

Lemma read_events_reads presigned :
  Forall (fun ev => exists abs, ev = EvReadFile abs) (read_events files presigned).
Proof.
  induction presigned as [|file presigned IH].
  - constructor.
  - rewrite read_events_cons. apply Forall_app. split; [|exact IH].
    destruct (local_file files file) as [f|] eqn:Hf.
    + rewrite (read_events_found _ _ Hf). constructor; [eauto|constructor].
    + rewrite (read_events_missing _ Hf). constructor.
Qed.

Lemma filter_none {A} (p : A -> bool) (l : list A) :
  Forall (fun a => p a = false) l -> List.filter p l = [].
Proof. induction 1 as [|a l Ha _ IH]; cbn; [done|]. by rewrite Ha. Qed.

Lemma filter_all {A} (p : A -> bool) (l : list A) :
  Forall (fun a => p a = true) l -> List.filter p l = l.
Proof. induction 1 as [|a l Ha _ IH]; cbn; [done|]. by rewrite Ha, IH. Qed.

Lemma filter_reads (p : Event -> bool) presigned :
  (forall abs, p (EvReadFile abs) = false) ->
  List.filter p (read_events files presigned) = [].
Proof.
  intros Hp. apply filter_none.
  eapply Forall_impl; [apply read_events_reads|].
  intros ev [abs ->]. apply Hp.
Qed.

Lemma filter_logs (p : Event -> bool) logs :
  (forall lvl msg, p (EvLog lvl msg) = false) ->
  Forall (fun ev => is_log ev = true) logs ->
  List.filter p logs = [].
Proof.
  intros Hp F. apply filter_none. eapply Forall_impl; [exact F|].
  intros [] ?; try discriminate. apply Hp.
Qed.

(** The three courses of [uploadFiles]: no client; the presign request
    fails; the presign request is answered. *)
Lemma uploadFiles_shape deploy w :
  let request := EvPresignFiles (this_siteId w) (d_id deploy)
                   (required_files deploy) in
  (this_sdk w = None /\ emitted (uploadFiles E deploy files) w = []) \/
  (exists e logs,
      this_sdk w <> None /\
      sdk_presignFiles E (trace w) (this_siteId w) (d_id deploy)
        (required_files deploy) = Err e /\
      emitted (uploadFiles E deploy files) w = request :: logs /\
      Forall (fun ev => is_log ev = true) logs /\
      fst (uploadFiles E deploy files w) <> Ret tt) \/
  (exists presigned tail,
      this_sdk w <> None /\
      sdk_presignFiles E (trace w) (this_siteId w) (d_id deploy)
        (required_files deploy) = Ok presigned /\
      emitted (uploadFiles E deploy files) w
        = request :: read_events files presigned ++ tail /\
      ((Forall (fun ev => is_log ev = true) tail /\
        fst (uploadFiles E deploy files w) <> Ret tt) \/
       (exists vs logs,
           Forall2 (read_from E files) presigned vs /\
           tail = map upload_of vs ++ logs /\
           Forall (fun ev => is_log ev = true) logs)) /\
      ((exists file, In file presigned /\ local_file files file = None) ->
       fst (uploadFiles E deploy files w) = Throw (typeError "abs" "undefined") /\
       tail = [])).
Proof.
  intros request.
  destruct (this_sdk w) as [tok|] eqn:Hsdk.
  - right.
    destruct (sdk_presignFiles E (trace w) (this_siteId w) (d_id deploy)
                (required_files deploy)) as [presigned|e] eqn:Hpre.
    + right. destruct (uploadFiles_run deploy w tok presigned Hsdk Hpre)
        as (tail & Hsnd & Hcases & Hmiss).
      exists presigned, tail. split; [done|]. split; [done|]. split; [|done].
      unfold emitted. rewrite Hsnd. apply drop_trace_app.
    + left.
      assert (Hrun : uploadFiles E deploy files w
                = (checkNetworkError e ;; throw e) (add_events w [request])).
      { unfold uploadFiles.
        erewrite (try_catch_throw_eq _ _ w e (add_events w [request]));
          [reflexivity|].
        rewrite (bind_ret_eq get_siteId _ w (this_siteId w) w eq_refl).
        by rewrite (bind_throw_eq _ _ _ _ _
                      (sdk_call_err _ _ _ w tok e Hsdk Hpre)). }
      destruct (uploadFiles_catch_run e (add_events w [request]))
        as (logs & Hsnd & Flogs & _ & Hne).
      exists e, logs. split; [done|]. split; [done|]. rewrite Hrun.
      split; [|done].
      unfold emitted. rewrite Hrun, Hsnd, add_events_app.
      apply drop_trace_app.
  - left. split; [done|].
    assert (Hrun : uploadFiles E deploy files w
              = (Throw (typeError "presignFiles" "null"), w)).
    { unfold uploadFiles, try_catch, bind, get_siteId, sdk_call.
      by rewrite Hsdk. }
    unfold emitted. rewrite Hrun. cbn [snd]. by rewrite drop_all.
Qed.

Lemma upload_of_origin presigned vs target content :
  Forall2 (read_from E files) presigned vs ->
  In (EvUpload target content) (map upload_of vs) ->
  exists file f h,
    In file presigned /\ target = ps_presigned file /\
    local_file files file = Some f /\
    fs_readFile E h (fr_abs f) = Ok content.
Proof.
  induction 1 as [|file v presigned vs Hv _ IH]; cbn; [done|].
  intros [Heq|Hin].
  - destruct Hv as (Hfst & f & h & Hf & Hread).
    unfold upload_of in Heq. injection Heq as <- <-.
    exists file, f, h. rewrite Hfst. auto.
  - destruct (IH Hin) as (file' & f & h & Hin' & Hrest).
    exists file', f, h. auto.
Qed.

(** Where an upload comes from: the service presigned the file, the file has
    a local match by key, and the payload was read from that local file. An
    upload happens only when every presigned file has a local match, and
    then there is one upload per presigned file. *)
Lemma uploadFiles_upload_origin deploy w target content :
  In (EvUpload target content) (emitted (uploadFiles E deploy files) w) ->
  exists presigned file f h,
    sdk_presignFiles E (trace w) (this_siteId w) (d_id deploy)
      (required_files deploy) = Ok presigned /\
    In file presigned /\ target = ps_presigned file /\
    local_file files file = Some f /\
    fs_readFile E h (fr_abs f) = Ok content /\
    (forall file', In file' presigned -> local_file files file' <> None) /\
    length (List.filter is_upload (emitted (uploadFiles E deploy files) w))
      = length presigned.
Proof.
  intros Hin.
  assert (Hnolog : forall logs, Forall (fun ev => is_log ev = true) logs ->
                     ~ In (EvUpload target content) logs).
  { intros logs F Hl. rewrite Forall_forall in F.
    by specialize (F _ (proj2 (list_elem_of_In _ _) Hl)). }
  assert (Hnoread : forall presigned,
             ~ In (EvUpload target content) (read_events files presigned)).
  { intros presigned Hr. pose proof (read_events_reads presigned) as F.
    rewrite Forall_forall in F.
    by destruct (F _ (proj2 (list_elem_of_In _ _) Hr)). }
  destruct (uploadFiles_shape deploy w)
    as [[_ Hem]|[(e & logs & _ & _ & Hem & Flogs & _)
                |(presigned & tail & _ & Hpre & Hem & Hcases & Hmiss)]];
    rewrite Hem in Hin |- *.
  - destruct Hin.
  - destruct Hin as [Hin|Hin]; [discriminate|]. by destruct (Hnolog logs).
  - destruct Hin as [Hin|Hin]; [discriminate|].
    apply in_app_or in Hin. destruct Hin as [Hin|Hin]; [by destruct (Hnoread presigned)|].
    destruct Hcases as [[Ftail _]|(vs & logs & Hvs & -> & Flogs)];
      [by destruct (Hnolog tail)|].
    apply in_app_or in Hin. destruct Hin as [Hin|Hin]; [|by destruct (Hnolog logs)].
    destruct (upload_of_origin _ _ _ _ Hvs Hin) as (file & f & h & H1 & H2 & H3 & H4).
    exists presigned, file, f, h. repeat split; try done.
    + intros file' Hin' Hnone.
      destruct Hmiss as [_ Htail]; [by eauto|].
      apply (f_equal length) in Htail. rewrite length_app, length_map in Htail.
      destruct vs; [destruct Hin|cbn in Htail; lia].
    + cbn [List.filter is_upload]. rewrite !List.filter_app.
      rewrite (filter_reads is_upload) by done.
      rewrite (filter_logs is_upload logs) by done.
      rewrite app_nil_r, filter_all.
      * cbn [app]. rewrite length_map. symmetry. by eapply Forall2_length.
      * by apply Forall_map, Forall_true.
Qed.

(** [uploadFiles] sends one presign request when there is a client, and
    none otherwise. *)
Lemma uploadFiles_presign_filter deploy w :
  List.filter is_presign (emitted (uploadFiles E deploy files) w)
    = match this_sdk w with
      | Some _ => [EvPresignFiles (this_siteId w) (d_id deploy)
                     (required_files deploy)]
      | None => []
      end.
Proof.
  destruct (uploadFiles_shape deploy w)
    as [[Hsdk Hem]|[(e & logs & Hsdk & Hpre & Hem & Flogs & _)
                   |(presigned & tail & Hsdk & Hpre & Hem & Hcases & _)]];
    rewrite Hem.
  - by rewrite Hsdk.
  - destruct (this_sdk w); [|done].
    cbn. by rewrite (filter_logs is_presign logs).
  - destruct (this_sdk w); [|done].
    assert (Htail : List.filter is_presign tail = []).
    { destruct Hcases as [[Ftail _]|(vs & logs & _ & -> & Flogs)].
      - by apply filter_logs.
      - rewrite List.filter_app, (filter_logs is_presign logs) by done.
        rewrite app_nil_r. apply filter_none. by apply Forall_map, Forall_true. }
    cbn. by rewrite List.filter_app, Htail, (filter_reads is_presign).
Qed.

End UploadFiles.

(** C8. [uploadFiles] asks for presigned targets once, for exactly the files
    of [deploy.files] whose [required] flag is set, each sent as its key and
    type: a file that is not marked required is not in the request.  Every
    upload goes to a target that the service returned to that request; so,
    when the service returns targets only for keys it was asked for, every
    upload is the upload of a presigned file whose key is the key of a file
    marked required. *)
Theorem uploadFiles_presigns_required_only :
  forall (E : Ext) (deploy : DeployRecord) (files : list FileRecord)
         (w : World),
    let requested :=
      map (fun f => {| kt_key := df_key f; kt_type := df_type f |})
          (List.filter df_required (d_files deploy)) in
    (forall siteId deployId req,
        In (EvPresignFiles siteId deployId req)
           (emitted (uploadFiles E deploy files) w) ->
        siteId = this_siteId w /\ deployId = d_id deploy /\ req = requested) /\
    (this_sdk w <> None ->
     List.filter is_presign (emitted (uploadFiles E deploy files) w)
       = [EvPresignFiles (this_siteId w) (d_id deploy) requested]) /\
    (forall kt, In kt requested ->
       exists f, In f (d_files deploy) /\ df_required f = true /\
                 kt_key kt = df_key f /\ kt_type kt = df_type f) /\
    (forall f, In f (d_files deploy) -> df_required f = true ->
       In {| kt_key := df_key f; kt_type := df_type f |} requested) /\
    (forall target content,
       In (EvUpload target content) (emitted (uploadFiles E deploy files) w) ->
       exists presigned file,
         sdk_presignFiles E (trace w) (this_siteId w) (d_id deploy) requested
           = Ok presigned /\
         In file presigned /\ target = ps_presigned file) /\
    (forall presigned,
       sdk_presignFiles E (trace w) (this_siteId w) (d_id deploy) requested
         = Ok presigned ->
       (forall file, In file presigned ->
                     In (ps_key file) (map kt_key requested)) ->
       forall target content,
         In (EvUpload target content)
            (emitted (uploadFiles E deploy files) w) ->
         exists file f,
           In file presigned /\ target = ps_presigned file /\
           In f (d_files deploy) /\ df_required f = true /\
           df_key f = ps_key file).
Proof.
  intros E deploy files w requested.
  assert (Hreq : forall kt, In kt requested ->
            exists f, In f (d_files deploy) /\ df_required f = true /\
                      kt_key kt = df_key f /\ kt_type kt = df_type f).
  { intros kt Hin. apply in_map_iff in Hin. destruct Hin as (f & <- & Hf).
    apply filter_In in Hf. destruct Hf as [Hf Hr]. by exists f. }
  pose proof (uploadFiles_presign_filter E files deploy w) as Hfilter.
  change (required_files deploy) with requested in Hfilter.
  split; [|split; [|split; [exact Hreq|split; [|split]]]].
  - intros siteId deployId req Hin.
    assert (Hin' : In (EvPresignFiles siteId deployId req)
                      (List.filter is_presign
                         (emitted (uploadFiles E deploy files) w))).
    { apply filter_In. by split. }
    rewrite Hfilter in Hin'. destruct (this_sdk w); [|destruct Hin'].
    destruct Hin' as [Heq|[]]. by injection Heq as <- <- <-.
  - intros Hsdk. rewrite Hfilter. by destruct (this_sdk w).
  - intros f Hf Hrequired. apply in_map_iff. exists f. split; [done|].
    apply filter_In. by split.
  - intros target content Hin.
    destruct (uploadFiles_upload_origin E files deploy w target content Hin)
      as (presigned & file & f & h & Hpre & Hfile & Htarget & _).
    by exists presigned, file.
  - intros presigned Hpre Hcontract target content Hin.
    destruct (uploadFiles_upload_origin E files deploy w target content Hin)
      as (presigned' & file & f & h & Hpre' & Hfile & Htarget & _).
    change (required_files deploy) with requested in Hpre'.
    assert (presigned' = presigned) as -> by congruence.
    specialize (Hcontract file Hfile).
    apply in_map_iff in Hcontract. destruct Hcontract as (kt & Hkey & Hkt).
    destruct (Hreq kt Hkt) as (df & Hdf & Hrequired & Hk & _).
    exists file, df. repeat split; try done. congruence.
Qed.

Lemma uploadFiles_presigns_required_only_witness :
  List.filter is_presign
    (emitted (uploadFiles Sample.happy Sample.aDeploy Sample.webFiles)
       Sample.ready)
    = [EvPresignFiles (Some "env-site") "d-app"
         [{| kt_key := "index.html"; kt_type := "text/html" |}]] /\
  exists file f,
    In file [{| ps_key := "index.html";
                ps_presigned := "https://s3/index.html" |}] /\
    "https://s3/index.html" = ps_presigned file /\
    In f (d_files Sample.aDeploy) /\
    df_required f = true /\ df_key f = ps_key file.
Proof.
  pose proof (uploadFiles_presigns_required_only Sample.happy Sample.aDeploy
                Sample.webFiles Sample.ready) as (_ & Hone & _ & _ & _ & Hup).
  split.
  - apply Hone. discriminate.
  - apply (Hup [{| ps_key := "index.html";
                   ps_presigned := "https://s3/index.html" |}] eq_refl
             (fun file Hin =>
                ltac:(destruct Hin as [<-|[]]; left; reflexivity))
             "https://s3/index.html" "bytes of /p/web-app/build/index.html").
    vm_compute. tauto.
Defined.

(** The claim without the condition on the service fails: a service that
    returns a target for a file it was not asked about gets that file, too.
    [main.js] is not marked required and is not in the request, and it is
    uploaded. *)
Lemma uploadFiles_uploads_what_the_service_presigns :
  In {| df_key := "main.js"; df_type := "text/javascript";
        df_required := false |} (d_files Sample.aDeploy) /\
  ~ In "main.js" (map kt_key (required_files Sample.aDeploy)) /\
  In (EvUpload "https://s3/main.js" "bytes of /p/web-app/build/main.js")
     (emitted (uploadFiles Cases.eager Sample.aDeploy Sample.webFiles)
        Sample.ready).
Proof.
  split; [right; left; reflexivity|]. split.
  - intros [H|[]]. discriminate H.
  - vm_compute. tauto.
Qed.

(** ** [deployApp] and [deployFunction] *)

Section PackageRuns.

Variable E : Ext.

Lemma has_code_no_changes err :
  has_code err "NO_CHANGES_DETECTED" = true ->
  has_code err "ECONNREFUSED" = false.
Proof.
  unfold has_code. destruct (err_code err) as [c|]; [|done].
  intros H. apply String.eqb_eq in H. by subst c.
Qed.

Lemma deploy_catch_no_changes err w :
  has_code err "NO_CHANGES_DETECTED" = true ->
  deploy_catch err w = (Ret None, add_events w [EvLog LInfo (err_message err)]).
Proof.
  intros H. unfold deploy_catch, checkNetworkError.
  rewrite (has_code_no_changes _ H), H. reflexivity.
Qed.

Lemma deploy_catch_fatal err w :
  has_code err "NO_CHANGES_DETECTED" = false ->
  fst (deploy_catch err w) = Exit 1.
Proof.
  intros H. unfold deploy_catch, checkNetworkError. rewrite H.
  by destruct (has_code err "ECONNREFUSED").
Qed.

Lemma deploy_catch_fst err w w' :
  fst (deploy_catch err w) = fst (deploy_catch err w').
Proof.
  unfold deploy_catch, checkNetworkError.
  destruct (has_code err "ECONNREFUSED"); [done|].
  by destruct (has_code err "NO_CHANGES_DETECTED").
Qed.

(** [deployApp] up to the answer of [createDeploy]. *)
Lemma deployApp_rejected pkg w tok files err :
  this_sdk w = Some tok ->
  sdk_getFilesDigest E (trace w ++ [EvLog LLog "Preparing deploy files..."])
    (buildPath pkg) = Ok files ->
  sdk_createDeploy E
    (trace w ++ [EvLog LLog "Preparing deploy files...";
                 EvGetFilesDigest (buildPath pkg);
                 EvLog LLog "Creating a new deploy..."])
    (this_siteId w) (pkg_type pkg) (pkg_path pkg) files (Some (pkg_ssr pkg))
    = Err err ->
  deployApp E pkg w
    = deploy_catch err
        (add_events w
           [EvLog LLog "Preparing deploy files...";
            EvGetFilesDigest (buildPath pkg);
            EvLog LLog "Creating a new deploy...";
            EvCreateDeploy (this_siteId w) (pkg_type pkg) (pkg_path pkg) files
              (Some (pkg_ssr pkg))]).
Proof.
  intros Hsdk Hdigest Hcreate. unfold deployApp, log.
  rewrite (bind_ret_eq _ _ _ _ _ (emit_add _ w)).
  erewrite (bind_ret_eq (sdk_call _ _ _)); [|by eapply sdk_call_ok].
  rewrite add_events_app.
  rewrite (bind_ret_eq _ _ _ _ _ (emit_add _ _)), add_events_app.
  rewrite (try_catch_bind_ret get_siteId _ _ _ _ _ eq_refl).
  erewrite try_catch_bind_throw;
    [|eapply sdk_call_err; [exact Hsdk|exact Hcreate]].
  by rewrite add_events_app.
Qed.

Lemma deployApp_created pkg w tok files deploy :
  this_sdk w = Some tok ->
  sdk_getFilesDigest E (trace w ++ [EvLog LLog "Preparing deploy files..."])
    (buildPath pkg) = Ok files ->
  sdk_createDeploy E
    (trace w ++ [EvLog LLog "Preparing deploy files...";
                 EvGetFilesDigest (buildPath pkg);
                 EvLog LLog "Creating a new deploy..."])
    (this_siteId w) (pkg_type pkg) (pkg_path pkg) files (Some (pkg_ssr pkg))
    = Ok deploy ->
  deployApp E pkg w
    = try_catch (uploadFiles E deploy files ;; ret (Some deploy)) deploy_catch
        (add_events w
           [EvLog LLog "Preparing deploy files...";
            EvGetFilesDigest (buildPath pkg);
            EvLog LLog "Creating a new deploy...";
            EvCreateDeploy (this_siteId w) (pkg_type pkg) (pkg_path pkg) files
              (Some (pkg_ssr pkg));
            EvLog LLog "Uploading files (only new and modified files will be uploaded)..."]).
Proof.
  intros Hsdk Hdigest Hcreate. unfold deployApp, log.
  rewrite (bind_ret_eq _ _ _ _ _ (emit_add _ w)).
  erewrite (bind_ret_eq (sdk_call _ _ _)); [|by eapply sdk_call_ok].
  rewrite add_events_app.
  rewrite (bind_ret_eq _ _ _ _ _ (emit_add _ _)), add_events_app.
  rewrite (try_catch_bind_ret get_siteId _ _ _ _ _ eq_refl).
  erewrite (try_catch_bind_ret (sdk_call _ _ _));
    [|eapply sdk_call_ok; [exact Hsdk|exact Hcreate]].
  rewrite add_events_app.
  rewrite (try_catch_bind_ret _ _ _ _ _ _ (emit_add _ _)), add_events_app.
  reflexivity.
Qed.

(** [createZip] changes nothing but the trace; when it resolves, the last
    thing recorded is that the archive was created. *)
Lemma createZip_signals_run signals fin : forall w,
  exists d,
    snd (createZip_signals signals fin w) = add_events w d /\
    Forall (fun ev => is_log ev = true) d /\
    (fst (createZip_signals signals fin w) = Ret tt ->
     exists d', d = d' ++ [EvLog LSuccess "Function archive created!"]).
Proof.
  induction signals as [|[err|processed total] rest IH]; intros w;
    cbn [createZip_signals].
  - destruct fin as [|err].
    + exists [EvLog LSuccess "Function archive created!"].
      repeat split; [by constructor|]. intros _. by exists [].
    + exists [EvLog LError (err_message err)].
      repeat split; [by constructor|done].
  - destruct (has_code err "ENOENT").
    + unfold log. rewrite (bind_ret_eq _ _ _ _ _ (emit_add _ w)).
      destruct (IH (add_events w [EvLog LInfo (err_message err)]))
        as (d & Hd & F & Hlast).
      exists (EvLog LInfo (err_message err) :: d).
      rewrite Hd, add_events_app. repeat split; [by constructor|].
      intros Hret. destruct (Hlast Hret) as [d' ->].
      by exists (EvLog LInfo (err_message err) :: d').
    + exists [EvLog LError (err_message err)].
      repeat split; [by constructor|done].
  - unfold log. rewrite (bind_ret_eq _ _ _ _ _ (emit_add _ w)).
    match goal with
    | |- context [add_events w [?ev]] =>
        destruct (IH (add_events w [ev])) as (d & Hd & F & Hlast);
        exists (ev :: d)
    end.
    rewrite Hd, add_events_app. repeat split; [by constructor|].
    intros Hret. destruct (Hlast Hret) as [d' ->]. eexists (_ :: d'). done.
Qed.

Lemma createZip_run folder output w :
  exists d,
    snd (createZip E folder output w)
      = add_events w (EvArchive folder output :: d) /\
    Forall (fun ev => is_log ev = true) d /\
    (fst (createZip E folder output w) = Ret tt ->
     exists d', d = d' ++ [EvLog LSuccess "Function archive created!"]).
Proof.
  unfold createZip, ask. unfold bind at 1. rewrite emit_add. cbn [snd].
  destruct (createZip_signals_run
              (fst (archiver E (trace w) folder output))
              (snd (archiver E (trace w) folder output))
              (add_events w [EvArchive folder output]))
    as (d & Hd & F & Hlast).
  exists d. rewrite Hd, add_events_app. done.
Qed.

(** [deployFunction] up to the answer of [createDeploy], once the archive
    is there. *)
Lemma deployFunction_rejected pkg w w1 tok zipHash err :
  this_sdk w = Some tok ->
  createZip E (buildPath pkg) (zipFile E)
    (add_events w [EvLog LLog "Preparing deploy files..."]) = (Ret tt, w1) ->
  sdk_getFileHash E (trace w1 ++ [EvLog LLog "Creating a new deploy..."])
    (zipFile E) = Ok zipHash ->
  sdk_createDeploy E
    (trace w1 ++ [EvLog LLog "Creating a new deploy...";
                  EvGetFileHash (zipFile E)])
    (this_siteId w) (pkg_type pkg) (pkg_path pkg) [zipRecord E zipHash] None
    = Err err ->
  deployFunction E pkg w
    = deploy_catch err
        (add_events w1
           [EvLog LLog "Creating a new deploy...";
            EvGetFileHash (zipFile E);
            EvCreateDeploy (this_siteId w) (pkg_type pkg) (pkg_path pkg)
              [zipRecord E zipHash] None]).
Proof.
  intros Hsdk Hzip Hhash Hcreate.
  destruct (createZip_run (buildPath pkg) (zipFile E)
              (add_events w [EvLog LLog "Preparing deploy files..."]))
    as (d & Hw1 & _). rewrite Hzip in Hw1. cbn [snd] in Hw1.
  assert (Hsdk1 : this_sdk w1 = Some tok) by by rewrite Hw1.
  assert (Hsite1 : this_siteId w1 = this_siteId w) by by rewrite Hw1.
  unfold deployFunction, log.
  rewrite (bind_ret_eq _ _ _ _ _ (emit_add _ w)).
  rewrite (bind_ret_eq _ _ _ _ _ Hzip).
  rewrite (bind_ret_eq _ _ _ _ _ (emit_add _ w1)).
  erewrite (try_catch_bind_ret (sdk_call _ _ _));
    [|eapply sdk_call_ok; [exact Hsdk1|exact Hhash]].
  rewrite add_events_app.
  rewrite (try_catch_bind_ret get_siteId _ _ _ _ _ eq_refl).
  cbn [this_siteId add_events]. rewrite Hsite1.
  erewrite try_catch_bind_throw;
    [|eapply sdk_call_err; [exact Hsdk1|exact Hcreate]].
  by rewrite add_events_app.
Qed.

Lemma deployFunction_created pkg w w1 tok zipHash deploy :
  this_sdk w = Some tok ->
  createZip E (buildPath pkg) (zipFile E)
    (add_events w [EvLog LLog "Preparing deploy files..."]) = (Ret tt, w1) ->
  sdk_getFileHash E (trace w1 ++ [EvLog LLog "Creating a new deploy..."])
    (zipFile E) = Ok zipHash ->
  sdk_createDeploy E
    (trace w1 ++ [EvLog LLog "Creating a new deploy...";
                  EvGetFileHash (zipFile E)])
    (this_siteId w) (pkg_type pkg) (pkg_path pkg) [zipRecord E zipHash] None
    = Ok deploy ->
  deployFunction E pkg w
    = try_catch (uploadFiles E deploy [zipRecord E zipHash] ;; ret (Some deploy))
        deploy_catch
        (add_events w1
           [EvLog LLog "Creating a new deploy...";
            EvGetFileHash (zipFile E);
            EvCreateDeploy (this_siteId w) (pkg_type pkg) (pkg_path pkg)
              [zipRecord E zipHash] None;
            EvLog LLog "Uploading function..."]).
Proof.
  intros Hsdk Hzip Hhash Hcreate.
  destruct (createZip_run (buildPath pkg) (zipFile E)
              (add_events w [EvLog LLog "Preparing deploy files..."]))
    as (d & Hw1 & _). rewrite Hzip in Hw1. cbn [snd] in Hw1.
  assert (Hsdk1 : this_sdk w1 = Some tok) by by rewrite Hw1.
  assert (Hsite1 : this_siteId w1 = this_siteId w) by by rewrite Hw1.
  unfold deployFunction, log.
  rewrite (bind_ret_eq _ _ _ _ _ (emit_add _ w)).
  rewrite (bind_ret_eq _ _ _ _ _ Hzip).
  rewrite (bind_ret_eq _ _ _ _ _ (emit_add _ w1)).
  erewrite (try_catch_bind_ret (sdk_call _ _ _));
    [|eapply sdk_call_ok; [exact Hsdk1|exact Hhash]].
  rewrite add_events_app.
  rewrite (try_catch_bind_ret get_siteId _ _ _ _ _ eq_refl).
  cbn [this_siteId add_events]. rewrite Hsite1.
  erewrite (try_catch_bind_ret (sdk_call _ _ _));
    [|eapply sdk_call_ok; [exact Hsdk1|exact Hcreate]].
  rewrite add_events_app.
  rewrite (try_catch_bind_ret _ _ _ _ _ _ (emit_add _ _)), add_events_app.
  reflexivity.
Qed.

End PackageRuns.

(** The [try] block of [deployApp] and [deployFunction] from the call of
    [uploadFiles] on: a presigned file without a local file ends the
    process. *)
Lemma upload_missing_exits E deploy files w tok presigned file :
  this_sdk w = Some tok ->
  sdk_presignFiles E (trace w) (this_siteId w) (d_id deploy)
    (required_files deploy) = Ok presigned ->
  In file presigned -> local_file files file = None ->
  fst (uploadFiles E deploy files w) = Throw (typeError "abs" "undefined") /\
  List.filter is_upload (emitted (uploadFiles E deploy files) w) = [] /\
  fst (try_catch (uploadFiles E deploy files ;; ret (Some deploy))
         deploy_catch w) = Exit 1.
Proof.
  intros Hsdk Hpre Hin Hnone.
  destruct (uploadFiles_run E files deploy w tok presigned Hsdk Hpre)
    as (tail & Hsnd & _ & Hmiss).
  destruct Hmiss as [Hthrow ->]; [by eauto|].
  split; [exact Hthrow|]. split.
  - unfold emitted. rewrite Hsnd. cbn [trace add_events].
    rewrite drop_trace_app, app_nil_r. cbn.
    by apply filter_reads.
  - destruct (uploadFiles E deploy files w) as [o w'] eqn:Hrun.
    cbn [fst] in Hthrow. subst o.
    rewrite (try_catch_bind_throw _ _ _ _ _ _ Hrun).
    by apply deploy_catch_fatal.
Qed.

(** C3. An upload is only ever made for a presigned file that has a local
    file record with the same key, with the content read from that record's
    path, and only when every presigned file has such a record.  When a
    presigned key has no local file record, [uploadFiles] throws the
    [TypeError] of the failed dereference without uploading anything, and
    both [deployApp] and [deployFunction] then exit with code 1. *)
Theorem uploadFiles_missing_local_file :
  forall (E : Ext),
    (forall deploy files w target content,
        In (EvUpload target content) (emitted (uploadFiles E deploy files) w) ->
        exists presigned file f h,
          sdk_presignFiles E (trace w) (this_siteId w) (d_id deploy)
            (required_files deploy) = Ok presigned /\
          In file presigned /\ target = ps_presigned file /\
          local_file files file = Some f /\
          fs_readFile E h (fr_abs f) = Ok content /\
          (forall file', In file' presigned ->
                         local_file files file' <> None)) /\
    (forall deploy files w tok presigned file,
        this_sdk w = Some tok ->
        sdk_presignFiles E (trace w) (this_siteId w) (d_id deploy)
          (required_files deploy) = Ok presigned ->
        In file presigned -> local_file files file = None ->
        fst (uploadFiles E deploy files w)
          = Throw (typeError "abs" "undefined") /\
        List.filter is_upload (emitted (uploadFiles E deploy files) w) = []) /\
    (forall pkg w tok files deploy presigned file,
        this_sdk w = Some tok ->
        sdk_getFilesDigest E
          (trace w ++ [EvLog LLog "Preparing deploy files..."])
          (buildPath pkg) = Ok files ->
        sdk_createDeploy E
          (trace w ++ [EvLog LLog "Preparing deploy files...";
                       EvGetFilesDigest (buildPath pkg);
                       EvLog LLog "Creating a new deploy..."])
          (this_siteId w) (pkg_type pkg) (pkg_path pkg) files
          (Some (pkg_ssr pkg)) = Ok deploy ->
        sdk_presignFiles E
          (trace w ++ [EvLog LLog "Preparing deploy files...";
                       EvGetFilesDigest (buildPath pkg);
                       EvLog LLog "Creating a new deploy...";
                       EvCreateDeploy (this_siteId w) (pkg_type pkg)
                         (pkg_path pkg) files (Some (pkg_ssr pkg));
                       EvLog LLog "Uploading files (only new and modified files will be uploaded)..."])
          (this_siteId w) (d_id deploy) (required_files deploy)
          = Ok presigned ->
        In file presigned -> local_file files file = None ->
        fst (deployApp E pkg w) = Exit 1) /\
    (forall pkg w w1 tok zipHash deploy presigned file,
        this_sdk w = Some tok ->
        createZip E (buildPath pkg) (zipFile E)
          (add_events w [EvLog LLog "Preparing deploy files..."])
          = (Ret tt, w1) ->
        sdk_getFileHash E
          (trace w1 ++ [EvLog LLog "Creating a new deploy..."])
          (zipFile E) = Ok zipHash ->
        sdk_createDeploy E
          (trace w1 ++ [EvLog LLog "Creating a new deploy...";
                        EvGetFileHash (zipFile E)])
          (this_siteId w) (pkg_type pkg) (pkg_path pkg)
          [zipRecord E zipHash] None = Ok deploy ->
        sdk_presignFiles E
          (trace w1 ++ [EvLog LLog "Creating a new deploy...";
                        EvGetFileHash (zipFile E);
                        EvCreateDeploy (this_siteId w) (pkg_type pkg)
                          (pkg_path pkg) [zipRecord E zipHash] None;
                        EvLog LLog "Uploading function..."])
          (this_siteId w) (d_id deploy) (required_files deploy)
          = Ok presigned ->
        In file presigned ->
        local_file [zipRecord E zipHash] file = None ->
        fst (deployFunction E pkg w) = Exit 1).
Proof.
  intros E. split; [|split; [|split]].
  - intros deploy files w target content Hin.
    destruct (uploadFiles_upload_origin E files deploy w target content Hin)
      as (presigned & file & f & h & H1 & H2 & H3 & H4 & H5 & H6 & _).
    by exists presigned, file, f, h.
  - intros deploy files w tok presigned file Hsdk Hpre Hin Hnone.
    destruct (upload_missing_exits E deploy files w tok presigned file
                Hsdk Hpre Hin Hnone) as (H1 & H2 & _). done.
  - intros pkg w tok files deploy presigned file Hsdk Hdigest Hcreate Hpre
      Hin Hnone.
    rewrite (deployApp_created E pkg w tok files deploy Hsdk Hdigest Hcreate).
    eapply upload_missing_exits; eauto.
  - intros pkg w w1 tok zipHash deploy presigned file Hsdk Hzip Hhash Hcreate
      Hpre Hin Hnone.
    rewrite (deployFunction_created E pkg w w1 tok zipHash deploy
               Hsdk Hzip Hhash Hcreate).
    destruct (createZip_run E (buildPath pkg) (zipFile E)
                (add_events w [EvLog LLog "Preparing deploy files..."]))
      as (d & Hw1 & _). rewrite Hzip in Hw1. cbn [snd] in Hw1.
    eapply (upload_missing_exits E deploy _ _ tok presigned file); eauto.
    + by rewrite Hw1.
    + cbn [trace this_siteId add_events].
      replace (this_siteId w1) with (this_siteId w) by by rewrite Hw1.
      exact Hpre.
Qed.

Lemma uploadFiles_missing_local_file_witness :
  (fst (uploadFiles Sample.haunted Sample.aDeploy Sample.webFiles Sample.ready)
     = Throw (typeError "abs" "undefined") /\
   List.filter is_upload
     (emitted (uploadFiles Sample.haunted Sample.aDeploy Sample.webFiles)
        Sample.ready) = []) /\
  fst (deployApp Sample.haunted Sample.webApp Sample.ready) = Exit 1.
Proof.
  pose proof (uploadFiles_missing_local_file Sample.haunted)
    as (_ & Hthrows & Happ & _).
  split.
  - apply (Hthrows Sample.aDeploy Sample.webFiles Sample.ready "env-token"
             [Sample.ghostFile] Sample.ghostFile);
      [reflexivity|reflexivity|left; reflexivity|reflexivity].
  - eapply (Happ Sample.webApp Sample.ready "env-token" Sample.webFiles _
              [Sample.ghostFile] Sample.ghostFile);
      [reflexivity|reflexivity|reflexivity|reflexivity|left; reflexivity
      |reflexivity].
Defined.

(** ** What [deployFunction] submits and uploads *)

Lemma adds_emitted {A} (P : Event -> Prop) (m : M A) w :
  steps (adds P) m ->
  snd (m w) = add_events w (emitted m w) /\ Forall P (emitted m w).
Proof.
  intros H. destruct (H w) as (d & Hd & F).
  unfold emitted. rewrite Hd. cbn [trace add_events].
  by rewrite drop_trace_app.
Qed.

Lemma deploy_catch_adds err w :
  exists logs,
    snd (deploy_catch err w) = add_events w logs /\
    Forall (fun ev => is_log ev = true) logs.
Proof.
  assert (H : steps (adds (fun ev => is_log ev = true)) (deploy_catch err)).
  { use steps_deploy_catch. intros. by apply adds_allows. }
  destruct (H w) as (logs & Hlogs & F). by exists logs.
Qed.

Lemma uploadFiles_adds E deploy files w :
  snd (uploadFiles E deploy files w)
    = add_events w (emitted (uploadFiles E deploy files) w) /\
  Forall (fun ev => upload_event ev = true)
    (emitted (uploadFiles E deploy files) w).
Proof.
  apply adds_emitted. use steps_uploadFiles.
  intros ev Hev. by apply adds_allows.
Qed.

(** The [try] block from the call of [uploadFiles] on, with its [catch]:
    what [uploadFiles] records, then log lines. *)
Lemma try_upload_adds E deploy files w :
  exists logs,
    snd (try_catch (uploadFiles E deploy files ;; ret (Some deploy))
           deploy_catch w)
      = add_events w (emitted (uploadFiles E deploy files) w ++ logs) /\
    Forall (fun ev => is_log ev = true) logs.
Proof.
  destruct (uploadFiles_adds E deploy files w) as [Hsnd _].
  destruct (uploadFiles E deploy files w) as [[[]|e|c] w'] eqn:Hrun;
    cbn [snd] in Hsnd; subst w'.
  - exists []. rewrite (try_catch_bind_ret _ _ _ _ _ _ Hrun).
    by rewrite app_nil_r.
  - rewrite (try_catch_bind_throw _ _ _ _ _ _ Hrun).
    destruct (deploy_catch_adds e
                (add_events w (emitted (uploadFiles E deploy files) w)))
      as (logs & Hlogs & F).
    exists logs. by rewrite Hlogs, add_events_app.
  - exists []. unfold try_catch, bind. rewrite Hrun. by rewrite app_nil_r.
Qed.

Lemma emitted_snd {A} (m : M A) w d :
  snd (m w) = add_events w d -> emitted m w = d.
Proof.
  intros H. unfold emitted. rewrite H. cbn [trace add_events].
  apply drop_trace_app.
Qed.

Lemma logs_quiet logs :
  Forall (fun ev => is_log ev = true) logs -> Forall quiet logs.
Proof.
  intros F. eapply Forall_impl; [exact F|]. by intros [] ?.
Qed.

(** What [deployFunction] records: either nothing that creates a deploy or
    uploads, or one [createDeploy] whose only file record is the archive,
    hashed after the archive was created, followed by log lines or by the
    run of [uploadFiles] on that record. *)
Lemma deployFunction_events E pkg w :
  Forall quiet (emitted (deployFunction E pkg) w) \/
  exists pre zipHash h post,
    emitted (deployFunction E pkg) w
      = pre ++ EvCreateDeploy (this_siteId w) (pkg_type pkg) (pkg_path pkg)
                 [zipRecord E zipHash] None :: post /\
    Forall quiet pre /\
    sdk_getFileHash E h (zipFile E) = Ok zipHash /\
    (exists h1 h2,
        h = h1 ++ EvArchive (buildPath pkg) (zipFile E)
               :: h2 ++ [EvLog LSuccess "Function archive created!";
                         EvLog LLog "Creating a new deploy..."]) /\
    ((Forall (fun ev => is_log ev = true) post /\
      exists err,
        sdk_createDeploy E (trace w ++ pre) (this_siteId w) (pkg_type pkg)
          (pkg_path pkg) [zipRecord E zipHash] None = Err err /\
        fst (deployFunction E pkg w) = fst (deploy_catch err w)) \/
     exists deploy logs,
       sdk_createDeploy E (trace w ++ pre) (this_siteId w) (pkg_type pkg)
         (pkg_path pkg) [zipRecord E zipHash] None = Ok deploy /\
       post = EvLog LLog "Uploading function..."
              :: emitted (uploadFiles E deploy [zipRecord E zipHash])
                   (add_events w
                      (pre ++ [EvCreateDeploy (this_siteId w) (pkg_type pkg)
                                 (pkg_path pkg) [zipRecord E zipHash] None;
                               EvLog LLog "Uploading function..."]))
                 ++ logs /\
       Forall (fun ev => is_log ev = true) logs).
Proof.
  set (l1 := EvLog LLog "Preparing deploy files...").
  set (l2 := EvLog LLog "Creating a new deploy...").
  set (w0 := add_events w [l1]).
  destruct (createZip_run E (buildPath pkg) (zipFile E) w0)
    as (d & Hsnd & Fd & Hlast).
  pose proof (logs_quiet _ Fd) as Qd.
  assert (Hstart : deployFunction E pkg w
            = (createZip E (buildPath pkg) (zipFile E) ;;
               log LLog "Creating a new deploy..." ;;
               try_catch
                 (zipHash <- sdk_call "getFileHash" (EvGetFileHash (zipFile E))
                               (fun h => sdk_getFileHash E h (zipFile E)) ;;
                  siteId <- get_siteId ;;
                  deploy <- sdk_call "createDeploy"
                              (EvCreateDeploy siteId (pkg_type pkg)
                                 (pkg_path pkg) [zipRecord E zipHash] None)
                              (fun h => sdk_createDeploy E h siteId
                                          (pkg_type pkg) (pkg_path pkg)
                                          [zipRecord E zipHash] None) ;;
                  log LLog "Uploading function..." ;;
                  uploadFiles E deploy [zipRecord E zipHash] ;;
                  ret (Some deploy))
                 deploy_catch) w0).
  { unfold deployFunction, log.
    by rewrite (bind_ret_eq _ _ _ _ _ (emit_add _ w)). }
  destruct (createZip E (buildPath pkg) (zipFile E) w0) as [[[]|e|c] w1]
    eqn:Hzip; cbn [snd fst] in Hsnd, Hlast; subst w1;
    [|left; rewrite (bind_throw_eq _ _ _ _ _ Hzip) in Hstart
     |left; rewrite (bind_exit_eq _ _ _ _ _ Hzip) in Hstart];
    try (rewrite (emitted_snd _ w (l1 :: EvArchive (buildPath pkg) (zipFile E) :: d))
           by (rewrite Hstart; unfold w0; by rewrite add_events_app);
         repeat (constructor; [done|]); exact Qd).
  destruct (Hlast eq_refl) as [d' ->]. clear Hlast.
  set (w1 := add_events w0
               (EvArchive (buildPath pkg) (zipFile E)
                :: d' ++ [EvLog LSuccess "Function archive created!"])) in *.
  rewrite (bind_ret_eq _ _ _ _ _ Hzip) in Hstart. unfold log in Hstart.
  rewrite (bind_ret_eq _ _ _ _ _ (emit_add _ w1)) in Hstart.
  set (pre := l1 :: EvArchive (buildPath pkg) (zipFile E)
              :: (d' ++ [EvLog LSuccess "Function archive created!"]) ++ [l2]).
  assert (Hpre : add_events w1 [l2] = add_events w pre).
  { unfold w1, w0, pre. by rewrite !add_events_app. }
  assert (Qpre : Forall quiet pre).
  { unfold pre. repeat (constructor; [done|]).
    apply Forall_app. split; [exact Qd|by repeat constructor]. }
  assert (Hleft : forall err,
             deployFunction E pkg w = deploy_catch err (add_events w pre) \/
             deployFunction E pkg w
               = deploy_catch err
                   (add_events w (pre ++ [EvGetFileHash (zipFile E)])) ->
             Forall quiet (emitted (deployFunction E pkg) w)).
  { intros err Hrun.
    assert (exists logs mid, snd (deployFunction E pkg w)
                               = add_events w (pre ++ mid ++ logs) /\
                             Forall quiet mid /\
                             Forall (fun ev => is_log ev = true) logs)
      as (logs & mid & Hs & Qmid & Flogs).
    { destruct Hrun as [->| ->].
      - destruct (deploy_catch_adds err (add_events w pre)) as (logs & Hl & F).
        exists logs, []. by rewrite Hl, add_events_app.
      - destruct (deploy_catch_adds err
                    (add_events w (pre ++ [EvGetFileHash (zipFile E)])))
          as (logs & Hl & F).
        exists logs, [EvGetFileHash (zipFile E)].
        rewrite Hl, add_events_app, <- app_assoc.
        split; [done|]. split; [by repeat constructor|done]. }
    rewrite (emitted_snd _ _ _ Hs).
    apply Forall_app. split; [exact Qpre|].
    apply Forall_app. split; [exact Qmid|by apply logs_quiet]. }
  destruct (this_sdk w) as [tok|] eqn:Hsdk.
  2:{ left. apply (Hleft (typeError "getFileHash" "null")). left.
      rewrite Hstart, <- Hpre.
      apply try_catch_bind_throw. unfold sdk_call, w1, w0.
      cbn [this_sdk add_events]. by rewrite Hsdk. }
  assert (Hsdk1 : this_sdk (add_events w1 [l2]) = Some tok) by done.
  destruct (sdk_getFileHash E (trace (add_events w1 [l2])) (zipFile E))
    as [zipHash|err] eqn:Hhash.
  2:{ left. apply (Hleft err). right.
      rewrite Hstart.
      rewrite (try_catch_bind_throw _ _ _ _ _ _
                 (sdk_call_err _ _ _ _ tok err Hsdk1 Hhash)).
      by rewrite Hpre, add_events_app. }
  right.
  assert (Hh : exists h1 h2,
             trace (add_events w1 [l2])
               = h1 ++ EvArchive (buildPath pkg) (zipFile E)
                    :: h2 ++ [EvLog LSuccess "Function archive created!"; l2]).
  { exists (trace w ++ [l1]), d'. unfold w1, w0. cbn [trace add_events].
    rewrite <- !app_assoc. cbn [app]. by rewrite <- !app_assoc. }
  assert (Hpre' : forall rest,
             add_events w1 (l2 :: EvGetFileHash (zipFile E) :: rest)
               = add_events w ((pre ++ [EvGetFileHash (zipFile E)]) ++ rest)).
  { intros rest.
    change (l2 :: EvGetFileHash (zipFile E) :: rest)
      with ([l2] ++ EvGetFileHash (zipFile E) :: rest).
    rewrite <- add_events_app, Hpre, add_events_app, <- app_assoc. done. }
  assert (Qpre' : Forall quiet (pre ++ [EvGetFileHash (zipFile E)])).
  { apply Forall_app. split; [exact Qpre|by repeat constructor]. }
  assert (Hhist : trace w1 ++ [l2; EvGetFileHash (zipFile E)]
                  = trace w ++ pre ++ [EvGetFileHash (zipFile E)]).
  { pose proof (f_equal trace Hpre) as Ht. cbn [trace add_events] in Ht.
    rewrite app_assoc, <- Ht, <- app_assoc. done. }
  destruct (sdk_createDeploy E
              (trace w1 ++ [l2; EvGetFileHash (zipFile E)])
              (this_siteId w) (pkg_type pkg) (pkg_path pkg)
              [zipRecord E zipHash] None) as [deploy|err] eqn:Hcreate.
  - pose proof (deployFunction_created E pkg w w1 tok zipHash deploy
                  Hsdk Hzip Hhash Hcreate) as Hrun.
    rewrite Hpre' in Hrun. rewrite Hhist in Hcreate.
    match type of Hrun with
    | _ = try_catch _ _ ?w5 =>
        destruct (try_upload_adds E deploy [zipRecord E zipHash] w5)
          as (logs & Hs & Flogs);
        exists (pre ++ [EvGetFileHash (zipFile E)]), zipHash,
               (trace (add_events w1 [l2])),
               (EvLog LLog "Uploading function..."
                :: emitted (uploadFiles E deploy [zipRecord E zipHash]) w5
                   ++ logs)
    end.
    split; [|split; [exact Qpre'|split; [exact Hhash|split; [exact Hh|]]]].
    + apply emitted_snd. rewrite Hrun, Hs.
      rewrite add_events_app, <- !app_assoc. done.
    + right. exists deploy, logs. split; [exact Hcreate|]. done.
  - pose proof (deployFunction_rejected E pkg w w1 tok zipHash err
                  Hsdk Hzip Hhash Hcreate) as Hrun.
    rewrite Hpre' in Hrun. rewrite Hhist in Hcreate.
    match type of Hrun with
    | _ = deploy_catch _ ?w5 =>
        destruct (deploy_catch_adds err w5) as (logs & Hs & Flogs)
    end.
    exists (pre ++ [EvGetFileHash (zipFile E)]), zipHash,
           (trace (add_events w1 [l2])), logs.
    split; [|split; [exact Qpre'|split; [exact Hhash|split; [exact Hh|]]]];
      [|left; split; [done|]; exists err; split; [exact Hcreate|];
        rewrite Hrun; apply deploy_catch_fst].
    apply emitted_snd. rewrite Hrun, Hs.
    rewrite add_events_app, <- !app_assoc. done.
Qed.






(** The first [createDeploy] call of a list of events splits it in one
    way. *)
Lemma first_create_unique pre a post pre' a' post' :
  pre ++ a :: post = pre' ++ a' :: post' ->
  Forall (fun ev => is_createDeploy ev = false) pre ->
  Forall (fun ev => is_createDeploy ev = false) pre' ->
  is_createDeploy a = true -> is_createDeploy a' = true ->
  pre = pre' /\ a = a' /\ post = post'.
Proof.
  revert pre'. induction pre as [|x pre IH]; intros [|x' pre'] H F F' Ha Ha';
    cbn in H.
  - by injection H as -> ->.
  - injection H as -> H. inversion F' as [|? ? Hx _]. congruence.
  - injection H as <- H. inversion F as [|? ? Hx _]. congruence.
  - injection H as -> H.
    inversion F as [|? ? _ Fpre]; inversion F' as [|? ? _ Fpre']; subst.
    destruct (IH _ H Fpre Fpre' Ha Ha') as (-> & -> & ->). done.
Qed.





(** ** A package without changes in batch mode *)

Section NoChanges.

Variable E : Ext.

Lemma quiet_no_create l :
  Forall quiet l -> Forall (fun ev => is_createDeploy ev = false) l.
Proof. intros F. eapply Forall_impl; [exact F|]. by intros ev [? _]. Qed.

Lemma logs_no_create l :
  Forall (fun ev => is_log ev = true) l ->
  Forall (fun ev => is_createDeploy ev = false) l.
Proof. intros F. by apply quiet_no_create, logs_quiet. Qed.

(** A run that records no [createDeploy] call has none answered. *)
Lemma not_answered {A} (m : M A) w r :
  Forall (fun ev => is_createDeploy ev = false) (emitted m w) ->
  ~ createDeploy_answered E m w r.
Proof.
  intros F (pre & post & siteId & type & path & files & ssr & Hem & _).
  rewrite Hem, Forall_app, Forall_cons in F. by destruct F as (_ & ? & _).
Qed.

(** The call of a run that records [pre], none of them a [createDeploy]
    call, and then a [createDeploy] call. *)
Lemma answered_at {A} (m : M A) w r pre post siteId type path files ssr :
  createDeploy_answered E m w r ->
  emitted m w = pre ++ EvCreateDeploy siteId type path files ssr :: post ->
  Forall (fun ev => is_createDeploy ev = false) pre ->
  sdk_createDeploy E (trace w ++ pre) siteId type path files ssr = r.
Proof.
  intros (pre' & post' & siteId' & type' & path' & files' & ssr' & Hem' & F'
          & Hans) Hem F.
  rewrite Hem in Hem'.
  destruct (first_create_unique _ _ _ _ _ _ Hem' F F' eq_refl eq_refl)
    as (-> & Heq & _).
  by injection Heq as -> -> -> -> ->.
Qed.

(** The answer to the call of [deployApp]. *)
Lemma deployApp_answered pkg w r :
  createDeploy_answered E (deployApp E pkg) w r ->
  exists tok files,
    this_sdk w = Some tok /\
    sdk_getFilesDigest E (trace w ++ [EvLog LLog "Preparing deploy files..."])
      (buildPath pkg) = Ok files /\
    sdk_createDeploy E
      (trace w ++ [EvLog LLog "Preparing deploy files...";
                   EvGetFilesDigest (buildPath pkg);
                   EvLog LLog "Creating a new deploy..."])
      (this_siteId w) (pkg_type pkg) (pkg_path pkg) files (Some (pkg_ssr pkg))
      = r.
Proof.
  intros Hans.
  destruct (this_sdk w) as [tok|] eqn:Hsdk.
  2:{ exfalso. eapply not_answered; [|exact Hans].
      rewrite (emitted_add _ w (Throw (typeError "getFilesDigest" "null"))
                 [EvLog LLog "Preparing deploy files..."]);
        [by repeat constructor|].
      unfold deployApp, log.
      rewrite (bind_ret_eq _ _ _ _ _ (emit_add _ w)).
      erewrite bind_throw_eq; [done|]. unfold sdk_call.
      cbn [this_sdk add_events]. by rewrite Hsdk. }
  destruct (sdk_getFilesDigest E
              (trace w ++ [EvLog LLog "Preparing deploy files..."])
              (buildPath pkg)) as [files|e] eqn:Hdigest.
  2:{ exfalso. eapply not_answered; [|exact Hans].
      rewrite (emitted_add _ w (Throw e)
                 [EvLog LLog "Preparing deploy files...";
                  EvGetFilesDigest (buildPath pkg)]);
        [by repeat constructor|].
      unfold deployApp, log.
      rewrite (bind_ret_eq _ _ _ _ _ (emit_add _ w)).
      erewrite bind_throw_eq; [|by eapply sdk_call_err].
      by rewrite add_events_app. }
  exists tok, files. split; [done|]. split; [done|].
  assert (Hem : exists post,
             emitted (deployApp E pkg) w
             = [EvLog LLog "Preparing deploy files...";
                EvGetFilesDigest (buildPath pkg);
                EvLog LLog "Creating a new deploy..."]
               ++ EvCreateDeploy (this_siteId w) (pkg_type pkg) (pkg_path pkg)
                    files (Some (pkg_ssr pkg)) :: post).
  { destruct (sdk_createDeploy E
                (trace w ++ [EvLog LLog "Preparing deploy files...";
                             EvGetFilesDigest (buildPath pkg);
                             EvLog LLog "Creating a new deploy..."])
                (this_siteId w) (pkg_type pkg) (pkg_path pkg) files
                (Some (pkg_ssr pkg))) as [deploy|err] eqn:Hcreate.
    - pose proof (deployApp_created E pkg w tok files deploy Hsdk Hdigest
                    Hcreate) as Hrun.
      match type of Hrun with
      | _ = try_catch _ _ ?w0 =>
          destruct (try_upload_adds E deploy files w0) as (logs & Hsnd & _)
      end.
      eexists. apply emitted_snd. rewrite Hrun, Hsnd, add_events_app.
      reflexivity.
    - pose proof (deployApp_rejected E pkg w tok files err Hsdk Hdigest
                    Hcreate) as Hrun.
      match type of Hrun with
      | _ = deploy_catch _ ?w0 =>
          destruct (deploy_catch_adds err w0) as (logs & Hsnd & _)
      end.
      eexists. apply emitted_snd. rewrite Hrun, Hsnd, add_events_app.
      reflexivity. }
  destruct Hem as [post Hem].
  apply (answered_at _ _ _ _ _ _ _ _ _ _ Hans Hem). by repeat constructor.
Qed.

Variable err : JsError.

Hypothesis Hcode : has_code err "NO_CHANGES_DETECTED" = true.

Lemma deployApp_no_changes pkg w :
  createDeploy_answered E (deployApp E pkg) w (Err err) ->
  exists w', deployApp E pkg w = (Ret None, w').
Proof.
  intros Hans.
  destruct (deployApp_answered pkg w _ Hans)
    as (tok & files & Hsdk & Hdigest & Hcreate).
  rewrite (deployApp_rejected E pkg w tok files err Hsdk Hdigest Hcreate).
  rewrite (deploy_catch_no_changes err _ Hcode). eauto.
Qed.

Lemma deployFunction_no_changes pkg w :
  createDeploy_answered E (deployFunction E pkg) w (Err err) ->
  exists w', deployFunction E pkg w = (Ret None, w').
Proof.
  intros Hans.
  destruct (deployFunction_events E pkg w)
    as [Q|(pre & zipHash & h & post & Hem & Qpre & _ & _ & Hpost)].
  - by destruct (not_answered _ _ _ (quiet_no_create _ Q) Hans).
  - pose proof (answered_at _ _ _ _ _ _ _ _ _ _ Hans Hem
                  (quiet_no_create _ Qpre)) as Hcreate.
    destruct Hpost as [[_ (err' & Hcreate' & Hfst)]
                      |(deploy & logs & Hcreate' & _)]; [|congruence].
    assert (err' = err) as -> by congruence.
    rewrite (deploy_catch_no_changes err _ Hcode) in Hfst.
    destruct (deployFunction E pkg w) as [o w']. cbn in Hfst. subst o. eauto.
Qed.

Lemma build_events_quiet d :
  Forall (fun ev => build_event ev = true) d -> Forall quiet d.
Proof. intros F. eapply Forall_impl; [exact F|]. by intros [] ?. Qed.

Lemma split_after_prefix {A} (p : A -> bool) d l pre c post :
  d ++ l = pre ++ c :: post ->
  Forall (fun x => p x = false) d -> p c = true ->
  exists pre2, pre = d ++ pre2 /\ l = pre2 ++ c :: post.
Proof.
  intros H F Hc. revert pre H.
  induction F as [|x d Hx _ IH]; intros pre H; cbn in H.
  - by exists pre.
  - destruct pre as [|y pre]; cbn in H.
    + injection H as -> _. congruence.
    + injection H as -> H. destruct (IH _ H) as (pre2 & -> & ->).
      by exists pre2.
Qed.

(** The call of a run that first records [d], none of them a
    [createDeploy] call, is the call of the rest of the run. *)
Lemma answered_after {A B} (m : M A) (m' : M B) w d r :
  Forall (fun ev => is_createDeploy ev = false) d ->
  emitted m w = d ++ emitted m' (add_events w d) ->
  createDeploy_answered E m w r ->
  createDeploy_answered E m' (add_events w d) r.
Proof.
  intros Fd Hem (pre & post & siteId & type & path & files & ssr & Hem' & F
                 & Hans).
  rewrite Hem in Hem'.
  destruct (split_after_prefix is_createDeploy _ _ _ _ _ Hem' Fd eq_refl)
    as (pre2 & -> & Hrest).
  exists pre2, post, siteId, type, path, files, ssr.
  split; [exact Hrest|]. apply Forall_app in F. split; [by destruct F|].
  cbn [trace add_events]. by rewrite <- app_assoc.
Qed.

(** The package is skipped: when the [createDeploy] call of its run is
    answered with the no-changes error, [deployPackage] returns [null]. *)
Lemma deployPackage_no_changes pkg w :
  createDeploy_answered E (deployPackage E (Some pkg)) w (Err err) ->
  exists w', deployPackage E (Some pkg) w = (Ret None, w').
Proof.
  intros Hans.
  set (build := try_catch (ensureBuild E (Some pkg))
                  (fun e => log LError (err_message e) ;; process_exit 1)).
  assert (Hbuild : steps (adds (fun ev => build_event ev = true)) build).
  { unfold build, log. steps_walk.
    - use steps_ensureBuild. intros; by apply adds_allows.
    - by apply adds_allows. }
  destruct (Hbuild w) as (d & Hd & Fd).
  pose proof (quiet_no_create _ (build_events_quiet _ Fd)) as Qd.
  set (dispatch := if String.eqb (pkg_type pkg) "app"
                   then deployApp E pkg else deployFunction E pkg).
  assert (Hdispatch : steps (adds (fun ev => package_event ev = true)) dispatch).
  { unfold dispatch. destruct (String.eqb (pkg_type pkg) "app");
      [use steps_deployApp|use steps_deployFunction];
      intros; by apply adds_allows. }
  assert (Hpkg : deployPackage E (Some pkg) = (build ;; dispatch)) by done.
  rewrite Hpkg in *.
  destruct (build w) as [[[]|e|c] w1] eqn:Hb; cbn [snd] in Hd; subst w1.
  - rewrite (bind_ret_eq _ _ _ _ _ Hb).
    assert (Hem : emitted (build ;; dispatch) w
                  = d ++ emitted dispatch (add_events w d)).
    { apply emitted_snd. rewrite (bind_ret_eq _ _ _ _ _ Hb).
      destruct (adds_emitted _ _ (add_events w d) Hdispatch) as [-> _].
      by rewrite add_events_app. }
    pose proof (answered_after _ _ _ _ _ Qd Hem Hans) as Hans'.
    unfold dispatch in *. destruct (String.eqb (pkg_type pkg) "app").
    + by apply deployApp_no_changes.
    + by apply deployFunction_no_changes.
  - exfalso. eapply not_answered; [|exact Hans].
    by rewrite (emitted_snd _ w d) by by rewrite (bind_throw_eq _ _ _ _ _ Hb).
  - exfalso. eapply not_answered; [|exact Hans].
    by rewrite (emitted_snd _ w d) by by rewrite (bind_exit_eq _ _ _ _ _ Hb).
Qed.

End NoChanges.

(** *** The [deploys] object *)

Lemma obj_get_set {V} (o : JsObj V) k v k' :
  obj_get (obj_set o k v) k'
    = if String.eqb k k' then Some v else obj_get o k'.
Proof.
  induction o as [|[k0 v0] o IH]; cbn.
  - done.
  - destruct (String.eqb_spec k0 k) as [->|Hne]; cbn.
    + by destruct (String.eqb k k').
    + rewrite IH. destruct (String.eqb_spec k0 k') as [->|Hne']; [|done].
      destruct (String.eqb_spec k k') as [->|_]; [done|done].
Qed.

Lemma obj_get_in {V} (o : JsObj V) k :
  In k (map fst o) -> obj_get o k <> None.
Proof.
  induction o as [|[k0 v0] o IH]; cbn; [done|].
  intros [->|Hin].
  - by rewrite String.eqb_refl.
  - destruct (String.eqb k0 k); [done|by apply IH].
Qed.

Lemma insert_index_in k l x :
  In x (insert_index k l) -> x = k \/ In x l.
Proof.
  induction l as [|y l IH]; cbn.
  - intros [<-|[]]. by left.
  - destruct (fst k <=? fst y)%N; cbn.
    + intros [<-|H]; auto.
    + intros [<-|H]; [auto|]. destruct (IH H); auto.
Qed.

Lemma index_keys_in ks x : In x (map snd (index_keys ks)) -> In x ks.
Proof.
  induction ks as [|k ks IH]; cbn; [done|].
  destruct (array_index k) as [n|]; [|by auto].
  intros Hin. apply in_map_iff in Hin. destruct Hin as ([n' k'] & <- & Hin).
  apply insert_index_in in Hin. destruct Hin as [[= _ ->]|Hin]; [by left|].
  right. apply IH. apply in_map_iff. by exists (n', k').
Qed.

Lemma string_keys_in ks x : In x (string_keys ks) -> In x ks.
Proof.
  induction ks as [|k ks IH]; cbn; [done|].
  destruct (array_index k); [by auto|]. intros [<-|H]; auto.
Qed.

(** A key listed by [Object.keys] is a property of the object. *)
Lemma obj_keys_in {V} (o : JsObj V) k :
  In k (obj_keys o) -> obj_get o k <> None.
Proof.
  intros Hin. apply obj_get_in. unfold obj_keys in Hin.
  apply in_app_or in Hin. destruct Hin as [Hin|Hin].
  - by apply index_keys_in.
  - by apply string_keys_in.
Qed.

(** The first loop only sets properties named after its packages. *)
Lemma deploy_createAll_keys E packages : forall deploys w ds wf k,
  deploy_createAll E packages deploys w = (Ret ds, wf) ->
  obj_get ds k <> None ->
  obj_get deploys k <> None \/ In k (map pkg_name packages).
Proof.
  induction packages as [|pkg rest IH]; intros deploys w ds wf k Hrun Hk.
  - cbn in Hrun. injection Hrun as <- _. by left.
  - cbn [deploy_createAll] in Hrun. unfold log in Hrun.
    rewrite (bind_ret_eq _ _ _ _ _ (emit_add _ w)) in Hrun.
    rewrite (bind_ret_eq _ _ _ _ _ (emit_add _ _)) in Hrun.
    unfold bind in Hrun.
    destruct (deployPackage E (Some pkg) _) as [[[deploy|]|e|c] w1];
      try discriminate.
    + destruct (IH _ _ _ _ k Hrun Hk) as [Hset|Hin]; [|right; by right].
      rewrite obj_get_set in Hset.
      destruct (String.eqb_spec (pkg_name pkg) k) as [<-|_];
        [right; by left|by left].
    + destruct (IH _ _ _ _ k Hrun Hk) as [Hset|Hin]; [by left|right; by right].
Qed.

(** C1. In batch mode, when the [createDeploy] call that the run of a
    package makes is answered with the no-changes error, [deployPackage]
    returns [null] without exiting, the loop goes on to the next package
    with the [deploys] object untouched, and, the package names being
    distinct, the object from which deploys are activated and URLs are
    listed has no property for that package. *)
Theorem batch_no_changes_package_is_skipped :
  forall (E : Ext) (pkg : Package) (rest : list Package)
         (deploys : JsObj DeployRecord) (w : World) (err : JsError),
    has_code err "NO_CHANGES_DETECTED" = true ->
    createDeploy_answered E (deployPackage E (Some pkg))
      (add_events w
         [EvConsoleLog;
          EvLog LLog ("Deploying " +:+ pkg_name pkg +:+ " (" +:+
                      pkg_root pkg +:+ ")")])
      (Err err) ->
    exists w1,
      deployPackage E (Some pkg)
        (add_events w
           [EvConsoleLog;
            EvLog LLog ("Deploying " +:+ pkg_name pkg +:+ " (" +:+
                        pkg_root pkg +:+ ")")])
        = (Ret None, w1) /\
      deploy_createAll E (pkg :: rest) deploys w
        = deploy_createAll E rest deploys w1 /\
      (forall ds wf,
          deploy_createAll E (pkg :: rest) deploys w = (Ret ds, wf) ->
          obj_get deploys (pkg_name pkg) = None ->
          ~ In (pkg_name pkg) (map pkg_name rest) ->
          obj_get ds (pkg_name pkg) = None /\
          ~ In (pkg_name pkg) (obj_keys ds)).
Proof.
  intros E pkg rest deploys w err Hcode Hanswered.
  destruct (deployPackage_no_changes E err Hcode pkg _ Hanswered)
    as [w1 Hskip].
  exists w1. split; [exact Hskip|].
  assert (Hloop : deploy_createAll E (pkg :: rest) deploys w
                  = deploy_createAll E rest deploys w1).
  { cbn [deploy_createAll]. unfold log.
    rewrite (bind_ret_eq _ _ _ _ _ (emit_add _ w)).
    rewrite (bind_ret_eq _ _ _ _ _ (emit_add _ _)), add_events_app.
    by rewrite (bind_ret_eq _ _ _ _ _ Hskip). }
  split; [exact Hloop|].
  intros ds wf Hrun Hfresh Hdistinct. rewrite Hloop in Hrun.
  assert (Hnone : obj_get ds (pkg_name pkg) = None).
  { destruct (obj_get ds (pkg_name pkg)) eqn:Hget; [|done].
    destruct (deploy_createAll_keys E rest deploys w1 ds wf (pkg_name pkg) Hrun)
      as [H|H]; [by rewrite Hget|congruence|contradiction]. }
  split; [exact Hnone|].
  intros Hin. by apply obj_keys_in in Hin.
Qed.

Lemma batch_no_changes_package_is_skipped_witness :
  exists w1,
    deployPackage Cases.comparing (Some Sample.webApp)
      (add_events Sample.ready
         [EvConsoleLog;
          EvLog LLog ("Deploying " +:+ pkg_name Sample.webApp +:+ " (" +:+
                      pkg_root Sample.webApp +:+ ")")])
      = (Ret None, w1) /\
    deploy_createAll Cases.comparing (Sample.webApp :: [Sample.apiFn]) []
      Sample.ready
      = deploy_createAll Cases.comparing [Sample.apiFn] [] w1 /\
    (forall ds wf,
        deploy_createAll Cases.comparing (Sample.webApp :: [Sample.apiFn]) []
          Sample.ready = (Ret ds, wf) ->
        obj_get ([] : JsObj DeployRecord) (pkg_name Sample.webApp) = None ->
        ~ In (pkg_name Sample.webApp) (map pkg_name [Sample.apiFn]) ->
        obj_get ds (pkg_name Sample.webApp) = None /\
        ~ In (pkg_name Sample.webApp) (obj_keys ds)).
Proof.
  apply (batch_no_changes_package_is_skipped Cases.comparing Sample.webApp
           [Sample.apiFn] [] Sample.ready Sample.noChanges).
  - reflexivity.
  - exists [running_build; browserBuild Sample.webApp;
            EvLog LLog "Preparing deploy files...";
            EvGetFilesDigest "/p/web-app/build";
            EvLog LLog "Creating a new deploy..."],
           [EvLog LInfo "No changes detected"],
           (Some "env-site"), "app", "/", Sample.webFiles, (Some false).
    split; [vm_compute; reflexivity|].
    split; [by repeat constructor|reflexivity].
Defined.

(** ** Errors during the SDK setup *)

(** With a token in the environment, an error of [whoami] that is not a
    refused connection is dropped by the [catch] of [setupSDK]: nothing is
    logged and [setupSDK] returns normally, with the unchecked client. *)
Lemma setupSDK_drops_whoami_error E w tok e :
  env_WEBINY_ACCESS_TOKEN E = Some tok -> tok <> "" ->
  sdk_whoami E (trace w ++ [EvNewSDK tok]) = Err e ->
  has_code e "ECONNREFUSED" = false ->
  setupSDK E w
    = (Ret tt,
       {| trace := trace w ++ [EvNewSDK tok; EvWhoami];
          webinyConfig := webinyConfig w;
          projectConfig := projectConfig w;
          this_siteId := this_siteId w;
          this_sdk := Some tok |}).
Proof.
  intros Henv Hne Hwho Hcode.
  assert (Htruthy : truthy (Some tok) = true).
  { cbn. by destruct (String.eqb_spec tok ""). }
  assert (Hget : getAccessToken E w = (Ret (Some tok), w)).
  { unfold getAccessToken. by rewrite Henv, Htruthy. }
  unfold setupSDK. erewrite try_catch_throw_eq.
  2:{ rewrite (bind_ret_eq _ _ _ _ _ Hget), Htruthy. cbn [negb].
      rewrite (bind_ret_eq (instantiateSDK _) _ _ tt _ eq_refl).
      erewrite bind_throw_eq; [reflexivity|].
      eapply sdk_call_err; [reflexivity|exact Hwho]. }
  unfold checkNetworkError. rewrite Hcode. unfold ret, add_events. cbn.
  by rewrite <- app_assoc.
Qed.

(** C5 (the code departs from it). With both variables set and a [whoami]
    call that fails by timing out, [setupSDK] returns normally without
    having logged anything, and the whole batch run goes on to deploy the
    packages and exits with code 0: the error is neither reported nor does
    it end the process. *)
Theorem setupSDK_swallows_whoami_timeout :
  setupSDK Sample.flaky Sample.fresh
    = (Ret tt,
       {| trace := [EvNewSDK "env-token"; EvWhoami];
          webinyConfig := FileMissing;
          projectConfig := FileMissing;
          this_siteId := None;
          this_sdk := Some "env-token" |}) /\
  fst (deploy Sample.flaky None {| ci := true |} Sample.fresh) = Exit 0 /\
  List.filter
    (fun ev => match ev with
               | EvLog LError _ | EvLog LInfo "request timed out" => true
               | _ => false
               end)
    (emitted (deploy Sample.flaky None {| ci := true |}) Sample.fresh) = [].
Proof.
  split; [|split].
  - apply (setupSDK_drops_whoami_error Sample.flaky Sample.fresh "env-token"
             Sample.timedOut); done.
  - vm_compute. reflexivity.
  - vm_compute. reflexivity.
Qed.

(** ** Values from the environment and the config files *)

#[export] Instance with_site_steprel siteId : StepRel (with_site siteId).
Proof.
  split.
  - intros w Hw. split; [done|]. exists []. by rewrite app_nil_r.
  - intros w1 w2 w3 H12 H23 Hw.
    destruct (H12 Hw) as (Hw2 & d1 & Ht1 & F1).
    destruct (H23 Hw2) as (Hw3 & d2 & Ht2 & F2).
    split; [done|]. exists (d1 ++ d2).
    rewrite Ht2, Ht1, app_assoc. split; [done|]. by apply Forall_app.
Qed.

Lemma with_site_allows siteId ev :
  carries siteId ev -> allows (with_site siteId) ev.
Proof.
  intros H w Hw. split; [done|]. exists [ev]. split; [done|]. by constructor.
Qed.

Lemma with_site_get {A} siteId (k : option string -> M A) :
  steps (with_site siteId) (k siteId) ->
  steps (with_site siteId) (bind get_siteId k).
Proof.
  intros H w Hw. unfold bind, get_siteId. rewrite Hw. by apply H.
Qed.

Ltac site_walk :=
  repeat first
    [ match goal with
      | |- steps (with_site _) (bind get_siteId _) => apply with_site_get
      | |- allows (with_site _) _ => by apply with_site_allows
      end
    | steps_step ].

Section SiteCarried.

Variable E : Ext.
Variable siteId : option string.

Lemma site_log : forall lvl msg, allows (with_site siteId) (EvLog lvl msg).
Proof. intros. by apply with_site_allows. Qed.

Lemma site_upload_logs uploads :
  steps (with_site siteId) (uploadFiles_logs uploads).
Proof.
  induction uploads as [|[key|e|e] rest IH]; cbn [uploadFiles_logs];
    site_walk. exact IH.
Qed.

Lemma site_uploadFiles deploy files :
  steps (with_site siteId) (uploadFiles E deploy files).
Proof.
  unfold uploadFiles. site_walk.
  - use steps_mapM. intros file _. unfold uploadFiles_read. site_walk.
  - use steps_mapM. intros file _ w. unfold uploadFiles_upload.
    destruct (this_sdk w); [|apply step_refl].
    use steps_start. by apply with_site_allows.
  - apply site_upload_logs.
  - use steps_checkNetworkError. apply site_log.
Qed.

Lemma site_deployApp pkg : steps (with_site siteId) (deployApp E pkg).
Proof.
  unfold deployApp. site_walk.
  - apply site_uploadFiles.
  - use steps_deploy_catch. apply site_log.
Qed.

Lemma site_deployFunction pkg : steps (with_site siteId) (deployFunction E pkg).
Proof.
  unfold deployFunction. site_walk.
  - use steps_createZip. intros [] ?; by apply with_site_allows.
  - apply site_uploadFiles.
  - use steps_deploy_catch. apply site_log.
Qed.

Lemma site_deployPackage pkg : steps (with_site siteId) (deployPackage E pkg).
Proof.
  unfold deployPackage. site_walk.
  - use steps_ensureBuild. intros [] ?; by apply with_site_allows.
  - apply site_deployApp.
  - apply site_deployFunction.
Qed.

Lemma site_deploy_createAll packages : forall deploys,
  steps (with_site siteId) (deploy_createAll E packages deploys).
Proof.
  induction packages as [|pkg rest IH]; intros deploys;
    cbn [deploy_createAll]; site_walk;
    solve [ apply site_deployPackage | apply IH ].
Qed.

Lemma site_activation :
  forall ev, activation_event ev = true -> allows (with_site siteId) ev.
Proof. intros [] ?; by apply with_site_allows. Qed.

Lemma site_deploy_packages name :
  steps (with_site siteId) (deploy_packages E name).
Proof.
  unfold deploy_packages, deploy_single, deploy_batch. site_walk;
    try solve [ apply site_deployPackage
              | use steps_waitTillActive; apply site_activation
              | apply site_deploy_createAll
              | use steps_deploy_activateAll; apply site_activation ].
  use steps_forEach. intros deploy _. site_walk.
Qed.

End SiteCarried.

Section ConfigFiles.

Variable E : Ext.

Lemma keeps_any_event {X} (f : World -> X) :
  (forall w d, f (add_events w d) = f w) ->
  forall ev, allows (keeps f) ev.
Proof. intros H ev w. apply H. Qed.

Lemma webinyConfig_events : forall ev, allows (keeps webinyConfig) ev.
Proof. by apply keeps_any_event. Qed.

Lemma projectConfig_events : forall ev, allows (keeps projectConfig) ev.
Proof. by apply keeps_any_event. Qed.

(** Everything after [setupSDK] leaves the global config file and the client
    alone. *)
Lemma resolveSite_keeps_webinyConfig :
  steps (keeps webinyConfig) (deploy_resolveSite E).
Proof.
  use steps_deploy_resolveSite; [intros; apply webinyConfig_events|done..].
Qed.

Lemma packages_keep {X} (f : World -> X) name :
  (forall ev, allows (keeps f) ev) ->
  steps (keeps f) (deploy_packages E name).
Proof. intros H. use steps_deploy_packages; intros; apply H. Qed.

Lemma askForToken_inputs_ret inputs : forall w typed w',
  askForToken_inputs E inputs w = (Ret typed, w') -> In typed inputs.
Proof.
  induction inputs as [|input rest IH]; intros w typed w' Hrun;
    cbn [askForToken_inputs] in Hrun; [discriminate|].
  unfold bind in Hrun.
  destruct (askForToken_validate E input w) as [[[]|e|c] w1]; try discriminate.
  - injection Hrun as <- _. by left.
  - right. eauto.
Qed.

Lemma askForToken_keeps_webinyConfig :
  steps (keeps webinyConfig) (askForToken E).
Proof.
  unfold askForToken. steps_walk; [apply webinyConfig_events|].
  use steps_askForToken_inputs; [intros; apply webinyConfig_events|done].
Qed.

Lemma ensureToken_stored w : token_stored E w (snd (ensureToken E w)).
Proof.
  unfold ensureToken.
  pose proof (askForToken_keeps_webinyConfig w) as Hkeep.
  destruct (askForToken E w) as [[typed|e|c] w1] eqn:Hask; cbn [snd] in Hkeep.
  - rewrite (bind_ret_eq _ _ _ _ _ Hask). right.
    unfold askForToken, ask, bind in Hask. rewrite emit_add in Hask.
    cbn [snd] in Hask.
    exists typed, (trace w). split.
    + eapply askForToken_inputs_ret. exact Hask.
    + cbn. by rewrite Hkeep.
  - rewrite (bind_throw_eq _ _ _ _ _ Hask). by left.
  - rewrite (bind_exit_eq _ _ _ _ _ Hask). by left.
Qed.

Lemma stored_after_kept {A B} (m : M A) (k : A -> M B) :
  steps (keeps webinyConfig) m ->
  (forall a w, token_stored E w (snd (k a w))) ->
  forall w, token_stored E w (snd (bind m k w)).
Proof.
  intros Hm Hk w. specialize (Hm w). unfold bind.
  destruct (m w) as [[a|e|c] w1]; cbn [snd] in *; [|by left..].
  unfold keeps in Hm.
  destruct (Hk a w1) as [H|(typed & h & Hin & H)]; [left|right].
  - by rewrite H.
  - exists typed, h. by rewrite H, Hm.
Qed.

Lemma kept_after_stored {A B} (m : M A) (k : A -> M B) :
  (forall w, token_stored E w (snd (m w))) ->
  (forall a, steps (keeps webinyConfig) (k a)) ->
  forall w, token_stored E w (snd (bind m k w)).
Proof.
  intros Hm Hk w. specialize (Hm w). unfold bind.
  destruct (m w) as [[a|e|c] w1]; cbn [snd] in *; [|done..].
  specialize (Hk a w1). unfold keeps in Hk.
  destruct Hm as [H|(typed & h & Hin & H)]; [left|right].
  - by rewrite Hk.
  - exists typed, h. by rewrite Hk.
Qed.

Lemma caught_after_stored {A} (m : M A) (h : JsError -> M A) :
  (forall w, token_stored E w (snd (m w))) ->
  (forall e, steps (keeps webinyConfig) (h e)) ->
  forall w, token_stored E w (snd (try_catch m h w)).
Proof.
  intros Hm Hh w. specialize (Hm w). unfold try_catch.
  destruct (m w) as [[a|e|c] w1]; cbn [snd] in *; [done| |done].
  specialize (Hh e w1). unfold keeps in Hh.
  destruct Hm as [H|(typed & h' & Hin & H)]; [left|right].
  - by rewrite Hh.
  - exists typed, h'. by rewrite Hh.
Qed.

Lemma stored_of_kept {A} (m : M A) :
  steps (keeps webinyConfig) m -> forall w, token_stored E w (snd (m w)).
Proof. intros H w. left. apply H. Qed.

(** [setupSDK] stores nothing but a token typed at the prompt. *)
Lemma setupSDK_stored w : token_stored E w (snd (setupSDK E w)).
Proof.
  unfold setupSDK. apply caught_after_stored.
  2:{ intros e. use steps_checkNetworkError. intros; apply webinyConfig_events. }
  apply stored_after_kept; [use steps_getAccessToken|].
  intros accessToken. destruct (negb (truthy accessToken)).
  - apply stored_after_kept; [use steps_log; apply webinyConfig_events|].
    intros _. apply stored_after_kept.
    + unfold howToCreateAToken. use steps_log. apply webinyConfig_events.
    + intros _. apply ensureToken_stored.
  - apply stored_after_kept; [done|]. intros _.
    apply stored_after_kept; [use steps_sdk_call; apply webinyConfig_events|].
    intros [user|].
    + apply stored_of_kept. use steps_ret.
    + apply stored_after_kept; [use steps_log; apply webinyConfig_events|].
      intros _. apply stored_after_kept.
      * unfold howToCreateAToken. use steps_log. apply webinyConfig_events.
      * intros _. apply ensureToken_stored.
Qed.

(** Over the whole run the global config file only ever receives a token
    typed at the prompt. *)
Lemma deploy_token_stored name opts w :
  token_stored E w (snd (deploy E name opts w)).
Proof.
  unfold deploy. apply stored_after_kept.
  { destruct (ci opts); [|use steps_ret].
    use steps_validateCiRequirements. intros; apply webinyConfig_events. }
  intros _. apply kept_after_stored; [apply setupSDK_stored|].
  intros _. use steps_bind; [apply resolveSite_keeps_webinyConfig|].
  intros _. apply packages_keep, webinyConfig_events.
Qed.

Lemma askForSite_ret w value w' :
  askForSite E w = (Ret value, w') ->
  projectConfig w' = projectConfig w /\
  exists site sites h,
    sdk_sites E h = Ok sites /\ In site sites /\ value = site_id site.
Proof.
  intros Hrun.
  assert (Hkeep : keeps projectConfig w w').
  { change w' with (snd (Ret value, w')). rewrite <- Hrun.
    use steps_askForSite. intros; apply projectConfig_events. }
  split; [exact Hkeep|].
  unfold askForSite, sdk_call, call, bind in Hrun.
  destruct (this_sdk w); [|discriminate].
  destruct (sdk_sites E (trace w)) as [sites|e] eqn:Hsites; [|discriminate].
  unfold ask in Hrun. cbn [snd] in Hrun.
  match type of Hrun with
  | context [?choices !! ?i] =>
      destruct (choices !! i) as [[label v]|] eqn:Hpick; [|discriminate]
  end.
  unfold ret in Hrun. assert (v = value) as -> by congruence.
  apply list_lookup_fmap_Some in Hpick. destruct Hpick as (site & Hsite & Heq).
  cbv beta in Heq. assert (value = site_id site) as -> by congruence.
  exists site, sites, (trace w). split; [done|]. split; [|done].
  apply list_elem_of_In. by eapply list_elem_of_lookup_2.
Qed.

(** [deploy_resolveSite] stores nothing but the id of a site picked at the
    prompt. *)
Lemma resolveSite_stored w : site_stored E w (snd (deploy_resolveSite E w)).
Proof.
  unfold deploy_resolveSite.
  assert (Hget : exists s, getSiteId E w = (Ret s, w)).
  { unfold getSiteId. repeat case_match; eauto. }
  destruct Hget as [s Hget]. rewrite (bind_ret_eq _ _ _ _ _ Hget).
  rewrite (bind_ret_eq (set_siteId s) _ _ tt _ eq_refl).
  destruct (negb (truthy s)); [|by left].
  match goal with
  | |- context [bind (askForSite E) ?k ?w1] =>
      assert (Hk : keeps projectConfig w1 (snd (askForSite E w1)))
        by (use steps_askForSite; intros; apply projectConfig_events);
      destruct (askForSite E w1) as [[value|e|c] w2] eqn:Hask
  end; cbn [snd] in Hk; unfold keeps in Hk; cbn [projectConfig] in Hk.
  - rewrite (bind_ret_eq _ _ _ _ _ Hask).
    destruct (askForSite_ret _ _ _ Hask)
      as (Hkeep & site & sites & h & Hsites & Hin & ->).
    right. exists site, sites, h. split; [done|]. split; [done|].
    cbn. by rewrite Hkeep.
  - rewrite (bind_throw_eq _ _ _ _ _ Hask). by left.
  - rewrite (bind_exit_eq _ _ _ _ _ Hask). by left.
Qed.

Lemma setupSDK_keeps_projectConfig : steps (keeps projectConfig) (setupSDK E).
Proof. use steps_setupSDK; [intros; apply projectConfig_events|done..]. Qed.

Lemma ci_guard_keeps {X} (f : World -> X) opts :
  (forall ev, allows (keeps f) ev) ->
  steps (keeps f) (if ci opts then validateCiRequirements E else ret tt).
Proof.
  intros H. destruct (ci opts); [|use steps_ret].
  use steps_validateCiRequirements. intros; apply H.
Qed.

(** Over the whole run the project config file only ever receives the id of
    a site picked at the prompt. *)
Lemma deploy_site_stored name opts w :
  site_stored E w (snd (deploy E name opts w)).
Proof.
  unfold deploy.
  pose proof (ci_guard_keeps projectConfig opts projectConfig_events w) as H1.
  destruct ((if ci opts then validateCiRequirements E else ret tt) w)
    as [[[]|e|c] w1] eqn:Hm1; cbn [snd] in H1;
    [rewrite (bind_ret_eq _ _ _ _ _ Hm1)
    |rewrite (bind_throw_eq _ _ _ _ _ Hm1); by left
    |rewrite (bind_exit_eq _ _ _ _ _ Hm1); by left].
  pose proof (setupSDK_keeps_projectConfig w1) as H2.
  destruct (setupSDK E w1) as [[[]|e|c] w2] eqn:Hm2; cbn [snd] in H2;
    unfold keeps in *;
    [rewrite (bind_ret_eq _ _ _ _ _ Hm2)
    |rewrite (bind_throw_eq _ _ _ _ _ Hm2); left; cbn; congruence
    |rewrite (bind_exit_eq _ _ _ _ _ Hm2); left; cbn; congruence].
  pose proof (resolveSite_stored w2) as H3.
  assert (H4 : forall w3, keeps projectConfig w3
                            (snd (deploy_packages E name w3))).
  { intros w3. apply packages_keep, projectConfig_events. }
  destruct (deploy_resolveSite E w2) as [[[]|e|c] w3] eqn:Hm3; cbn [snd] in H3;
    [rewrite (bind_ret_eq _ _ _ _ _ Hm3); specialize (H4 w3)
    |rewrite (bind_throw_eq _ _ _ _ _ Hm3); cbn [snd]
    |rewrite (bind_exit_eq _ _ _ _ _ Hm3); cbn [snd]];
    unfold keeps in *;
    (destruct H3 as [H3|(site & sites & h & Hs & Hin & H3)];
     [left; congruence|right; exists site, sites, h;
                       split; [done|]; split; [done|]; congruence]).
Qed.

Lemma truthy_some value : value <> "" -> truthy (Some value) = true.
Proof. intros H. cbn. by destruct (String.eqb_spec value ""). Qed.

Lemma getAccessToken_env w tok :
  env_WEBINY_ACCESS_TOKEN E = Some tok -> tok <> "" ->
  getAccessToken E w = (Ret (Some tok), w).
Proof.
  intros Henv Hne. unfold getAccessToken. by rewrite Henv, truthy_some.
Qed.

Lemma getSiteId_env w site :
  env_WEBINY_SITE_ID E = Some site -> site <> "" ->
  getSiteId E w = (Ret (Some site), w).
Proof. intros Henv Hne. unfold getSiteId. by rewrite Henv, truthy_some. Qed.

(** With the site id in the environment nothing is asked and nothing is
    stored: [this.siteId] is set to it. *)
Lemma resolveSite_env w site :
  env_WEBINY_SITE_ID E = Some site -> site <> "" ->
  deploy_resolveSite E w
    = (Ret tt,
       {| trace := trace w; webinyConfig := webinyConfig w;
          projectConfig := projectConfig w; this_siteId := Some site;
          this_sdk := this_sdk w |}).
Proof.
  intros Henv Hne. unfold deploy_resolveSite.
  rewrite (bind_ret_eq _ _ _ _ _ (getSiteId_env w site Henv Hne)).
  rewrite (bind_ret_eq (set_siteId _) _ _ tt _ eq_refl).
  by rewrite truthy_some.
Qed.

(** With the token in the environment the client is first created with it. *)
Lemma setupSDK_first_client w tok :
  env_WEBINY_ACCESS_TOKEN E = Some tok -> tok <> "" ->
  exists rest, emitted (setupSDK E) w = EvNewSDK tok :: rest.
Proof.
  intros Henv Hne. unfold emitted, setupSDK.
  rewrite (try_catch_bind_ret _ _ _ _ _ _ (getAccessToken_env w tok Henv Hne)).
  rewrite truthy_some by done. cbn [negb].
  rewrite (try_catch_bind_ret (instantiateSDK _) _ _ _ tt _ eq_refl).
  match goal with
  | |- context [try_catch ?m ?h ?w1] =>
      assert (Hrest : steps (only (fun _ => True)) (try_catch m h));
      [|destruct (Hrest w1) as (d & Hd & _); exists d; rewrite Hd]
  end.
  - unfold howToCreateAToken. steps_walk;
      try solve [ by apply only_allows
                | use steps_ensureToken;
                  [intros; by apply only_allows
                  |intros; by apply only_instantiateSDK
                  |intros token w'; by apply only_same_trace]
                | use steps_checkNetworkError; intros; by apply only_allows ].
  - cbn [trace str default]. rewrite <- app_assoc. apply drop_trace_app.
Qed.

Lemma setupSDK_accepted w tok user :
  env_WEBINY_ACCESS_TOKEN E = Some tok -> tok <> "" ->
  sdk_whoami E (trace w ++ [EvNewSDK tok]) = Ok (Some user) ->
  webinyConfig (snd (setupSDK E w)) = webinyConfig w.
Proof.
  intros Henv Hne Hwho. unfold setupSDK.
  erewrite try_catch_ret_eq.
  2:{ rewrite (bind_ret_eq _ _ _ _ _ (getAccessToken_env w tok Henv Hne)).
      rewrite truthy_some by done. cbn [negb].
      rewrite (bind_ret_eq (instantiateSDK _) _ _ tt _ eq_refl).
      erewrite (bind_ret_eq _ _ _ (Some user)).
      2:{ eapply sdk_call_ok; [reflexivity|exact Hwho]. }
      reflexivity. }
  reflexivity.
Qed.

Lemma ci_guard_ret opts w w1 :
  (if ci opts then validateCiRequirements E else ret tt) w = (Ret tt, w1) ->
  w1 = w.
Proof.
  destruct (ci opts); [|by intros [= <-]].
  unfold validateCiRequirements.
  destruct (truthy (env_WEBINY_ACCESS_TOKEN E)),
    (truthy (env_WEBINY_SITE_ID E));
    unfold bind, log, emit, process_exit, ret; cbn; intros H; congruence.
Qed.

Lemma deploy_accepted name opts w tok user :
  env_WEBINY_ACCESS_TOKEN E = Some tok -> tok <> "" ->
  sdk_whoami E (trace w ++ [EvNewSDK tok]) = Ok (Some user) ->
  webinyConfig (snd (deploy E name opts w)) = webinyConfig w.
Proof.
  intros Henv Hne Hwho. unfold deploy.
  change (webinyConfig ?w' = webinyConfig w) with (keeps webinyConfig w w').
  apply bind_rel; [exact _|apply ci_guard_keeps, webinyConfig_events|].
  intros [] w1 Hguard. rewrite (ci_guard_ret _ _ _ Hguard).
  apply bind_rel; [exact _|by eapply setupSDK_accepted|].
  intros _ w2 _. use steps_bind; [apply resolveSite_keeps_webinyConfig|].
  intros _. apply packages_keep, webinyConfig_events.
Qed.

Lemma deploy_env_site_project name opts w site :
  env_WEBINY_SITE_ID E = Some site -> site <> "" ->
  projectConfig (snd (deploy E name opts w)) = projectConfig w.
Proof.
  intros Henv Hne. unfold deploy.
  change (projectConfig ?w' = projectConfig w) with (keeps projectConfig w w').
  apply bind_rel; [exact _|apply ci_guard_keeps, projectConfig_events|].
  intros _ w1 _.
  apply bind_rel; [exact _|apply setupSDK_keeps_projectConfig|].
  intros _ w2 _.
  apply bind_rel; [exact _|by rewrite (resolveSite_env w2 site Henv Hne)|].
  intros _ w3 _. apply packages_keep, projectConfig_events.
Qed.

Lemma deploy_env_site_carried name opts w site :
  env_WEBINY_SITE_ID E = Some site -> site <> "" ->
  Forall (carries (Some site)) (emitted (deploy E name opts) w).
Proof.
  intros Henv Hne.
  assert (H : only (carries (Some site)) w (snd (deploy E name opts w))).
  { unfold deploy.
    apply bind_rel; [exact _| |].
    { destruct (ci opts); [|use steps_ret].
      use steps_validateCiRequirements. intros; by apply only_allows. }
    intros _ w1 _. apply bind_rel; [exact _| |].
    { use steps_setupSDK.
      - intros [] ?; by apply only_allows.
      - intros; by apply only_instantiateSDK.
      - intros token w'. by apply only_same_trace. }
    intros _ w2 _. apply bind_rel; [exact _| |].
    { rewrite (resolveSite_env w2 site Henv Hne). by apply only_same_trace. }
    intros [] w3 Hresolve.
    rewrite (resolveSite_env w2 site Henv Hne) in Hresolve.
    injection Hresolve as <-.
    destruct (site_deploy_packages E (Some site) name
                {| trace := trace w2; webinyConfig := webinyConfig w2;
                   projectConfig := projectConfig w2;
                   this_siteId := Some site; this_sdk := this_sdk w2 |}
                eq_refl) as (_ & d & Hd & F).
    by exists d. }
  destruct H as (d & Hd & F). unfold emitted. by rewrite Hd, drop_trace_app.
Qed.

End ConfigFiles.

(** C6. A token or site id supplied through the environment is the value
    the run takes: [getAccessToken] and [getSiteId] return it whatever the
    config files hold, the client is first created with that token, and
    every [createDeploy] and [presignFiles] call carries that site id.  The
    run never stores it: with the site id in the environment the project
    file is left as it was, with an accepted token in the environment the
    global file is left as it was, and all the run ever writes to the two
    files is a token typed at the prompt and the id of a site picked at the
    prompt. *)
Theorem environment_values_win_and_are_not_stored :
  forall (E : Ext) (name : option string) (opts : Opts) (w : World),
    (forall tok,
        env_WEBINY_ACCESS_TOKEN E = Some tok -> tok <> "" ->
        getAccessToken E w = (Ret (Some tok), w) /\
        (exists rest, emitted (setupSDK E) w = EvNewSDK tok :: rest) /\
        (forall user,
            sdk_whoami E (trace w ++ [EvNewSDK tok]) = Ok (Some user) ->
            webinyConfig (snd (deploy E name opts w)) = webinyConfig w)) /\
    (forall site,
        env_WEBINY_SITE_ID E = Some site -> site <> "" ->
        getSiteId E w = (Ret (Some site), w) /\
        projectConfig (snd (deploy E name opts w)) = projectConfig w /\
        Forall (carries (Some site)) (emitted (deploy E name opts) w)) /\
    (webinyConfig (snd (deploy E name opts w)) = webinyConfig w \/
     exists typed h,
       In typed (prompt_token_inputs E h) /\
       webinyConfig (snd (deploy E name opts w))
         = store_key "accessToken" typed (webinyConfig w)) /\
    (projectConfig (snd (deploy E name opts w)) = projectConfig w \/
     exists site sites h,
       sdk_sites E h = Ok sites /\ In site sites /\
       projectConfig (snd (deploy E name opts w))
         = store_key "siteId" (site_id site) (projectConfig w)).
Proof.
  intros E name opts w. split; [|split; [|split]].
  - intros tok Henv Hne. split; [by apply getAccessToken_env|].
    split; [by apply setupSDK_first_client|].
    intros user Hwho. by eapply deploy_accepted.
  - intros site Henv Hne. split; [by apply getSiteId_env|].
    split; [by eapply deploy_env_site_project|].
    by apply deploy_env_site_carried.
  - apply deploy_token_stored.
  - apply deploy_site_stored.
Qed.

Lemma environment_values_win_and_are_not_stored_witness :
  (getAccessToken Sample.happy Sample.configured
     = (Ret (Some "env-token"), Sample.configured) /\
   webinyConfig (snd (deploy Sample.happy None {| ci := true |}
                        Sample.configured))
     = FileText (Some {[ "accessToken" := "stored-token" ]})) /\
  (getSiteId Sample.happy Sample.configured
     = (Ret (Some "env-site"), Sample.configured) /\
   projectConfig (snd (deploy Sample.happy None {| ci := true |}
                         Sample.configured))
     = FileText (Some {[ "siteId" := "stored-site" ]}) /\
   Forall (carries (Some "env-site"))
     (emitted (deploy Sample.happy None {| ci := true |}) Sample.configured)).
Proof.
  pose proof (environment_values_win_and_are_not_stored Sample.happy None
                {| ci := true |} Sample.configured) as (Htok & Hsite & _).
  split.
  - destruct (Htok "env-token" eq_refl ltac:(discriminate))
      as (Hget & _ & Hkept).
    split; [exact Hget|]. exact (Hkept "user-1" eq_refl).
  - exact (Hsite "env-site" eq_refl ltac:(discriminate)).
Defined.

(** * Further properties of the class *)

(** ** The config files: what is stored is read back *)

Lemma getAccessToken_file E w :
  truthy (env_WEBINY_ACCESS_TOKEN E) = false ->
  getAccessToken E w
    = (Ret (readJsonSync (webinyConfig w) ≫= (.!! "accessToken")), w).
Proof.
  intros Henv. unfold getAccessToken. rewrite Henv.
  by destruct (webinyConfig w) as [|[config|]].
Qed.

Lemma getSiteId_file E w :
  truthy (env_WEBINY_SITE_ID E) = false ->
  getSiteId E w = (Ret (readJsonSync (projectConfig w) ≫= (.!! "siteId")), w).
Proof.
  intros Henv. unfold getSiteId. rewrite Henv.
  by destruct (projectConfig w) as [|[config|]].
Qed.

Lemma store_key_read key value f :
  readJsonSync (store_key key value f)
    = Some (<[key := value]> (default ∅ (readJsonSync f))).
Proof. by destruct f as [|[config|]]. Qed.

(** X1. When the environment holds no token, [getAccessToken] returns the
    token that [storeAccessToken] stored last, whatever the global config
    file was before (absent, unreadable or holding another token).  Storing
    the token records no event, leaves the project file alone and keeps
    every other setting of a readable global config file. *)
Theorem stored_token_is_read_back E w token :
  truthy (env_WEBINY_ACCESS_TOKEN E) = false ->
  let w' := snd (storeAccessToken token w) in
  getAccessToken E w' = (Ret (Some token), w') /\
  trace w' = trace w /\
  projectConfig w' = projectConfig w /\
  forall config key,
    readJsonSync (webinyConfig w) = Some config -> key <> "accessToken" ->
    exists config',
      readJsonSync (webinyConfig w') = Some config' /\
      config' !! key = config !! key.
Proof.
  intros Henv w'. split; [|split; [done|split; [done|]]].
  - rewrite (getAccessToken_file E w' Henv). subst w'.
    cbn [snd storeAccessToken webinyConfig].
    rewrite store_key_read. cbn. by rewrite lookup_insert_eq.
  - intros config key Hread Hkey. subst w'.
    cbn [snd storeAccessToken webinyConfig]. rewrite store_key_read, Hread.
    eexists; split; [reflexivity|]. cbn. by rewrite lookup_insert_ne.
Qed.

Lemma stored_token_is_read_back_witness :
  getAccessToken Cases.loggedOut
      (snd (storeAccessToken "new-token" Cases.withSettings))
    = (Ret (Some "new-token"),
       snd (storeAccessToken "new-token" Cases.withSettings)) /\
  exists config',
    readJsonSync
      (webinyConfig (snd (storeAccessToken "new-token" Cases.withSettings)))
      = Some config' /\
    config' !! "theme" = Some "dark".
Proof.
  destruct (stored_token_is_read_back Cases.loggedOut Cases.withSettings
              "new-token" eq_refl) as (Hget & _ & _ & Hkept).
  split; [exact Hget|].
  destruct (Hkept _ "theme" eq_refl ltac:(discriminate))
    as (config' & Hread & Hlook).
  exists config'. split; [exact Hread|]. rewrite Hlook. reflexivity.
Defined.

(** ** The site picked at the prompt is remembered *)

(** How [deploy_resolveSite] ends when it returns: the site is the stored
    one and the project file is untouched, or the project file now holds the
    site picked at the prompt. *)
Lemma resolveSite_ret E w w1 :
  truthy (env_WEBINY_SITE_ID E) = false ->
  deploy_resolveSite E w = (Ret tt, w1) ->
  truthy (this_siteId w1) = true ->
  readJsonSync (projectConfig w1) ≫= (.!! "siteId") = this_siteId w1.
Proof.
  intros Henv Hrun Htruthy. unfold deploy_resolveSite in Hrun.
  rewrite (bind_ret_eq _ _ _ _ _ (getSiteId_file E w Henv)) in Hrun.
  rewrite (bind_ret_eq (set_siteId _) _ _ tt _ eq_refl) in Hrun.
  destruct (truthy (readJsonSync (projectConfig w) ≫= (.!! "siteId")))
    eqn:Hstored; cbn [negb] in Hrun.
  - unfold ret in Hrun. by simplify_eq.
  - match type of Hrun with
    | bind (askForSite E) _ ?w0 = _ =>
        destruct (askForSite E w0) as [[value|e|c] w2] eqn:Hask
    end.
    + rewrite (bind_ret_eq _ _ _ _ _ Hask) in Hrun.
      rewrite (bind_ret_eq (set_siteId _) _ _ tt _ eq_refl) in Hrun.
      unfold storeSiteId in Hrun. simplify_eq.
      cbn [projectConfig this_siteId]. rewrite store_key_read. cbn.
      by rewrite lookup_insert_eq.
    + by rewrite (bind_throw_eq _ _ _ _ _ Hask) in Hrun.
    + by rewrite (bind_exit_eq _ _ _ _ _ Hask) in Hrun.
Qed.

(** X2. Once [deploy] has resolved the site of a project without the
    environment variable (from the project file or at the prompt), a later
    run on the same project file resolves the same site with no remote call
    and no prompt: it records no event and only sets [this.siteId].  The id
    must be non-empty: an empty id is falsy and is asked for again. *)
Theorem resolved_site_needs_no_second_prompt E E' w w1 w2 :
  truthy (env_WEBINY_SITE_ID E) = false ->
  truthy (env_WEBINY_SITE_ID E') = false ->
  deploy_resolveSite E w = (Ret tt, w1) ->
  truthy (this_siteId w1) = true ->
  projectConfig w2 = projectConfig w1 ->
  deploy_resolveSite E' w2 = (Ret tt, snd (set_siteId (this_siteId w1) w2)).
Proof.
  intros Henv Henv' Hrun Htruthy Hsame.
  pose proof (resolveSite_ret E w w1 Henv Hrun Htruthy) as Hstored.
  unfold deploy_resolveSite.
  rewrite (bind_ret_eq _ _ _ _ _ (getSiteId_file E' w2 Henv')).
  rewrite Hsame, Hstored.
  rewrite (bind_ret_eq (set_siteId _) _ _ tt _ eq_refl).
  by rewrite Htruthy.
Qed.

Lemma resolved_site_needs_no_second_prompt_witness :
  deploy_resolveSite Cases.loggedOut Cases.nextRun
    = (Ret tt, snd (set_siteId (Some "site-2") Cases.nextRun)).
Proof.
  exact (resolved_site_needs_no_second_prompt Cases.loggedOut Cases.loggedOut
           Cases.loggedIn
           (snd (deploy_resolveSite Cases.loggedOut Cases.loggedIn))
           Cases.nextRun eq_refl eq_refl eq_refl eq_refl eq_refl).
Defined.

(** ** The token prompt *)

(** What the [validate] callback does with an input it accepts. *)
Lemma askForToken_validate_accepts E input w w' :
  askForToken_validate E input w = (Ret true, w') ->
  trim_is_empty input = false /\
  this_sdk w' = Some input /\
  trace w' = trace w ++ [EvNewSDK input; verifying; EvWhoami] /\
  exists user,
    sdk_whoami E (trace w ++ [EvNewSDK input; verifying]) = Ok (Some user).
Proof.
  unfold askForToken_validate. intros Hrun.
  destruct (trim_is_empty input); [discriminate|].
  rewrite (bind_ret_eq (instantiateSDK _) _ _ tt _ eq_refl) in Hrun.
  rewrite (bind_ret_eq (emit _) _ _ tt _ (emit_add _ _)) in Hrun.
  unfold bind, sdk_call, call in Hrun.
  cbn [this_sdk add_events trace] in Hrun. rewrite <- app_assoc in Hrun.
  cbn [app] in Hrun. fold verifying in Hrun.
  destruct (sdk_whoami E _) as [[user|]|e] eqn:Hwho; try discriminate.
  unfold ret in Hrun. simplify_eq. cbn. rewrite <- !app_assoc. eauto.
Qed.

(** A blank input is refused without a client or a request being made. *)
Lemma askForToken_validate_blank E input w :
  trim_is_empty input = true -> askForToken_validate E input w = (Ret false, w).
Proof. intros Hblank. unfold askForToken_validate. by rewrite Hblank. Qed.

Lemma askForToken_inputs_accepts E inputs : forall w token w',
  askForToken_inputs E inputs w = (Ret token, w') ->
  In token inputs /\ trim_is_empty token = false /\
  this_sdk w' = Some token /\
  exists pre user,
    trace w' = pre ++ [EvNewSDK token; verifying; EvWhoami] /\
    sdk_whoami E (pre ++ [EvNewSDK token; verifying]) = Ok (Some user).
Proof.
  induction inputs as [|input rest IH]; intros w token w' Hrun;
    cbn [askForToken_inputs] in Hrun; [discriminate|].
  destruct (askForToken_validate E input w) as [[[]|e|c] w1] eqn:Hv.
  - rewrite (bind_ret_eq _ _ _ _ _ Hv) in Hrun. unfold ret in Hrun.
    simplify_eq.
    destruct (askForToken_validate_accepts _ _ _ _ Hv)
      as (Hblank & Hsdk & Htrace & user & Hwho).
    split; [by left|]. split; [done|]. split; [done|]. eauto.
  - rewrite (bind_ret_eq _ _ _ _ _ Hv) in Hrun.
    destruct (IH _ _ _ Hrun) as (Hin & Hrest). split; [by right|done].
  - by rewrite (bind_throw_eq _ _ _ _ _ Hv) in Hrun.
  - by rewrite (bind_exit_eq _ _ _ _ _ Hv) in Hrun.
Qed.

(** X3. The token prompt only ever returns an input the user typed whose
    [trim()] is not empty and that [whoami] has just verified with a client
    built from
    that very input: the client of the run holds the returned token, and the
    last three events are its creation, the "Verifying token..." line and
    the successful [whoami]. *)
Theorem askForToken_returns_a_verified_token E w token w' :
  askForToken E w = (Ret token, w') ->
  In token (prompt_token_inputs E (trace w)) /\
  trim_is_empty token = false /\
  this_sdk w' = Some token /\
  exists pre user,
    trace w' = pre ++ [EvNewSDK token; verifying; EvWhoami] /\
    sdk_whoami E (pre ++ [EvNewSDK token; verifying]) = Ok (Some user).
Proof.
  unfold askForToken. intros Hrun.
  rewrite (bind_ret_eq (ask _ _) _ _ _ _ eq_refl) in Hrun.
  exact (askForToken_inputs_accepts _ _ _ _ _ Hrun).
Qed.

Lemma askForToken_returns_a_verified_token_witness :
  fst (askForToken Cases.loggedOut Sample.fresh) = Ret "typed-token" /\
  trim_is_empty "typed-token" = false /\
  this_sdk (snd (askForToken Cases.loggedOut Sample.fresh))
    = Some "typed-token".
Proof.
  destruct (askForToken_returns_a_verified_token Cases.loggedOut Sample.fresh
              "typed-token" (snd (askForToken Cases.loggedOut Sample.fresh))
              eq_refl) as (_ & Hblank & Hsdk & _).
  split; [reflexivity|]. split; [exact Hblank|exact Hsdk].
Defined.

(** ** Logging in *)

(** X4. With no token in the environment and none in the global config
    file, [setupSDK] asks for one; when the prompt returns a token, the run
    goes on with the client holding that token and the token stored in the
    global config file, where [getAccessToken] finds it from then on. *)
Theorem setupSDK_logs_in_with_the_typed_token E w token w2 :
  truthy (env_WEBINY_ACCESS_TOKEN E) = false ->
  truthy (readJsonSync (webinyConfig w) ≫= (.!! "accessToken")) = false ->
  askForToken E (snd ((log LLog "You are not logged in! Please enter your Personal Access Token." ;;
                       howToCreateAToken) w)) = (Ret token, w2) ->
  let w' := snd (storeAccessToken token w2) in
  setupSDK E w = (Ret tt, w') /\
  this_sdk w' = Some token /\
  getAccessToken E w' = (Ret (Some token), w').
Proof.
  intros Henv Hnone Hask w'.
  assert (Hsdk : this_sdk w2 = Some token).
  { pose proof Hask as Hrun. unfold askForToken in Hrun.
    rewrite (bind_ret_eq (ask _ _) _ _ _ _ eq_refl) in Hrun.
    by destruct (askForToken_inputs_accepts _ _ _ _ _ Hrun) as (_ & _ & ? & _). }
  split; [|split; [exact Hsdk|]].
  - unfold setupSDK. apply try_catch_ret_eq.
    rewrite (bind_ret_eq _ _ _ _ _ (getAccessToken_file E w Henv)).
    rewrite Hnone. cbn [negb].
    rewrite (bind_ret_eq (log _ _) _ _ tt _ eq_refl).
    rewrite (bind_ret_eq howToCreateAToken _ _ tt _ eq_refl).
    unfold ensureToken. rewrite (bind_ret_eq _ _ _ _ _ Hask). reflexivity.
  - rewrite (getAccessToken_file E w' Henv). subst w'.
    cbn [snd storeAccessToken webinyConfig]. rewrite store_key_read. cbn.
    by rewrite lookup_insert_eq.
Qed.

Lemma setupSDK_logs_in_with_the_typed_token_witness :
  fst (setupSDK Cases.loggedOut Sample.fresh) = Ret tt /\
  this_sdk (snd (setupSDK Cases.loggedOut Sample.fresh)) = Some "typed-token" /\
  fst (getAccessToken Cases.loggedOut (snd (setupSDK Cases.loggedOut Sample.fresh)))
    = Ret (Some "typed-token").
Proof.
  destruct (setupSDK_logs_in_with_the_typed_token Cases.loggedOut Sample.fresh
              "typed-token" _ eq_refl eq_refl eq_refl) as (Hrun & Hsdk & Hget).
  rewrite Hrun. cbn [fst snd]. split; [reflexivity|].
  split; [exact Hsdk|]. by rewrite Hget.
Defined.

(** ** A refused connection *)

(** X5. When [whoami] rejects with code [ECONNREFUSED] while the stored or
    environment-supplied token is checked, [setupSDK] logs the message at
    error level and ends the process with status 1: the run does not go on
    to the site or the packages. *)
Theorem setupSDK_refused_connection_exits E w token err :
  fst (getAccessToken E w) = Ret token ->
  truthy token = true ->
  sdk_whoami E (trace w ++ [EvNewSDK (str token)]) = Err err ->
  has_code err "ECONNREFUSED" = true ->
  fst (setupSDK E w) = Exit 1 /\
  emitted (setupSDK E) w
    = [EvNewSDK (str token); EvWhoami; EvLog LError (err_message err)] /\
  forall name,
    fst (deploy E name {| ci := false |} w) = Exit 1 /\
    emitted (deploy E name {| ci := false |}) w = emitted (setupSDK E) w.
Proof.
  intros Hget Htruthy Hwho Hcode.
  assert (Hget' : getAccessToken E w = (Ret token, w)).
  { revert Hget. unfold getAccessToken. repeat case_match; cbn; congruence. }
  assert (Hrun : setupSDK E w
            = (Exit 1, add_events (snd (instantiateSDK (str token) w))
                         [EvWhoami; EvLog LError (err_message err)])).
  { unfold setupSDK.
    rewrite (try_catch_bind_ret _ _ _ _ _ _ Hget'). rewrite Htruthy.
    cbn [negb].
    rewrite (try_catch_bind_ret (instantiateSDK _) _ _ _ tt _ eq_refl).
    erewrite try_catch_bind_throw.
    2:{ eapply sdk_call_err; [reflexivity|exact Hwho]. }
    unfold checkNetworkError. rewrite Hcode.
    rewrite (bind_ret_eq (log _ _) _ _ tt _ (emit_add _ _)).
    unfold process_exit. by rewrite add_events_app. }
  assert (Hev : emitted (setupSDK E) w
            = [EvNewSDK (str token); EvWhoami; EvLog LError (err_message err)]).
  { unfold emitted. rewrite Hrun. cbn [snd add_events trace instantiateSDK].
    rewrite <- app_assoc. apply drop_trace_app. }
  split; [by rewrite Hrun|]. split; [exact Hev|].
  intros name. unfold deploy, emitted in *. cbn [ci].
  rewrite (bind_ret_eq (ret tt) _ _ tt _ eq_refl).
  rewrite (bind_exit_eq _ _ _ _ _ Hrun). by rewrite Hrun.
Qed.

Lemma setupSDK_refused_connection_exits_witness :
  fst (setupSDK Cases.offline Sample.fresh) = Exit 1 /\
  emitted (setupSDK Cases.offline) Sample.fresh
    = [EvNewSDK "env-token"; EvWhoami; EvLog LError "connect ECONNREFUSED"].
Proof.
  destruct (setupSDK_refused_connection_exits Cases.offline Sample.fresh
              (Some "env-token") Cases.refused eq_refl eq_refl eq_refl eq_refl)
    as (Hexit & Hev & _).
  split; [exact Hexit|exact Hev].
Defined.

(** ** The builds *)

Lemma ensureBuild_run E pkg w :
  ensureBuild E (Some pkg) w =
    match execa E (trace w ++ [running_build]) "yarn" ["build"] (pkg_root pkg)
            (obj_set (obj_spread (pkg_env pkg)) "REACT_APP_ENV" "browser") with
    | Err e => (Throw e, add_events w [running_build; browserBuild pkg])
    | Ok _ =>
        if pkg_ssr pkg then
          if truthy (pkg_script_build_ssr pkg) then
            match execa E (trace w ++ [running_build; browserBuild pkg])
                    "yarn" ["build:ssr"] (pkg_root pkg)
                    (obj_set (obj_spread (pkg_env pkg)) "REACT_APP_ENV" "ssr") with
            | Err e =>
                (Throw e,
                 add_events w [running_build; browserBuild pkg; ssrBuild pkg])
            | Ok _ =>
                (Ret tt,
                 add_events w [running_build; browserBuild pkg; ssrBuild pkg])
            end
          else
            (Exit 1,
             add_events w
               [running_build; browserBuild pkg; missing_ssr_script pkg])
        else (Ret tt, add_events w [running_build; browserBuild pkg])
    end.
Proof.
  unfold ensureBuild.
  rewrite (bind_ret_eq (log _ _) _ _ tt _ (emit_add _ _)).
  fold running_build. unfold call at 1, bind at 1.
  cbn [add_events trace]. rewrite emit_add, add_events_app. cbn [snd app].
  fold (browserBuild pkg).
  destruct (execa E (trace w ++ [running_build]) _ _ _ _) as [[]|e]; [|done].
  destruct (pkg_ssr pkg); [|done].
  destruct (truthy (pkg_script_build_ssr pkg)); cbn [negb].
  - rewrite (bind_ret_eq (ret tt) _ _ tt _ eq_refl).
    unfold call. cbn [add_events trace]. rewrite emit_add, add_events_app.
    cbn [snd app]. fold (ssrBuild pkg).
    by destruct (execa E _ "yarn" ["build:ssr"] _ _) as [[]|e].
  - unfold bind at 1.
    rewrite (bind_ret_eq (log _ _) _ _ tt _ (emit_add _ _)).
    unfold process_exit. rewrite add_events_app. done.
Qed.

(** *** The environment of a build *)

Lemma obj_get_not_in {V} (o : JsObj V) k :
  ~ In k (map fst o) -> obj_get o k = None.
Proof.
  induction o as [|[k0 v0] o IH]; cbn; [done|]. intros H.
  destruct (String.eqb_spec k0 k) as [->|_]; [destruct H; by left|].
  apply IH. intros Hin. apply H. by right.
Qed.

Lemma insert_index_complete k l x :
  x = k \/ In x l -> In x (insert_index k l).
Proof.
  induction l as [|y l IH]; cbn.
  - intros [->|[]]. by left.
  - destruct (fst k <=? fst y)%N; cbn;
      [intros [->|H]; [by left|by right]|].
    intros [->|[->|H]]; [right; apply IH; by left|by left|].
    right. apply IH. by right.
Qed.

Lemma obj_keys_complete {V} (o : JsObj V) k :
  In k (map fst o) -> In k (obj_keys o).
Proof.
  unfold obj_keys. generalize (map fst o). intros ks Hin.
  apply in_or_app. destruct (array_index k) as [n|] eqn:Hk.
  - left. induction ks as [|k0 ks IH]; [destruct Hin|]. cbn [index_keys].
    destruct Hin as [->|Hin].
    + rewrite Hk. apply in_map_iff. exists (n, k). split; [done|].
      apply insert_index_complete. by left.
    + specialize (IH Hin). destruct (array_index k0) as [n0|]; [|done].
      apply in_map_iff in IH. destruct IH as ([n' k'] & Heq & Hin').
      apply in_map_iff. exists (n', k'). split; [done|].
      apply insert_index_complete. by right.
  - right. induction ks as [|k0 ks IH]; [destruct Hin|]. cbn [string_keys].
    destruct Hin as [->|Hin].
    + rewrite Hk. by left.
    + destruct (array_index k0); [by apply IH|right; by apply IH].
Qed.

(** A copy has the properties of the object it copies. *)
Lemma obj_get_spread {V} (o : JsObj V) k :
  obj_get (obj_spread o) k = obj_get o k.
Proof.
  unfold obj_spread.
  set (f := fun k => match obj_get o k with
                     | Some v => Some (k, v)
                     | None => None
                     end).
  assert (H : forall ks : list string,
             (In k ks -> obj_get (omap f ks) k = obj_get o k) /\
             (~ In k ks -> obj_get (omap f ks) k = None)).
  { induction ks as [|k0 ks [IH1 IH2]]; [by split|].
    change (omap f (k0 :: ks))
      with (match f k0 with
            | Some x => x :: omap f ks
            | None => omap f ks
            end).
    destruct (obj_get o k0) as [v0|] eqn:Hk0.
    1: assert (Hf : f k0 = Some (k0, v0)) by (unfold f; by rewrite Hk0).
    2: assert (Hf : f k0 = None) by (unfold f; by rewrite Hk0).
    all: rewrite Hf; cbn [obj_get].
    - destruct (String.eqb_spec k0 k) as [->|Hne].
      + split; [by rewrite Hk0|]. intros H. destruct H. by left.
      + split.
        * intros [->|Hin]; [done|by apply IH1].
        * intros H. apply IH2. intros Hin. apply H. by right.
    - split.
      + intros Hin. destruct (in_dec string_dec k ks) as [Hks|Hks];
          [by apply IH1|].
        destruct Hin as [->|Hin]; [|done]. rewrite Hk0. by apply IH2.
      + intros H. apply IH2. intros Hin. apply H. by right. }
  destruct (in_dec string_dec k (obj_keys o)) as [Hin|Hnot].
  - by apply H.
  - rewrite (proj2 (H _) Hnot). symmetry. apply obj_get_not_in.
    intros Hin. by apply Hnot, obj_keys_complete.
Qed.

(** X6. [ensureBuild] always runs the browser build first, in the root of
    the package.  It runs at most one more command, [yarn build:ssr], and
    only for a package with [ssr] set whose [build:ssr] script exists and
    whose browser build succeeded.  The environment a build receives has the
    variables of the package, except that [REACT_APP_ENV] is [browser] for
    the first build and [ssr] for the second, whatever value the package
    gave it. *)
Theorem ensureBuild_runs_the_browser_build_first E pkg w :
  let builds := List.filter is_execa (emitted (ensureBuild E (Some pkg)) w) in
  (builds = [browserBuild pkg] \/
   (builds = [browserBuild pkg; ssrBuild pkg] /\
    pkg_ssr pkg = true /\
    truthy (pkg_script_build_ssr pkg) = true /\
    execa E (trace w ++ [running_build]) "yarn" ["build"] (pkg_root pkg)
      (build_env pkg "browser") = Ok tt)) /\
  browserBuild pkg
    = EvExeca "yarn" ["build"] (pkg_root pkg) (build_env pkg "browser") /\
  ssrBuild pkg
    = EvExeca "yarn" ["build:ssr"] (pkg_root pkg) (build_env pkg "ssr") /\
  forall value name,
    obj_get (build_env pkg value) name
      = if String.eqb "REACT_APP_ENV" name then Some value
        else obj_get (pkg_env pkg) name.
Proof.
  intros builds. subst builds. split; [|split; [done|split; [done|]]].
  - unfold emitted. rewrite ensureBuild_run. unfold build_env.
    destruct (execa E (trace w ++ [running_build]) _ _ _ _) as [[]|e]
      eqn:Hfirst.
    + destruct (pkg_ssr pkg) eqn:Hssr.
      * destruct (truthy (pkg_script_build_ssr pkg)) eqn:Hscript.
        -- right. split; [|done].
           destruct (execa E _ "yarn" ["build:ssr"] _ _) as [[]|e];
             cbn [snd add_events trace]; by rewrite drop_trace_app.
        -- left. cbn [snd add_events trace]. by rewrite drop_trace_app.
      * left. cbn [snd add_events trace]. by rewrite drop_trace_app.
    + left. cbn [snd add_events trace]. by rewrite drop_trace_app.
  - intros value name. unfold build_env.
    rewrite obj_get_set. by rewrite obj_get_spread.
Qed.

(** X7. A package with [ssr] set whose [package.json] has no [build:ssr]
    script stops the run with status 1, and it does so only after the
    browser build has run: the script is looked for after the first build.
    Nothing is sent to the service for the package. *)
Theorem ssr_package_without_script_exits_after_the_build E pkg w :
  pkg_ssr pkg = true ->
  truthy (pkg_script_build_ssr pkg) = false ->
  execa E (trace w ++ [running_build]) "yarn" ["build"] (pkg_root pkg)
    (obj_set (obj_spread (pkg_env pkg)) "REACT_APP_ENV" "browser") = Ok tt ->
  deployPackage E (Some pkg) w
    = (Exit 1,
       add_events w [running_build; browserBuild pkg; missing_ssr_script pkg]).
Proof.
  intros Hssr Hscript Hbuild. unfold deployPackage.
  apply bind_exit_eq, try_catch_exit_eq.
  by rewrite ensureBuild_run, Hbuild, Hssr, Hscript.
Qed.

Lemma ssr_package_without_script_exits_after_the_build_witness :
  deployPackage Sample.happy (Some Cases.ssrApp) Sample.ready
    = (Exit 1,
       add_events Sample.ready
         [running_build; browserBuild Cases.ssrApp;
          missing_ssr_script Cases.ssrApp]).
Proof.
  exact (ssr_package_without_script_exits_after_the_build Sample.happy
           Cases.ssrApp Sample.ready eq_refl eq_refl eq_refl).
Defined.

(** X8. A failing browser build is fatal: [deployPackage] logs the error of
    the build and ends the process with status 1.  The package is neither
    digested nor zipped, and no deploy is created for it. *)
Theorem failed_build_exits_before_any_deploy E pkg w err :
  execa E (trace w ++ [running_build]) "yarn" ["build"] (pkg_root pkg)
    (obj_set (obj_spread (pkg_env pkg)) "REACT_APP_ENV" "browser") = Err err ->
  deployPackage E (Some pkg) w
    = (Exit 1,
       add_events w
         [running_build; browserBuild pkg; EvLog LError (err_message err)]).
Proof.
  intros Hbuild. unfold deployPackage. apply bind_exit_eq.
  erewrite try_catch_throw_eq; [|by rewrite ensureBuild_run, Hbuild].
  rewrite (bind_ret_eq (log _ _) _ _ tt _ (emit_add _ _)).
  unfold process_exit. by rewrite add_events_app.
Qed.

Lemma failed_build_exits_before_any_deploy_witness :
  deployPackage Cases.broken (Some Sample.webApp) Sample.ready
    = (Exit 1,
       add_events Sample.ready
         [running_build; browserBuild Sample.webApp;
          EvLog LError "Command failed: yarn build"]).
Proof.
  exact (failed_build_exits_before_any_deploy Cases.broken Sample.webApp
           Sample.ready Cases.buildFailed eq_refl).
Defined.

(** ** The archive of a function *)

Lemma createZip_signals_harmless signals fin w :
  Forall (fun s => harmless s = true) signals ->
  createZip_signals signals fin w
    = createZip_signals [] fin (add_events w (map signal_line signals)).
Proof.
  revert w. induction signals as [|s rest IH]; intros w Hall.
  - cbn [map]. by rewrite add_events_nil.
  - inversion Hall as [|? ? Hs Hrest]; subst.
    destruct s as [err|processed total]; cbn [createZip_signals].
    + cbn [harmless] in Hs. rewrite Hs.
      rewrite (bind_ret_eq (log _ _) _ _ tt _ (emit_add _ _)).
      rewrite (IH _ Hrest), add_events_app. reflexivity.
    + rewrite (bind_ret_eq (log _ _) _ _ tt _ (emit_add _ _)).
      rewrite (IH _ Hrest), add_events_app. reflexivity.
Qed.

Lemma createZip_signals_fatal pre err post fin w :
  Forall (fun s => harmless s = true) pre ->
  has_code err "ENOENT" = false ->
  createZip_signals (pre ++ ArchWarning err :: post) fin w
    = (Throw err,
       add_events w (map signal_line pre ++ [EvLog LError (err_message err)])).
Proof.
  revert w. induction pre as [|s rest IH]; intros w Hall Hcode.
  - cbn [app createZip_signals map]. rewrite Hcode.
    by rewrite (bind_ret_eq (log _ _) _ _ tt _ (emit_add _ _)).
  - inversion Hall as [|? ? Hs Hrest]; subst.
    destruct s as [e|processed total]; cbn [app createZip_signals].
    + cbn [harmless] in Hs. rewrite Hs.
      rewrite (bind_ret_eq (log _ _) _ _ tt _ (emit_add _ _)).
      rewrite (IH _ Hrest Hcode), add_events_app. reflexivity.
    + rewrite (bind_ret_eq (log _ _) _ _ tt _ (emit_add _ _)).
      rewrite (IH _ Hrest Hcode), add_events_app. reflexivity.
Qed.

Lemma createZip_ask E folder output w :
  createZip E folder output w
    = createZip_signals (fst (archiver E (trace w) folder output))
        (snd (archiver E (trace w) folder output))
        (add_events w [EvArchive folder output]).
Proof. reflexivity. Qed.

(** X9. Warnings of the archiver with code [ENOENT] do not fail the
    archive: when every warning is of that kind and the output closes,
    [createZip] resolves, having logged one line per signal in order and
    then that the archive was created. *)
Theorem createZip_survives_missing_files E folder output w signals :
  archiver E (trace w) folder output = (signals, ArchClose) ->
  Forall (fun s => harmless s = true) signals ->
  createZip E folder output w
    = (Ret tt,
       add_events w
         (EvArchive folder output :: map signal_line signals ++
          [archive_created])).
Proof.
  intros Hrun Hall. rewrite createZip_ask, Hrun. cbn [fst snd].
  rewrite (createZip_signals_harmless _ _ _ Hall). cbn [createZip_signals].
  unfold log. by rewrite emit_add, !add_events_app.
Qed.

Lemma createZip_survives_missing_files_witness :
  createZip Cases.zipsWithWarning "/p/api-fn/build" "/tmp/function.zip"
      Sample.ready
    = (Ret tt,
       add_events Sample.ready
         [EvArchive "/p/api-fn/build" "/tmp/function.zip";
          EvLog LLog "Processing files 1/2...";
          EvLog LInfo "no such file: a.tmp";
          EvLog LLog "Processing files 2/2...";
          archive_created]).
Proof.
  apply (createZip_survives_missing_files Cases.zipsWithWarning
           "/p/api-fn/build" "/tmp/function.zip" Sample.ready
           [ArchProgress 1 2; ArchWarning Cases.vanished; ArchProgress 2 2]
           eq_refl).
  repeat constructor.
Defined.

(** X10. The first warning of the archiver whose code is not [ENOENT]
    rejects [createZip] with the error of that warning, after it is logged at
    error level; the signals before it are only logged, and what the
    archiver signals afterwards is not followed, however it ends. *)
Theorem createZip_rejects_at_the_first_other_warning
    E folder output w pre err post fin :
  archiver E (trace w) folder output = (pre ++ ArchWarning err :: post, fin) ->
  Forall (fun s => harmless s = true) pre ->
  has_code err "ENOENT" = false ->
  createZip E folder output w
    = (Throw err,
       add_events w
         (EvArchive folder output :: map signal_line pre ++
          [EvLog LError (err_message err)])).
Proof.
  intros Hrun Hall Hcode. rewrite createZip_ask, Hrun. cbn [fst snd].
  by rewrite (createZip_signals_fatal _ _ _ _ _ Hall Hcode), add_events_app.
Qed.

Lemma createZip_rejects_at_the_first_other_warning_witness :
  createZip Cases.zipsDenied "/p/api-fn/build" "/tmp/function.zip" Sample.ready
    = (Throw Cases.denied,
       add_events Sample.ready
         [EvArchive "/p/api-fn/build" "/tmp/function.zip";
          EvLog LLog "Processing files 1/2...";
          EvLog LError "permission denied: b.js"]).
Proof.
  apply (createZip_rejects_at_the_first_other_warning Cases.zipsDenied
           "/p/api-fn/build" "/tmp/function.zip" Sample.ready
           [ArchProgress 1 2] Cases.denied [ArchProgress 2 2] ArchClose
           eq_refl); [repeat constructor|reflexivity].
Defined.

(** X11. A rejected [createZip] is not handled by [deployFunction]: the
    archive is made before the [try] block, so the error is thrown on to the
    caller as it is, without the process being ended and without the hash,
    the deploy record or any upload being asked for.  [deployPackage] passes
    it on as well once the build has succeeded. *)
Theorem archive_error_escapes_deployFunction E pkg w w0 w1 err :
  ensureBuild E (Some pkg) w = (Ret tt, w0) ->
  String.eqb (pkg_type pkg) "app" = false ->
  createZip E (buildPath pkg) (zipFile E)
    (add_events w0 [EvLog LLog "Preparing deploy files..."]) = (Throw err, w1) ->
  deployFunction E pkg w0 = (Throw err, w1) /\
  deployPackage E (Some pkg) w = (Throw err, w1).
Proof.
  intros Hbuild Htype Hzip.
  assert (Hfn : deployFunction E pkg w0 = (Throw err, w1)).
  { unfold deployFunction.
    rewrite (bind_ret_eq (log _ _) _ _ tt _ (emit_add _ _)).
    by rewrite (bind_throw_eq _ _ _ _ _ Hzip). }
  split; [exact Hfn|]. unfold deployPackage.
  erewrite bind_ret_eq; [|by apply try_catch_ret_eq].
  by rewrite Htype.
Qed.

Lemma archive_error_escapes_deployFunction_witness :
  deployPackage Cases.zipsDenied (Some Sample.apiFn) Sample.ready
    = (Throw Cases.denied,
       add_events Sample.ready
         [running_build; browserBuild Sample.apiFn;
          EvLog LLog "Preparing deploy files...";
          EvArchive "/p/api-fn/build" "/tmp/function.zip";
          EvLog LLog "Processing files 1/2...";
          EvLog LError "permission denied: b.js"]).
Proof.
  exact (proj2 (archive_error_escapes_deployFunction Cases.zipsDenied
                  Sample.apiFn Sample.ready _ _ Cases.denied
                  eq_refl eq_refl eq_refl)).
Defined.

(** ** What [deployApp] submits *)

Lemma upload_events_create_nothing l :
  Forall (fun ev => upload_event ev = true) l ->
  List.filter is_createDeploy l = [].
Proof.
  intros F. apply filter_none. eapply Forall_impl; [exact F|].
  by intros [] ?.
Qed.

(** X12. [deployApp] asks the service for at most one deploy, and what it
    submits then is the complete digest of the build folder of the package,
    as [getFilesDigest] answered it, with the type and the path of the
    package, [this.siteId] and [Boolean(pkg.ssr)]: no file of the digest is
    left out on the client side. *)
Theorem deployApp_submits_the_whole_digest E pkg w :
  let created :=
    List.filter is_createDeploy (emitted (deployApp E pkg) w) in
  created = [] \/
  exists files,
    sdk_getFilesDigest E (trace w ++ [EvLog LLog "Preparing deploy files..."])
      (buildPath pkg) = Ok files /\
    created = [EvCreateDeploy (this_siteId w) (pkg_type pkg) (pkg_path pkg)
                 files (Some (pkg_ssr pkg))].
Proof.
  intros created. subst created.
  destruct (this_sdk w) as [tok|] eqn:Hsdk.
  2:{ left. unfold emitted, deployApp.
      rewrite (bind_ret_eq (log _ _) _ _ tt _ (emit_add _ _)).
      unfold bind, sdk_call. cbn [this_sdk add_events]. rewrite Hsdk.
      cbn [snd add_events trace]. by rewrite drop_trace_app. }
  destruct (sdk_getFilesDigest E
              (trace w ++ [EvLog LLog "Preparing deploy files..."])
              (buildPath pkg)) as [files|e] eqn:Hdigest.
  2:{ left. unfold emitted, deployApp.
      rewrite (bind_ret_eq (log _ _) _ _ tt _ (emit_add _ _)).
      erewrite bind_throw_eq; [|by eapply sdk_call_err].
      rewrite add_events_app. cbn [snd add_events trace].
      by rewrite drop_trace_app. }
  right. exists files. split; [done|].
  destruct (sdk_createDeploy E
              (trace w ++ [EvLog LLog "Preparing deploy files...";
                           EvGetFilesDigest (buildPath pkg);
                           EvLog LLog "Creating a new deploy..."])
              (this_siteId w) (pkg_type pkg) (pkg_path pkg) files
              (Some (pkg_ssr pkg))) as [deploy|err] eqn:Hcreate.
  - pose proof (deployApp_created E pkg w tok files deploy Hsdk Hdigest Hcreate)
      as Hrun.
    match type of Hrun with
    | _ = try_catch _ _ ?w0 =>
        destruct (try_upload_adds E deploy files w0) as (logs & Hsnd & Flogs);
        destruct (uploadFiles_adds E deploy files w0) as [_ Fup]
    end.
    rewrite (emitted_snd (deployApp E pkg) w _
               ltac:(rewrite Hrun, Hsnd; apply add_events_app)).
    rewrite !List.filter_app, (upload_events_create_nothing _ Fup),
      (filter_logs is_createDeploy logs ltac:(done) Flogs).
    reflexivity.
  - pose proof (deployApp_rejected E pkg w tok files err Hsdk Hdigest Hcreate)
      as Hrun.
    match type of Hrun with
    | _ = deploy_catch _ ?w0 =>
        destruct (deploy_catch_adds err w0) as (logs & Hsnd & Flogs)
    end.
    rewrite (emitted_snd (deployApp E pkg) w _
               ltac:(rewrite Hrun, Hsnd; apply add_events_app)).
    rewrite !List.filter_app, (filter_logs is_createDeploy logs ltac:(done) Flogs).
    reflexivity.
Qed.

(** ** A rejected deploy *)

Lemma deploy_catch_fatal_run err w :
  has_code err "NO_CHANGES_DETECTED" = false ->
  deploy_catch err w
    = (Exit 1,
       add_events w
         [EvLog (if has_code err "ECONNREFUSED" then LError else LInfo)
            (err_message err)]).
Proof.
  intros Hcode. unfold deploy_catch, checkNetworkError.
  destruct (has_code err "ECONNREFUSED").
  - apply bind_exit_eq.
    by rewrite (bind_ret_eq (log _ _) _ _ tt _ (emit_add _ _)).
  - rewrite (bind_ret_eq (ret tt) _ _ tt _ eq_refl).
    rewrite (bind_ret_eq (log _ _) _ _ tt _ (emit_add _ _)).
    by rewrite Hcode.
Qed.

(** X13. When [createDeploy] rejects the deploy of an app with an error
    whose code is not [NO_CHANGES_DETECTED], [deployApp] ends the process
    with status 1 after one log line with the message of the error, at error
    level for a refused connection and at info level otherwise.  No file is
    presigned, read or uploaded. *)
Theorem deployApp_rejection_is_fatal E pkg w tok files err :
  this_sdk w = Some tok ->
  sdk_getFilesDigest E (trace w ++ [EvLog LLog "Preparing deploy files..."])
    (buildPath pkg) = Ok files ->
  sdk_createDeploy E
    (trace w ++ [EvLog LLog "Preparing deploy files...";
                 EvGetFilesDigest (buildPath pkg);
                 EvLog LLog "Creating a new deploy..."])
    (this_siteId w) (pkg_type pkg) (pkg_path pkg) files (Some (pkg_ssr pkg))
    = Err err ->
  has_code err "NO_CHANGES_DETECTED" = false ->
  deployApp E pkg w
    = (Exit 1,
       add_events w
         [EvLog LLog "Preparing deploy files...";
          EvGetFilesDigest (buildPath pkg);
          EvLog LLog "Creating a new deploy...";
          EvCreateDeploy (this_siteId w) (pkg_type pkg) (pkg_path pkg) files
            (Some (pkg_ssr pkg));
          EvLog (if has_code err "ECONNREFUSED" then LError else LInfo)
            (err_message err)]).
Proof.
  intros Hsdk Hdigest Hcreate Hcode.
  rewrite (deployApp_rejected E pkg w tok files err Hsdk Hdigest Hcreate).
  by rewrite (deploy_catch_fatal_run _ _ Hcode), add_events_app.
Qed.

Lemma deployApp_rejection_is_fatal_witness :
  deployApp (Cases.rejecting Sample.happy Sample.timedOut) Sample.webApp
      Sample.ready
    = (Exit 1,
       add_events Sample.ready
         [EvLog LLog "Preparing deploy files...";
          EvGetFilesDigest "/p/web-app/build";
          EvLog LLog "Creating a new deploy...";
          EvCreateDeploy (Some "env-site") "app" "/" Sample.webFiles
            (Some false);
          EvLog LInfo "request timed out"]).
Proof.
  exact (deployApp_rejection_is_fatal
           (Cases.rejecting Sample.happy Sample.timedOut) Sample.webApp
           Sample.ready "env-token" Sample.webFiles Sample.timedOut
           eq_refl eq_refl eq_refl eq_refl).
Defined.

(** ** Reads come before uploads *)

Lemma read_from_in E files presigned vs file :
  Forall2 (read_from E files) presigned vs -> In file presigned ->
  exists v, In v vs /\ read_from E files file v.
Proof.
  induction 1 as [|p v presigned vs Hv _ IH]; intros Hin; [destruct Hin|].
  destruct Hin as [->|Hin].
  - exists v. split; [by left|done].
  - destruct (IH Hin) as (v' & Hin' & Hv'). exists v'. split; [by right|done].
Qed.

(** X14. [uploadFiles] awaits the reads of all presigned files before it
    starts the first upload: when the local file of one presigned file
    cannot be read, nothing is uploaded, not even the files that were read,
    and [uploadFiles] does not resolve. *)
Theorem unreadable_file_stops_every_upload
    E deploy files w tok presigned file f :
  this_sdk w = Some tok ->
  sdk_presignFiles E (trace w) (this_siteId w) (d_id deploy)
    (required_files deploy) = Ok presigned ->
  In file presigned ->
  local_file files file = Some f ->
  (forall h content, fs_readFile E h (fr_abs f) <> Ok content) ->
  List.filter is_upload (emitted (uploadFiles E deploy files) w) = [] /\
  fst (uploadFiles E deploy files w) <> Ret tt.
Proof.
  intros Hsdk Hpre Hin Hlocal Hread.
  destruct (uploadFiles_shape E files deploy w)
    as [[Hnone _]|[(e & logs & _ & Herr & _)
                  |(presigned' & tail & _ & Hpre' & Hem & Hcases & _)]];
    [congruence|congruence|].
  assert (presigned' = presigned) as -> by congruence.
  destruct Hcases as [[Ftail Hne]|(vs & logs & Hvs & _ & _)].
  - split; [|exact Hne]. rewrite Hem. cbn [List.filter is_upload].
    rewrite List.filter_app, (filter_reads files is_upload) by done.
    by rewrite (filter_logs is_upload tail).
  - exfalso.
    destruct (read_from_in _ _ _ _ _ Hvs Hin) as (v & _ & _ & f' & h & Hf & Hok).
    assert (f' = f) as -> by congruence. by eapply Hread.
Qed.

Lemma unreadable_file_stops_every_upload_witness :
  List.filter is_upload
    (emitted (uploadFiles (Cases.lockedFile Sample.happy) Cases.fullDeploy
                Sample.webFiles) Sample.ready) = [] /\
  fst (uploadFiles (Cases.lockedFile Sample.happy) Cases.fullDeploy
         Sample.webFiles Sample.ready) <> Ret tt.
Proof.
  apply (unreadable_file_stops_every_upload (Cases.lockedFile Sample.happy)
           Cases.fullDeploy Sample.webFiles Sample.ready "env-token"
           [ {| ps_key := "index.html";
                ps_presigned := "https://s3/index.html" |};
             {| ps_key := "main.js"; ps_presigned := "https://s3/main.js" |} ]
           {| ps_key := "main.js"; ps_presigned := "https://s3/main.js" |}
           {| fr_key := "main.js"; fr_hash := "b2";
              fr_abs := "/p/web-app/build/main.js";
              fr_type := "text/javascript" |}).
  - reflexivity.
  - reflexivity.
  - right; left; reflexivity.
  - reflexivity.
  - intros h content. cbn. discriminate.
Defined.

(** X15. When [uploadFiles] resolves, every file the service presigned has
    been uploaded exactly once, in the order of the service's answer: each
    upload goes to the presigned target of its file and carries the content
    read from the local file with the same key. *)
Theorem uploadFiles_uploads_every_presigned_file E deploy files w :
  fst (uploadFiles E deploy files w) = Ret tt ->
  exists presigned vs,
    sdk_presignFiles E (trace w) (this_siteId w) (d_id deploy)
      (required_files deploy) = Ok presigned /\
    Forall2 (read_from E files) presigned vs /\
    List.filter is_upload (emitted (uploadFiles E deploy files) w)
      = map upload_of vs.
Proof.
  intros Hret.
  destruct (uploadFiles_shape E files deploy w)
    as [[Hnone Hem]|[(e & logs & _ & _ & _ & _ & Hne)
                    |(presigned & tail & _ & Hpre & Hem & Hcases & _)]].
  - exfalso. revert Hret.
    unfold uploadFiles, try_catch, bind, get_siteId, sdk_call.
    rewrite Hnone. unfold checkNetworkError.
    by destruct (has_code _ _).
  - done.
  - destruct Hcases as [[_ Hne]|(vs & logs & Hvs & -> & Flogs)]; [done|].
    exists presigned, vs. split; [done|]. split; [done|].
    rewrite Hem. cbn [List.filter is_upload].
    rewrite !List.filter_app, (filter_reads files is_upload) by done.
    rewrite (filter_logs is_upload logs) by done.
    rewrite app_nil_r. apply filter_all. by apply Forall_map, Forall_true.
Qed.

Lemma uploadFiles_uploads_every_presigned_file_witness :
  exists presigned vs,
    sdk_presignFiles Sample.happy (trace Sample.ready)
      (this_siteId Sample.ready) (d_id Cases.fullDeploy)
      (required_files Cases.fullDeploy) = Ok presigned /\
    Forall2 (read_from Sample.happy Sample.webFiles) presigned vs /\
    List.filter is_upload
      (emitted (uploadFiles Sample.happy Cases.fullDeploy Sample.webFiles)
         Sample.ready)
    = map upload_of vs.
Proof.
  exact (uploadFiles_uploads_every_presigned_file Sample.happy
           Cases.fullDeploy Sample.webFiles Sample.ready eq_refl).
Defined.

Lemma deploy_catch_no_deploy err w deploy w' :
  deploy_catch err w <> (Ret (Some deploy), w').
Proof.
  unfold deploy_catch, checkNetworkError, bind, log, emit, process_exit, ret.
  destruct (has_code err "ECONNREFUSED"); [done|].
  by destruct (has_code err "NO_CHANGES_DETECTED").
Qed.

(** X16. [deployApp] returns a deploy record only when the service created
    it for the digest of the build folder and [uploadFiles] then resolved
    for that record and those files: a deploy whose upload failed is never
    handed to the activation. *)
Theorem deployApp_returns_only_uploaded_deploys E pkg w deploy w' :
  deployApp E pkg w = (Ret (Some deploy), w') ->
  exists files hc w0,
    sdk_getFilesDigest E (trace w ++ [EvLog LLog "Preparing deploy files..."])
      (buildPath pkg) = Ok files /\
    sdk_createDeploy E hc (this_siteId w) (pkg_type pkg) (pkg_path pkg) files
      (Some (pkg_ssr pkg)) = Ok deploy /\
    uploadFiles E deploy files w0 = (Ret tt, w').
Proof.
  intros Hrun.
  destruct (this_sdk w) as [tok|] eqn:Hsdk.
  2:{ exfalso. revert Hrun. unfold deployApp.
      rewrite (bind_ret_eq (log _ _) _ _ tt _ (emit_add _ _)).
      unfold bind, sdk_call. cbn [this_sdk add_events]. by rewrite Hsdk. }
  destruct (sdk_getFilesDigest E
              (trace w ++ [EvLog LLog "Preparing deploy files..."])
              (buildPath pkg)) as [files|e] eqn:Hdigest.
  2:{ exfalso. revert Hrun. unfold deployApp.
      rewrite (bind_ret_eq (log _ _) _ _ tt _ (emit_add _ _)).
      by erewrite bind_throw_eq; [|by eapply sdk_call_err]. }
  destruct (sdk_createDeploy E
              (trace w ++ [EvLog LLog "Preparing deploy files...";
                           EvGetFilesDigest (buildPath pkg);
                           EvLog LLog "Creating a new deploy..."])
              (this_siteId w) (pkg_type pkg) (pkg_path pkg) files
              (Some (pkg_ssr pkg))) as [created|err] eqn:Hcreate.
  - rewrite (deployApp_created E pkg w tok files created Hsdk Hdigest Hcreate)
      in Hrun.
    match type of Hrun with
    | try_catch _ _ ?w0 = _ =>
        destruct (uploadFiles E created files w0) as [[[]|e|c] w1] eqn:Hup
    end.
    + rewrite (try_catch_bind_ret _ _ _ _ _ _ Hup) in Hrun.
      unfold try_catch, ret in Hrun. simplify_eq.
      eexists files, _, _. split; [done|]. split; [exact Hcreate|exact Hup].
    + rewrite (try_catch_bind_throw _ _ _ _ _ _ Hup) in Hrun.
      by destruct (deploy_catch_no_deploy _ _ _ _ Hrun).
    + unfold try_catch, bind in Hrun. by rewrite Hup in Hrun.
  - rewrite (deployApp_rejected E pkg w tok files err Hsdk Hdigest Hcreate)
      in Hrun.
    by destruct (deploy_catch_no_deploy _ _ _ _ Hrun).
Qed.

Lemma deployApp_returns_only_uploaded_deploys_witness :
  exists files hc w0,
    sdk_getFilesDigest Sample.happy
      (trace Sample.ready ++ [EvLog LLog "Preparing deploy files..."])
      (buildPath Sample.webApp) = Ok files /\
    sdk_createDeploy Sample.happy hc (this_siteId Sample.ready)
      (pkg_type Sample.webApp) (pkg_path Sample.webApp) files
      (Some (pkg_ssr Sample.webApp)) = Ok Cases.fullDeploy /\
    uploadFiles Sample.happy Cases.fullDeploy files w0
      = (Ret tt, snd (deployApp Sample.happy Sample.webApp Sample.ready)).
Proof.
  apply (deployApp_returns_only_uploaded_deploys Sample.happy Sample.webApp
           Sample.ready Cases.fullDeploy
           (snd (deployApp Sample.happy Sample.webApp Sample.ready))).
  vm_compute. reflexivity.
Defined.

(** ** Activation *)

(** X17. In the batch branch an activation that ends without a usable URL
    (the polls ran out, or the service reported the deploy active with an
    empty or absent [url]) ends the process with status 1 after the failure
    line: the deploys that come later in the list are not activated. *)
Theorem failed_activation_stops_the_batch
    E folder rest deploys w tok deploy u w3 :
  this_sdk w = Some tok ->
  obj_get deploys folder = Some deploy ->
  sdk_activateDeploy E (trace w ++ [activating folder]) (d_id deploy) = Ok tt ->
  waitTillActive E deploy
    (add_events w [activating folder; EvActivateDeploy (d_id deploy)])
    = (Ret u, w3) ->
  truthy u = false ->
  deploy_activateAll E (folder :: rest) deploys w
    = (Exit 1, add_events w3 [EvLog LError activation_failed]).
Proof.
  intros Hsdk Hget Hact Hwait Hurl. cbn [deploy_activateAll].
  rewrite (bind_ret_eq (log _ _) _ _ tt _ (emit_add _ _)).
  fold (activating folder).
  erewrite (bind_ret_eq (sdk_member _) _ _ tt);
    [|unfold sdk_member; cbn [this_sdk add_events]; by rewrite Hsdk].
  rewrite Hget.
  erewrite (bind_ret_eq (call _ _) _ _ tt);
    [|unfold call; cbn [trace add_events]; by rewrite Hact].
  rewrite emit_add. cbn [snd]. rewrite add_events_app. cbn [app].
  rewrite (bind_ret_eq _ _ _ _ _ Hwait), Hurl. cbn [negb].
  apply bind_exit_eq.
  by rewrite (bind_ret_eq (log _ _) _ _ tt _ (emit_add _ _)).
Qed.

Lemma failed_activation_stops_the_batch_witness :
  deploy_activateAll Sample.stuck ["web-app"; "api-fn"] Cases.twoDeploys
      Sample.ready
    = (Exit 1,
       add_events
         (add_events Sample.ready
            ([activating "web-app"; EvActivateDeploy "d-app"] ++
             rounds 10 "d-app"))
         [EvLog LError activation_failed]).
Proof.
  apply (failed_activation_stops_the_batch Sample.stuck "web-app" ["api-fn"]
           Cases.twoDeploys Sample.ready "env-token"
           {| d_id := "d-app"; d_files := []; d_url := None |} None
           (add_events Sample.ready
              ([activating "web-app"; EvActivateDeploy "d-app"] ++
               rounds 10 "d-app"))).
  - reflexivity.
  - reflexivity.
  - reflexivity.
  - vm_compute. reflexivity.
  - reflexivity.
Defined.

(** X18. A deploy that the service reports active without a usable [url]
    (absent or empty) is treated as a failed activation: in single-package
    mode the run stops after that first poll, logs the failure line and ends
    the process with status 1, although the deploy is live. *)
Theorem active_deploy_without_url_fails E name packages w w1 tok deploy u :
  deployPackage E
    (List.find (fun p => String.eqb (pkg_name p) name) packages) w
    = (Ret (Some deploy), w1) ->
  this_sdk w1 = Some tok ->
  sdk_activateDeploy E
    (trace w1 ++ [EvLog LLog ("Activating new deploy..." +:+ nl)])
    (d_id deploy) = Ok tt ->
  sdk_isDeployActive E
    (trace w1 ++ [EvLog LLog ("Activating new deploy..." +:+ nl);
                  EvActivateDeploy (d_id deploy); EvSleep 5000])
    (d_id deploy) = Ok {| active := true; url := u |} ->
  truthy u = false ->
  deploy_single E name packages w
    = (Exit 1,
       add_events w1
         ([EvLog LLog ("Activating new deploy..." +:+ nl);
           EvActivateDeploy (d_id deploy)] ++
          poll_round (d_id deploy) ++ [EvLog LError activation_failed])).
Proof.
  intros Hpkg Hsdk Hact Hpoll Hurl. unfold deploy_single.
  rewrite (bind_ret_eq _ _ _ _ _ Hpkg).
  rewrite (bind_ret_eq (log _ _) _ _ tt _ (emit_add _ _)).
  erewrite (bind_ret_eq (sdk_call _ _ _) _ _ tt);
    [|by eapply sdk_call_ok].
  rewrite add_events_app. cbn [app].
  erewrite (bind_ret_eq (waitTillActive E deploy)).
  2:{ unfold waitTillActive.
      eapply (waitTillActive_round_active E deploy 9 _ tok u); [exact Hsdk|].
      cbn [trace add_events]. rewrite <- app_assoc. exact Hpoll. }
  rewrite Hurl. cbn [negb]. rewrite add_events_app.
  erewrite bind_exit_eq; [reflexivity|].
  rewrite (bind_ret_eq (log _ _) _ _ tt _ (emit_add _ _)).
  unfold process_exit. by rewrite add_events_app, <- !app_assoc.
Qed.

Lemma active_deploy_without_url_fails_witness :
  fst (deploy_single Cases.urlless "web-app"
         [Sample.unchangedApp; Sample.webApp; Sample.apiFn] Sample.ready)
    = Exit 1.
Proof.
  rewrite (active_deploy_without_url_fails Cases.urlless "web-app"
             [Sample.unchangedApp; Sample.webApp; Sample.apiFn] Sample.ready
             (snd (deployPackage Cases.urlless (Some Sample.webApp)
                     Sample.ready))
             "env-token" Cases.fullDeploy (Some "")).
  - reflexivity.
  - vm_compute. reflexivity.
  - reflexivity.
  - reflexivity.
  - reflexivity.
  - reflexivity.
Defined.

(** ** How the batch branch ends *)

Lemma bind_no_ret {A B} (m : M A) (k : A -> M B) w :
  (forall a w1, forall b, fst (k a w1) <> Ret b) ->
  forall b, fst (bind m k w) <> Ret b.
Proof.
  intros Hk b. unfold bind. destruct (m w) as [[a|e|c] w1]; [apply Hk|done..].
Qed.

(** X19. The batch branch of [deploy] never returns to its caller: it ends
    in [process.exit] or in a thrown error.  When no package yields a deploy
    (every package is skipped, or there is no package at all) it exits with
    status 0 right after the loop over the packages: neither the line
    "Deploys created successfully!" nor any activation follows. *)
Theorem batch_branch_always_ends_the_process E packages w :
  fst (deploy_batch E packages w) <> Ret tt /\
  (forall w1,
      deploy_createAll E packages [] w = (Ret [], w1) ->
      deploy_batch E packages w = (Exit 0, w1)) /\
  deploy_batch E [] w = (Exit 0, w).
Proof.
  split; [|split].
  - unfold deploy_batch.
    repeat (apply bind_no_ret; intros ? ?). done.
  - intros w1 Hloop. unfold deploy_batch.
    by rewrite (bind_ret_eq _ _ _ _ _ Hloop).
  - reflexivity.
Qed.

Lemma batch_branch_always_ends_the_process_witness :
  deploy_batch Sample.happy [Sample.unchangedApp] Sample.ready
    = (Exit 0,
       snd (deploy_createAll Sample.happy [Sample.unchangedApp] []
              Sample.ready)).
Proof.
  apply (batch_branch_always_ends_the_process Sample.happy
           [Sample.unchangedApp] Sample.ready).
  vm_compute. reflexivity.
Defined.

(** ** The URLs the batch branch lists *)

Lemma obj_set_keys {V} (o : JsObj V) k v :
  obj_get o k <> None -> map fst (obj_set o k v) = map fst o.
Proof.
  induction o as [|[k0 v0] o IH]; cbn; [done|].
  destruct (String.eqb k0 k); cbn; [done|].
  intros H. by rewrite IH.
Qed.

(** One turn of the activation loop, when the loop goes on. *)
Lemma activateAll_cons_ret E folder rest deploys w deploys' w' :
  deploy_activateAll E (folder :: rest) deploys w = (Ret deploys', w') ->
  exists deploy u w1,
    obj_get deploys folder = Some deploy /\
    truthy u = true /\
    deploy_activateAll E rest
      (obj_set deploys folder
         {| d_id := d_id deploy; d_files := d_files deploy; d_url := u |}) w1
      = (Ret deploys', w').
Proof.
  cbn [deploy_activateAll]. intros Hrun.
  rewrite (bind_ret_eq (log _ _) _ _ tt _ (emit_add _ _)) in Hrun.
  unfold bind at 1 in Hrun.
  destruct (sdk_member "activateDeploy" _) as [[[]|e|c] w1]; try discriminate.
  destruct (obj_get deploys folder) as [deploy|]; [|discriminate].
  unfold bind at 1 in Hrun.
  destruct (call _ _ w1) as [[[]|e|c] w2]; try discriminate.
  unfold bind at 1 in Hrun.
  destruct (waitTillActive E deploy w2) as [[u|e|c] w3]; try discriminate.
  destruct (truthy u) eqn:Hurl; cbn [negb] in Hrun.
  - rewrite (bind_ret_eq (ret tt) _ _ tt _ eq_refl) in Hrun.
    by exists deploy, u, w3.
  - unfold bind at 1 in Hrun.
    by rewrite (bind_ret_eq (log _ _) _ _ tt _ (emit_add _ _)) in Hrun.
Qed.

Lemma activateAll_ret E folders : forall deploys w deploys' w',
  deploy_activateAll E folders deploys w = (Ret deploys', w') ->
  map fst deploys' = map fst deploys /\
  (forall k, In k folders ->
     exists d, obj_get deploys' k = Some d /\ truthy (d_url d) = true) /\
  (forall k d, obj_get deploys k = Some d -> truthy (d_url d) = true ->
     exists d', obj_get deploys' k = Some d' /\ truthy (d_url d') = true).
Proof.
  induction folders as [|folder rest IH]; intros deploys w deploys' w' Hrun.
  - cbn in Hrun. unfold ret in Hrun. simplify_eq.
    split; [done|]. split; [by intros k []|eauto].
  - destruct (activateAll_cons_ret _ _ _ _ _ _ _ Hrun)
      as (deploy & u & w1 & Hget & Hurl & Hrest).
    destruct (IH _ _ _ _ Hrest) as (Hkeys & Hin & Hkept).
    assert (Hset : exists d, obj_get deploys' folder = Some d /\
                             truthy (d_url d) = true).
    { apply (Hkept folder
               {| d_id := d_id deploy; d_files := d_files deploy;
                  d_url := u |}); [|exact Hurl].
      by rewrite obj_get_set, String.eqb_refl. }
    split; [|split].
    + rewrite Hkeys. apply obj_set_keys. congruence.
    + intros k [<-|Hk]; [exact Hset|by apply Hin].
    + intros k d Hk Hd.
      destruct (String.eqb_spec folder k) as [<-|Hne]; [exact Hset|].
      eapply Hkept; [|exact Hd]. rewrite obj_get_set.
      by destruct (String.eqb_spec folder k).
Qed.

Lemma Forall_omap {A B} (P : B -> Prop) (f : A -> option B) l :
  (forall a b, In a l -> f a = Some b -> P b) -> Forall P (omap f l).
Proof.
  induction l as [|a l IH]; intros H; cbn; [constructor|].
  destruct (f a) as [b|] eqn:Hf.
  - constructor; [eapply H; [by left|done]|]. apply IH. intros; eapply H; eauto.
    by right.
  - apply IH. intros; eapply H; eauto. by right.
Qed.

(** X20. When the activation loop of the batch branch runs to its end over
    the keys of the collected deploys, the object still has the same keys in
    the same order and every deploy in it carries a usable (non-empty)
    [url]: the list of URLs printed at the end has no blank or [undefined]
    line. *)
Theorem batch_lists_only_usable_urls E deploys w deploys' w' :
  deploy_activateAll E (obj_keys deploys) deploys w = (Ret deploys', w') ->
  map fst deploys' = map fst deploys /\
  Forall (fun d => truthy (d_url d) = true) (obj_values deploys').
Proof.
  intros Hrun.
  destruct (activateAll_ret _ _ _ _ _ _ Hrun) as (Hkeys & Hin & _).
  split; [exact Hkeys|]. unfold obj_values. apply Forall_omap.
  intros k d Hk Hget. unfold obj_keys in Hk. rewrite Hkeys in Hk.
  destruct (Hin k Hk) as (d' & Hget' & Hurl). congruence.
Qed.

Lemma batch_lists_only_usable_urls_witness :
  Forall (fun d => truthy (d_url d) = true)
    (obj_values
       (obj_set
          (obj_set Cases.twoDeploys "web-app"
             {| d_id := "d-app"; d_files := []; d_url := Some "https://d-app" |})
          "api-fn"
          {| d_id := "d-function"; d_files := [];
             d_url := Some "https://d-function" |})).
Proof.
  refine (proj2 (batch_lists_only_usable_urls Sample.happy Cases.twoDeploys
                   Sample.ready _
                   (snd (deploy_activateAll Sample.happy
                           (obj_keys Cases.twoDeploys) Cases.twoDeploys
                           Sample.ready)) _)).
  vm_compute. reflexivity.
Defined.

(** ** A poll that fails *)

Lemma waitTillActive_round_error E deploy n w tok err :
  this_sdk w = Some tok ->
  sdk_isDeployActive E (trace w ++ [EvSleep 5000]) (d_id deploy) = Err err ->
  waitTillActive_rounds E (S n) deploy w
    = (Throw err, add_events w (poll_round (d_id deploy))).
Proof.
  intros Hsdk Hans. cbn [waitTillActive_rounds].
  unfold bind, sleep, sdk_call, call.
  rewrite emit_add. cbn [this_sdk add_events trace]. rewrite Hsdk, Hans.
  rewrite emit_add, add_events_app. reflexivity.
Qed.

Lemma waitTillActive_rounds_error E deploy k : forall n w tok err,
  k < n ->
  this_sdk w = Some tok ->
  (forall j, j < k -> exists u,
      sdk_isDeployActive E (trace w ++ rounds j (d_id deploy) ++ [EvSleep 5000])
        (d_id deploy) = Ok {| active := false; url := u |}) ->
  sdk_isDeployActive E (trace w ++ rounds k (d_id deploy) ++ [EvSleep 5000])
    (d_id deploy) = Err err ->
  waitTillActive_rounds E n deploy w
    = (Throw err, add_events w (rounds (S k) (d_id deploy))).
Proof.
  induction k as [|k IH]; intros n w tok err Hlt Hsdk Hbefore Hat.
  - destruct n as [|n]; [lia|]. simpl in Hat.
    by rewrite (waitTillActive_round_error E deploy n w tok err Hsdk Hat).
  - destruct n as [|n]; [lia|].
    destruct (Hbefore 0) as [u0 Hu0]; [lia|]. simpl in Hu0.
    rewrite (waitTillActive_round_inactive E deploy n w tok u0 Hsdk Hu0).
    rewrite (IH n (add_events w (poll_round (d_id deploy))) tok err).
    + by rewrite add_events_app.
    + lia.
    + done.
    + intros j Hj. destruct (Hbefore (S j)) as [u' Hu']; [lia|].
      exists u'. rewrite <- Hu'. simpl. f_equal.
      by rewrite <- !app_assoc.
    + rewrite <- Hat. simpl. f_equal. by rewrite <- !app_assoc.
Qed.

(** X21. [waitTillActive] does not retry a poll that fails: when the polls
    before attempt [k + 1] report the deploy inactive and that attempt is
    rejected, the wait ends there with the error of the poll thrown to the
    caller, after [k + 1] pauses and polls. *)
Theorem waitTillActive_throws_at_the_first_failed_poll
    E deploy w tok k err :
  k < 10 ->
  this_sdk w = Some tok ->
  (forall j, j < k -> exists u,
      sdk_isDeployActive E (trace w ++ rounds j (d_id deploy) ++ [EvSleep 5000])
        (d_id deploy) = Ok {| active := false; url := u |}) ->
  sdk_isDeployActive E (trace w ++ rounds k (d_id deploy) ++ [EvSleep 5000])
    (d_id deploy) = Err err ->
  waitTillActive E deploy w
    = (Throw err, add_events w (rounds (S k) (d_id deploy))).
Proof.
  intros Hlt Hsdk Hbefore Hat. unfold waitTillActive.
  by apply (waitTillActive_rounds_error E deploy k 10 w tok err).
Qed.

Lemma waitTillActive_throws_at_the_first_failed_poll_witness :
  waitTillActive Cases.shaky Sample.aDeploy Sample.ready
    = (Throw Sample.timedOut, add_events Sample.ready (rounds 2 "d-app")).
Proof.
  apply (waitTillActive_throws_at_the_first_failed_poll Cases.shaky
           Sample.aDeploy Sample.ready "env-token" 1 Sample.timedOut).
  - lia.
  - reflexivity.
  - intros j Hj. exists None. destruct j as [|j]; [reflexivity|lia].
  - reflexivity.
Defined.

(** ** A single package without changes *)

(** X22. In single-package mode, when the [createDeploy] call that the run
    of the package makes is answered with the no-changes error, the run
    ends where [deployPackage] ended: [deploy] returns normally, without a
    call of [process.exit], and nothing is activated, polled or announced as
    deployed. *)
Theorem single_package_without_changes_returns
    E name packages pkg w err :
  List.find (fun p => String.eqb (pkg_name p) name) packages = Some pkg ->
  has_code err "NO_CHANGES_DETECTED" = true ->
  createDeploy_answered E (deployPackage E (Some pkg)) w (Err err) ->
  exists w1,
    deployPackage E (Some pkg) w = (Ret None, w1) /\
    deploy_single E name packages w = (Ret tt, w1).
Proof.
  intros Hfind Hcode Hanswered.
  destruct (deployPackage_no_changes E err Hcode pkg w Hanswered)
    as [w1 Hskip].
  exists w1. split; [exact Hskip|].
  unfold deploy_single. rewrite Hfind.
  by rewrite (bind_ret_eq _ _ _ _ _ Hskip).
Qed.

Lemma single_package_without_changes_returns_witness :
  exists w1,
    deployPackage Cases.comparing (Some Sample.webApp) Sample.ready
      = (Ret None, w1) /\
    deploy_single Cases.comparing "web-app" [Sample.webApp; Sample.apiFn]
      Sample.ready
      = (Ret tt, w1).
Proof.
  apply (single_package_without_changes_returns Cases.comparing "web-app"
           [Sample.webApp; Sample.apiFn] Sample.webApp Sample.ready
           Sample.noChanges).
  - reflexivity.
  - reflexivity.
  - exists [running_build; browserBuild Sample.webApp;
            EvLog LLog "Preparing deploy files...";
            EvGetFilesDigest "/p/web-app/build";
            EvLog LLog "Creating a new deploy..."],
           [EvLog LInfo "No changes detected"],
           (Some "env-site"), "app", "/", Sample.webFiles, (Some false).
    split; [vm_compute; reflexivity|].
    split; [by repeat constructor|reflexivity].
Defined.

(** ** A run that asks nothing *)

(** X23. A run whose environment supplies a non-empty token that [whoami]
    accepts and a non-empty site id is never interactive: whatever the
    packages and the service do afterwards, neither the token prompt nor the
    site prompt is shown.  These are the values the [--ci] guard insists
    on. *)
Theorem run_with_valid_environment_never_prompts
    E name opts w tok site user :
  env_WEBINY_ACCESS_TOKEN E = Some tok -> tok <> "" ->
  env_WEBINY_SITE_ID E = Some site -> site <> "" ->
  sdk_whoami E (trace w ++ [EvNewSDK tok]) = Ok (Some user) ->
  Forall (fun ev => is_prompt ev = false) (emitted (deploy E name opts) w).
Proof.
  intros Htok Hne Hsite Hne' Hwho.
  set (P := fun ev => is_prompt ev = false).
  assert (H : only P w (snd (deploy E name opts w))).
  { unfold deploy.
    apply bind_rel; [exact _| |].
    { destruct (ci opts); [|use steps_ret].
      use steps_validateCiRequirements. intros; by apply only_allows. }
    intros [] w1 Hguard. rewrite (ci_guard_ret E _ _ _ Hguard).
    apply bind_rel; [exact _| |].
    { unfold setupSDK. erewrite try_catch_ret_eq.
      2:{ rewrite (bind_ret_eq _ _ _ _ _ (getAccessToken_env E w tok Htok Hne)).
          rewrite truthy_some by done. cbn [negb].
          rewrite (bind_ret_eq (instantiateSDK _) _ _ tt _ eq_refl).
          erewrite (bind_ret_eq _ _ _ (Some user)).
          2:{ eapply sdk_call_ok; [reflexivity|exact Hwho]. }
          reflexivity. }
      exists [EvNewSDK tok; EvWhoami]. cbn. rewrite <- app_assoc.
      split; [done|by repeat constructor]. }
    intros _ w2 _. apply bind_rel; [exact _| |].
    { rewrite (resolveSite_env E w2 site Hsite Hne').
      by apply only_same_trace. }
    intros _ w3 _. use steps_deploy_packages.
    - intros ev Hev. apply only_allows. by destruct ev.
    - intros ev Hev. apply only_allows. by destruct ev.
    - by apply only_allows.
    - by apply only_allows. }
  destruct H as (d & Hd & F). unfold emitted. by rewrite Hd, drop_trace_app.
Qed.

Lemma run_with_valid_environment_never_prompts_witness :
  Forall (fun ev => is_prompt ev = false)
    (emitted (deploy Sample.happy None {| ci := true |}) Sample.fresh).
Proof.
  apply (run_with_valid_environment_never_prompts Sample.happy None
           {| ci := true |} Sample.fresh "env-token" "env-site" "user-1");
    solve [reflexivity | discriminate].
Defined.

(** ** A token the service does not know *)

Lemma everything_allowed ev : allows (only (fun _ => True)) ev.
Proof. by apply only_allows. Qed.

Lemma setupSDK_invalid_token_run E w tok :
  env_WEBINY_ACCESS_TOKEN E = Some tok -> tok <> "" ->
  sdk_whoami E (trace w ++ [EvNewSDK tok]) = Ok None ->
  setupSDK E w
    = try_catch
        (accessToken <-
           askForToken_inputs E
             (prompt_token_inputs E
                (trace w ++ removelast (invalid_token_events tok))) ;;
         storeAccessToken accessToken)
        (fun err => checkNetworkError err)
        (add_events (snd (instantiateSDK tok w))
           (tail (invalid_token_events tok))).
Proof.
  intros Htok Hne Hwho. unfold setupSDK.
  rewrite (try_catch_bind_ret _ _ _ _ _ _
             (getAccessToken_env E w tok Htok Hne)).
  rewrite truthy_some by done. cbn [negb str default].
  rewrite (try_catch_bind_ret (instantiateSDK _) _ _ _ tt _ eq_refl).
  erewrite (try_catch_bind_ret (sdk_call _ _ _));
    [|eapply sdk_call_ok; [reflexivity|exact Hwho]].
  cbv beta iota.
  rewrite (try_catch_bind_ret (log _ _) _ _ _ tt _ (emit_add _ _)).
  rewrite add_events_app. unfold howToCreateAToken.
  rewrite (try_catch_bind_ret (log _ _) _ _ _ tt _ (emit_add _ _)).
  rewrite add_events_app. unfold ensureToken, askForToken.
  unfold try_catch, bind, ask. rewrite emit_add, add_events_app.
  cbn [snd app add_events trace instantiateSDK invalid_token_events
       removelast tail].
  by rewrite <- app_assoc.
Qed.

Lemma setupSDK_invalid_token E w tok :
  env_WEBINY_ACCESS_TOKEN E = Some tok -> tok <> "" ->
  sdk_whoami E (trace w ++ [EvNewSDK tok]) = Ok None ->
  exists rest, emitted (setupSDK E) w = invalid_token_events tok ++ rest.
Proof.
  intros Htok Hne Hwho. unfold emitted.
  rewrite (setupSDK_invalid_token_run E w tok Htok Hne Hwho).
  match goal with
  | |- context [try_catch ?m ?h ?w5] =>
      assert (Hm : steps (only (fun _ => True)) (try_catch m h));
      [|destruct (Hm w5) as (d & Hd & _); exists d; rewrite Hd]
  end.
  - steps_walk.
    + use steps_askForToken_inputs.
      * intros; apply everything_allowed.
      * intros; by apply only_instantiateSDK.
    + intros w'. by apply only_same_trace.
    + use steps_checkNetworkError. intros; apply everything_allowed.
  - cbn [add_events trace instantiateSDK snd invalid_token_events tail].
    rewrite <- !app_assoc. apply drop_trace_app.
Qed.

(** X24. A token of the environment that [whoami] does not know is not
    fatal, with or without [--ci]: the run reports that the existing token
    is invalid, explains how to create one and shows the token prompt, so a
    CI run with both variables set can still become interactive. *)
Theorem unknown_environment_token_leads_to_the_prompt
    E name opts w tok site :
  env_WEBINY_ACCESS_TOKEN E = Some tok -> tok <> "" ->
  env_WEBINY_SITE_ID E = Some site -> site <> "" ->
  sdk_whoami E (trace w ++ [EvNewSDK tok]) = Ok None ->
  exists rest,
    emitted (deploy E name opts) w = invalid_token_events tok ++ rest.
Proof.
  intros Htok Hne Hsite Hne' Hwho.
  destruct (setupSDK_invalid_token E w tok Htok Hne Hwho) as [rest Hsetup].
  assert (Hguard : (if ci opts then validateCiRequirements E else ret tt) w
                   = (Ret tt, w)).
  { destruct (ci opts); [|done]. unfold validateCiRequirements.
    by rewrite Htok, Hsite, !truthy_some. }
  assert (Hk : steps (only (fun _ => True))
                 (deploy_resolveSite E ;; deploy_packages E name)).
  { use steps_bind.
    - use steps_deploy_resolveSite.
      + intros; apply everything_allowed.
      + intros siteId w'. by apply only_same_trace.
      + intros siteId w'. by apply only_same_trace.
    - intros _. use steps_deploy_packages; intros; apply everything_allowed. }
  unfold emitted in *. unfold deploy.
  rewrite (bind_ret_eq _ _ _ _ _ Hguard).
  assert (Hsnd : exists d,
             trace (snd ((setupSDK E ;; deploy_resolveSite E ;;
                          deploy_packages E name) w))
             = trace (snd (setupSDK E w)) ++ d).
  { unfold bind at 1.
    destruct (setupSDK E w) as [[[]|e|c] w1]; cbn [snd];
      try (exists []; by rewrite app_nil_r).
    destruct (Hk w1) as (d & Hd & _). by exists d. }
  destruct Hsnd as [d Hd]. exists (rest ++ d). rewrite Hd.
  assert (Hlen : length (trace w) <= length (trace (snd (setupSDK E w)))).
  { destruct (steps_setupSDK E (only (fun _ => True))
                ltac:(intros; apply everything_allowed)
                ltac:(intros; by apply only_instantiateSDK)
                ltac:(intros token w'; by apply only_same_trace) w)
      as (d0 & Hd0 & _).
    rewrite Hd0, length_app. lia. }
  rewrite drop_app_le by exact Hlen. by rewrite Hsetup, app_assoc.
Qed.

Lemma unknown_environment_token_leads_to_the_prompt_witness :
  exists rest,
    emitted (deploy Cases.expired None {| ci := true |}) Sample.fresh
      = invalid_token_events "env-token" ++ rest.
Proof.
  apply (unknown_environment_token_leads_to_the_prompt Cases.expired None
           {| ci := true |} Sample.fresh "env-token" "env-site");
    solve [reflexivity | discriminate].
Defined.

(** * The [File] entity *)

(** ** The validator of [tags] *)

Lemma check_tags_ok tags :
  FileEntity.check_tags tags = Ok tt <-> Forall good_tag tags.
Proof.
  induction tags as [|item rest IH]; cbn [FileEntity.check_tags].
  - split; [constructor|done].
  - destruct item as [| |tag|items|];
      try (split; [done|intros H; inversion H as [|? ? (t & Ht & _)];
                         discriminate]).
    destruct (Nat.ltb_spec 50 (js_length tag)) as [Hlong|Hshort].
    + split; [done|]. intros H. inversion H as [|? ? (t & Ht & Hlen)].
      simplify_eq. lia.
    + rewrite IH. split.
      * intros H. constructor; [|done]. exists tag. split; [done|lia].
      * intros H. by inversion H.
Qed.

(** X25. The validator of [tags] only judges arrays: every other value
    passes.  An array passes exactly when it has at most 15 items and every
    item is a string whose [length], counted in UTF-16 code units as the
    code counts it, is at most 50. *)
Theorem tags_validator_accepts_exactly_the_well_formed_arrays tags :
  FileEntity.tags_validator tags = Ok tt <->
  forall items,
    tags = FileEntity.VArray items ->
    length items <= 15 /\ Forall good_tag items.
Proof.
  destruct tags as [| |s|items|]; cbn [FileEntity.tags_validator];
    try (split; [intros _ items; discriminate|done]).
  destruct (Nat.ltb_spec 15 (length items)) as [Hmany|Hfew].
  - split; [done|]. intros H. destruct (H items eq_refl). lia.
  - rewrite check_tags_ok. split.
    + intros H items' [= <-]. done.
    + intros H. by destruct (H items eq_refl).
Qed.

Lemma check_tags_first_offence pre bad post :
  Forall good_tag pre -> ~ good_tag bad ->
  FileEntity.check_tags (pre ++ bad :: post) = Err (tag_error bad).
Proof.
  intros Hpre Hbad. induction Hpre as [|item pre (tag & -> & Hlen) _ IH];
    cbn [app FileEntity.check_tags].
  - destruct bad as [| |tag|items|]; try done. cbn [tag_error].
    destruct (Nat.ltb_spec 50 (js_length tag)) as [_|Hshort]; [done|].
    destruct Hbad. exists tag. split; [done|lia].
  - destruct (Nat.ltb_spec 50 (js_length tag)) as [Hlong|_]; [lia|done].
Qed.

(** X26. The validator of [tags] reports one error, the first it meets:
    more than 15 items are rejected for their number whatever the items are;
    otherwise the first item that is not a string of at most 50 UTF-16 code
    units decides, with the type error for a non-string and the length
    error, which quotes the tag, for a long string.  Items after it are not
    looked at. *)
Theorem tags_validator_reports_the_first_offence pre bad post :
  Forall good_tag pre -> ~ good_tag bad ->
  FileEntity.tags_validator (FileEntity.VArray (pre ++ bad :: post))
    = Err (if 15 <? length (pre ++ bad :: post)
           then FileEntity.error "You cannot set more than 15 tags."
           else tag_error bad).
Proof.
  intros Hpre Hbad. cbn [FileEntity.tags_validator].
  destruct (15 <? length (pre ++ bad :: post)); [done|].
  by apply check_tags_first_offence.
Qed.

Lemma tags_validator_reports_the_first_offence_witness :
  FileEntity.tags_validator
    (FileEntity.VArray
       [FileEntity.VString "news"; FileEntity.VString Cases.accented;
        FileEntity.VOther;
        FileEntity.VString "0123456789012345678901234567890123456789012345678901234567890"])
    = Err (FileEntity.error "Tag must be typeof string.").
Proof.
  apply (tags_validator_reports_the_first_offence
           [FileEntity.VString "news"; FileEntity.VString Cases.accented]
           FileEntity.VOther
           [FileEntity.VString "0123456789012345678901234567890123456789012345678901234567890"]).
  - constructor; [|constructor; [|constructor]].
    + exists "news". split; [reflexivity|vm_compute; lia].
    + exists Cases.accented. split; [reflexivity|vm_compute; lia].
  - intros (tag & Htag & _). discriminate.
Defined.

(** ** The [onSet] hook of [tags] *)

Lemma lower_items_ok toLowerCase items vs :
  FileEntity.lower_items toLowerCase items = Ok vs <->
  exists tags,
    items = map FileEntity.VString tags /\
    vs = map (fun tag => FileEntity.VString (toLowerCase tag)) tags.
Proof.
  revert vs. induction items as [|item rest IH]; intros vs;
    cbn [FileEntity.lower_items].
  - split.
    + intros [= <-]. by exists [].
    + intros ([|tag tags] & Hitems & ->); [done|discriminate].
  - split.
    + destruct item as [| |tag|items|]; cbn [FileEntity.lower_item];
        try discriminate.
      destruct (FileEntity.lower_items toLowerCase rest) as [vs'|e] eqn:Hrest;
        [|discriminate].
      intros [= <-]. destruct (proj1 (IH vs') eq_refl) as (tags & -> & ->).
      by exists (tag :: tags).
    + intros ([|tag tags] & Hitems & ->); [discriminate|].
      cbn [map] in Hitems. injection Hitems as -> ->.
      cbn [FileEntity.lower_item map].
      by rewrite (proj2 (IH _) (ex_intro _ tags (conj eq_refl eq_refl))).
Qed.

Lemma map_VString_inj tags tags' :
  map FileEntity.VString tags = map FileEntity.VString tags' -> tags = tags'.
Proof.
  revert tags'. induction tags as [|tag tags IH]; intros [|tag' tags'] H;
    try done.
  cbn in H. injection H as -> H. by rewrite (IH _ H).
Qed.

(** X27. The [onSet] hook of [tags] returns a new array exactly when every
    item of the array it is given is a string: the result has the lower-case
    form of each tag, in the same order and number.  An array with an item
    that is not a string makes the hook throw, and a value that is not an
    array is returned as it is. *)
Theorem tags_onSet_lowers_arrays_of_strings toLowerCase value v :
  FileEntity.tags_onSet toLowerCase value = Ok v <->
  (exists tags,
      value = FileEntity.VArray (map FileEntity.VString tags) /\
      v = FileEntity.VArray
            (map (fun tag => FileEntity.VString (toLowerCase tag)) tags)) \/
  ((forall items, value <> FileEntity.VArray items) /\ v = value).
Proof.
  destruct value as [| |s|items|]; cbn [FileEntity.tags_onSet];
    try (split;
         [intros [= <-]; right; split; [intros items; discriminate|done]
         |intros [(tags & Hv & _)|[_ ->]]; [discriminate|done]]).
  destruct (FileEntity.lower_items toLowerCase items) as [vs|e] eqn:Hrun.
  - apply lower_items_ok in Hrun. destruct Hrun as (tags & -> & ->). split.
    + intros [= <-]. left. by exists tags.
    + intros [(tags' & Hv & ->)|[Hno _]]; [|by destruct (Hno _ eq_refl)].
      injection Hv as Hv. apply map_VString_inj in Hv. by subst tags'.
  - split; [done|].
    intros [(tags & Hv & ->)|[Hno _]]; [|by destruct (Hno _ eq_refl)].
    injection Hv as ->.
    pose proof (proj2 (lower_items_ok toLowerCase _ _)
                  (ex_intro _ tags (conj eq_refl eq_refl))) as Hok.
    congruence.
Qed.

Lemma length_append (a b : string) :
  String.length (a +:+ b) = String.length a + String.length b.
Proof. induction a as [|c a IH]; simpl; [done|]. by f_equal. Qed.

Lemma good_lowered (toLowerCase : string -> string) tags :
  Forall good_tag
    (map (fun tag => FileEntity.VString (toLowerCase tag)) tags) <->
  Forall (fun tag => js_length (toLowerCase tag) <= 50) tags.
Proof.
  induction tags as [|tag tags IH]; cbn [map].
  - split; constructor.
  - split; intros H; inversion H as [|? ? Htag Hrest]; subst;
      (constructor; [|by apply IH]).
    + by destruct Htag as (t & [= <-] & Ht).
    + by exists (toLowerCase tag).
Qed.

(** X28. A value that went through the [onSet] hook never fails the
    validator for the type of a tag: all the validator can still object to
    is the number of tags or the length of a tag, which it measures in
    UTF-16 code units on the lower-case form. *)
Theorem tags_set_through_the_hook_are_strings toLowerCase value v :
  FileEntity.tags_onSet toLowerCase value = Ok v ->
  FileEntity.tags_validator v <> Err (FileEntity.error "Tag must be typeof string.") /\
  (forall tags,
      value = FileEntity.VArray (map FileEntity.VString tags) ->
      (FileEntity.tags_validator v = Ok tt <->
       length tags <= 15 /\
       Forall (fun tag => js_length (toLowerCase tag) <= 50) tags)).
Proof.
  intros Hset.
  destruct value as [| |s|items|]; cbn [FileEntity.tags_onSet] in Hset;
    try (injection Hset as <-; split; [done|intros tags; discriminate]).
  destruct (FileEntity.lower_items toLowerCase items) as [vs|e] eqn:Hrun;
    [|discriminate].
  injection Hset as <-.
  apply lower_items_ok in Hrun. destruct Hrun as (tags & -> & ->).
  cbn [FileEntity.tags_validator]. rewrite length_map. split.
  - destruct (15 <? length tags); [done|].
    induction tags as [|tag tags IH]; cbn [map FileEntity.check_tags];
      [done|].
    destruct (50 <? _); [|done]. intros [= H].
    apply (f_equal String.length) in H. rewrite !length_append in H.
    cbn in H. lia.
  - intros tags' Heq. injection Heq as Heq.
    apply map_VString_inj in Heq. subst tags'.
    destruct (Nat.ltb_spec 15 (length tags)) as [Hmany|Hfew].
    + split; [done|]. intros [? _]. lia.
    + rewrite check_tags_ok, good_lowered. split; [done|by intros [_ ?]].
Qed.

Lemma tags_set_through_the_hook_are_strings_witness :
  FileEntity.tags_validator
    (FileEntity.VArray
       [FileEntity.VString "news"; FileEntity.VString Cases.accented])
    <> Err (FileEntity.error "Tag must be typeof string.") /\
  FileEntity.tags_validator
    (FileEntity.VArray
       [FileEntity.VString "news"; FileEntity.VString Cases.accented])
    = Ok tt.
Proof.
  destruct (tags_set_through_the_hook_are_strings Cases.asciiLower
              (FileEntity.VArray
                 [FileEntity.VString "News";
                  FileEntity.VString Cases.accented])
              (FileEntity.VArray
                 [FileEntity.VString "news";
                  FileEntity.VString Cases.accented])
              eq_refl) as [Htype Hverdict].
  split; [exact Htype|].
  apply (Hverdict ["News"; Cases.accented] eq_refl).
  split; [cbn; lia|]. repeat constructor; vm_compute; lia.
Defined.

(** ** The [beforeCreate] listener *)

Lemma slash_is_not_http s :
  FileEntity.startsWith s "/" = true -> FileEntity.startsWith s "http" = false.
Proof.
  unfold FileEntity.startsWith. destruct s as [|c s]; [done|].
  cbn [String.prefix].
  destruct (Ascii.ascii_dec "/" c) as [<-|Hne]; [|discriminate].
  intros _. by destruct (Ascii.ascii_dec "h" "/").
Qed.

(** X29. [beforeCreate] lets a file through its path check exactly when its
    [src] starts with a forward slash: the second test, for a leading
    [http], can never reject a [src] that passed the first.  A [src] that
    fails the check is rejected without the uniqueness query being made; for
    a [src] that passes, a file found by the query raises the uniqueness
    error, a failing query raises its own error, and otherwise [createdBy]
    is set to the id of the user and [src] is kept. *)
Theorem beforeCreate_checks_the_leading_slash findOne user_id file :
  FileEntity.beforeCreate findOne user_id file
    = if FileEntity.startsWith (FileEntity.src file) "/"
      then match findOne (FileEntity.src file) with
           | Err e => Err e
           | Ok true => Err FileEntity.uniqueError
           | Ok false =>
               Ok {| FileEntity.src := FileEntity.src file;
                     FileEntity.createdBy := user_id |}
           end
      else Err FileEntity.relativePathError.
Proof.
  unfold FileEntity.beforeCreate.
  destruct (FileEntity.startsWith (FileEntity.src file) "/") eqn:Hslash;
    [|done].
  by rewrite (slash_is_not_http _ Hslash).
Qed.

(** * The order of a batch run *)

(** X30. In the batch branch nothing is activated before every package has
    been dealt with: what a batch run records splits into a first part
    without any activation, pause or poll, and a second part without any
    build, archive, digest, deploy creation, presign request, read or
    upload. *)
Theorem batch_activates_after_all_packages E packages w :
  exists before after,
    emitted (deploy_batch E packages) w = before ++ after /\
    Forall (fun ev => is_activation ev = false) before /\
    Forall (fun ev => is_package_work ev = false) after.
Proof.
  set (P1 := fun ev => package_event ev = true \/ ev = EvConsoleLog).
  set (P2 := fun ev => activation_event ev = true).
  assert (H1 : steps (adds P1) (deploy_createAll E packages [])).
  { use steps_deploy_createAll.
    - intros ev Hev. apply adds_allows. by left.
    - apply adds_allows. by right. }
  assert (H2 : forall deploys : JsObj DeployRecord,
             steps (adds P2)
               ((if bool_decide (length (obj_keys deploys) = 0)
                 then process_exit 0 else ret tt) ;;
                log LSuccess "Deploys created successfully!" ;;
                deploys' <- deploy_activateAll E (obj_keys deploys) deploys ;;
                log LSuccess ("Deploy process completed!" +:+ nl) ;;
                log LInfo "Your apps/functions were deployed to these URLs:" ;;
                forEach (fun deploy => log LLog (str (d_url deploy)))
                  (obj_values deploys') ;;
                @process_exit unit 0)).
  { intros deploys. unfold log. steps_walk;
      try solve [ by apply adds_allows
                | use steps_deploy_activateAll; intros; by apply adds_allows ].
    use steps_forEach. intros deploy _. by apply steps_emit, adds_allows. }
  destruct (H1 w) as (d1 & Hd1 & F1).
  assert (Hrun : exists d2,
             snd (deploy_batch E packages w) = add_events w (d1 ++ d2) /\
             Forall P2 d2).
  { unfold deploy_batch. unfold bind at 1.
    destruct (deploy_createAll E packages [] w) as [[deploys|e|c] w1];
      cbn [snd] in Hd1; subst w1;
      try (exists []; split; [by rewrite app_nil_r|constructor]).
    destruct (H2 deploys (add_events w d1)) as (d2 & Hd2 & F2).
    exists d2. by rewrite Hd2, add_events_app. }
  destruct Hrun as (d2 & Hsnd & F2). exists d1, d2.
  split; [by apply emitted_snd|]. split.
  - eapply Forall_impl; [exact F1|]. intros ev [Hev| ->]; [|done].
    by destruct ev.
  - eapply Forall_impl; [exact F2|]. intros ev Hev. by destruct ev.
Qed.
